(** * asyncinput: the POSIX acquisition and dispatch engine

    A shallow embedding of [src/libasyncinput_posix.c]: the bounded rings,
    the legacy pointer reader, the keymap layer, the device registry with
    discovery and hotplug, the acquisition worker's decode step and the
    public entry points, followed by the properties proved about them.

    The program keeps one process-wide [struct g]; every function below
    takes it and returns it.  Calls into the operating system and into
    libxkbcommon are answered by oracles ([os_env], [platform]); the calls
    the program makes that change the world outside [g] (multiplexer
    registrations, closes, callback invocations) are appended to a trace.
    The mutexes only serialise whole operations, so each operation is one
    state transformer; the interleaving of threads is not modelled.

    C [int] values are modelled in [Z]; every index and counter of the
    program stays far inside the 32-bit range, so their arithmetic is
    written without wrap-around.  The 64-bit timestamp computation and the
    unsigned keymap code are written with their wrap-around. *)

From Stdlib Require Import ZArith Lia String Ascii DecimalString.
From stdpp Require Import base list.

Local Open Scope Z_scope.

(** ** Constants of the translation unit *)

Definition MAX_DEVICES : Z := 128.
Definition RING_SIZE : Z := 1024.

(** Linux input-event codes the program names (the header aliases them to
    [linux/input-event-codes.h]; its non-Linux placeholders for the kinds,
    axes and buttons carry the same numbers). *)
Definition NI_EV_KEY : Z := 1.
Definition NI_EV_REL : Z := 2.
Definition NI_REL_X : Z := 0.
Definition NI_REL_Y : Z := 1.
Definition NI_REL_WHEEL : Z := 8.
Definition NI_BTN_LEFT : Z := 272.
Definition NI_BTN_RIGHT : Z := 273.
Definition NI_BTN_MIDDLE : Z := 274.

(** [sys/inotify.h] *)
Definition IN_MOVED_TO : Z := 128.
Definition IN_CREATE : Z := 256.
Definition IN_DELETE : Z := 512.

(** ** C strings *)

Definition is_space (c : ascii) : bool :=
  let n := nat_of_ascii c in
  (Nat.eqb n 32 || (Nat.leb 9 n && Nat.leb n 13))%bool.

Definition digit_val (c : ascii) : option Z :=
  let n := nat_of_ascii c in
  if (Nat.leb 48 n && Nat.leb n 57)%bool then Some (Z.of_nat n - 48) else None.

Fixpoint skip_spaces (s : string) : string :=
  match s with
  | String c r => if is_space c then skip_spaces r else s
  | EmptyString => s
  end.

Fixpoint atoi_digits (s : string) (acc : Z) : Z :=
  match s with
  | String c r =>
      match digit_val c with
      | Some d => atoi_digits r (acc * 10 + d)
      | None => acc
      end
  | EmptyString => acc
  end.

(** [atoi]: leading white space, an optional sign, then the longest run of
    digits; 0 when there is none.  (A value outside [int] is undefined in C;
    the node numbers read here are small.) *)
Definition atoi (s : string) : Z :=
  match skip_spaces s with
  | String "-" r => - atoi_digits r 0
  | String "+" r => atoi_digits r 0
  | r => atoi_digits r 0
  end.

(** [strrchr s c]: the suffix of [s] that starts at the last [c]. *)
Fixpoint strrchr (s : string) (c : ascii) : option string :=
  match s with
  | EmptyString => None
  | String a r =>
      match strrchr r c with
      | Some t => Some t
      | None => if Ascii.eqb a c then Some s else None
      end
  end.

(** What a zeroed [char buf[size]] holds after [snprintf(buf, size, "%s", s)]
    or [strncpy(buf, s, size-1)]: at most [size-1] characters of [s]. *)
Definition c_copy (size : nat) (s : string) : string :=
  String.substring 0 (size - 1) s.

(** [s + n] *)
Definition str_skip (n : nat) (s : string) : string :=
  String.substring n (String.length s - n) s.

(** ["%d"] *)
Definition dec (n : Z) : string := NilZero.string_of_int (Z.to_int n).

(** [char path[64]; snprintf(path, sizeof(path), "/dev/input/event%d", i)] *)
Definition event_path (i : Z) : string := c_copy 64 ("/dev/input/event" ++ dec i).

(** ** Event records *)

(** [struct ni_event] as the POSIX unit uses it: the five fields of the
    public header plus the [extra], [x], [y] fields the unified mouse events
    of the legacy pointer reader write. *)
Record ni_event : Type := mk_event {
  device_id : Z;
  type : Z;
  code : Z;
  value : Z;
  timestamp_ns : Z;
  extra : Z;
  x : Z;
  y : Z
}.

(** [struct ni_event ev = {0}] *)
Definition ev_zero : ni_event := mk_event 0 0 0 0 0 0 0 0.

Definition set_device_id (e : ni_event) (v : Z) : ni_event :=
  mk_event v (type e) (code e) (value e) (timestamp_ns e) (extra e) (x e) (y e).
Definition set_type (e : ni_event) (v : Z) : ni_event :=
  mk_event (device_id e) v (code e) (value e) (timestamp_ns e) (extra e) (x e) (y e).
Definition set_code (e : ni_event) (v : Z) : ni_event :=
  mk_event (device_id e) (type e) v (value e) (timestamp_ns e) (extra e) (x e) (y e).
Definition set_value (e : ni_event) (v : Z) : ni_event :=
  mk_event (device_id e) (type e) (code e) v (timestamp_ns e) (extra e) (x e) (y e).
Definition set_timestamp_ns (e : ni_event) (v : Z) : ni_event :=
  mk_event (device_id e) (type e) (code e) (value e) v (extra e) (x e) (y e).
Definition set_extra (e : ni_event) (v : Z) : ni_event :=
  mk_event (device_id e) (type e) (code e) (value e) (timestamp_ns e) v (x e) (y e).
Definition set_x (e : ni_event) (v : Z) : ni_event :=
  mk_event (device_id e) (type e) (code e) (value e) (timestamp_ns e) (extra e) v (y e).
Definition set_y (e : ni_event) (v : Z) : ni_event :=
  mk_event (device_id e) (type e) (code e) (value e) (timestamp_ns e) (extra e) (x e) v.

(** [struct ni_key_event]; [text] is the [char text[]] buffer, one [Z] per
    byte.  (Its declaration is in a header revision that is not among the
    sources; the fields are those [maybe_emit_key_event] writes.) *)
Record ni_key_event : Type := mk_key_event {
  k_device_id : Z;
  k_timestamp_ns : Z;
  down : Z;
  keysym : Z;
  mods : Z;
  text : list Z
}.

(** [struct input_event] of [linux/input.h] *)
Record input_event : Type := mk_input_event {
  tv_sec : Z;
  tv_usec : Z;
  ie_type : Z;
  ie_code : Z;
  ie_value : Z
}.

(** [struct inotify_event]: the fields read. *)
Record inotify_event : Type := mk_inotify_event {
  in_mask : Z;
  in_len : Z;
  in_name : string
}.

(** ** The bounded ring

    [struct ringbuf] and [struct keyringbuf] have the same shape and their
    push and pop functions the same text, so one definition, polymorphic in
    the record stored, serves both.  [zero] is the all-zero record
    [memset] leaves in every slot. *)

Module Ring.
Section Ring.
Context {A : Type} (zero : A).

Record ringbuf : Type := mk_ring {
  ev : list A;      (* the RING_SIZE slots *)
  head : Z;
  tail : Z
}.

Definition ring_init : ringbuf :=
  mk_ring (replicate (Z.to_nat RING_SIZE) zero) 0 0.

Definition ring_push (r : ringbuf) (e : A) : ringbuf :=
  let next := (head r + 1) mod RING_SIZE in
  if negb (next =? tail r)
  then mk_ring (<[Z.to_nat (head r) := e]> (ev r)) next (tail r)
  else r.

(** The [while (n < max && r->tail != r->head)] loop of [ring_pop_many];
    [out] holds the slots [out[0..n-1]] written so far.  Each iteration
    increments [n], so [max - n] iterations are enough: the loop is unrolled
    [fuel] times, and with the [Z.to_nat max] of [ring_pop_many] it always
    stops at its own exit test ([ring_pop_many_exit]). *)
Fixpoint ring_pop_loop (fuel : nat) (r : ringbuf) (out : list A) (n max : Z)
  : ringbuf * list A * Z :=
  match fuel with
  | O => (r, out, n)
  | S fuel' =>
      if (n <? max) && negb (tail r =? head r)
      then ring_pop_loop fuel'
             (mk_ring (ev r) (head r) ((tail r + 1) mod RING_SIZE))
             (out ++ [nth (Z.to_nat (tail r)) (ev r) zero]) (n + 1) max
      else (r, out, n)
  end.

(** The ring after the call, the records copied to [out], and the count
    returned. *)
Definition ring_pop_many (r : ringbuf) (max : Z) : ringbuf * list A * Z :=
  ring_pop_loop (Z.to_nat max) r [] 0 max.

(** Pushing a whole sequence, oldest first, with no pop in between. *)
Definition ring_push_all (r : ringbuf) (l : list A) : ringbuf :=
  foldl ring_push r l.

(** *** Abstraction: the queued records, oldest first *)

Definition ring_count (r : ringbuf) : Z := (head r - tail r) mod RING_SIZE.

Definition ring_contents (r : ringbuf) : list A :=
  map (fun k => nth (Z.to_nat ((tail r + Z.of_nat k) mod RING_SIZE)) (ev r) zero)
      (seq 0 (Z.to_nat (ring_count r))).

Definition ring_full (r : ringbuf) : Prop :=
  (head r + 1) mod RING_SIZE = tail r.

(** The shape every ring built by [ring_init], [ring_push] and
    [ring_pop_many] has. *)
Definition ring_wf (r : ringbuf) : Prop :=
  length (ev r) = Z.to_nat RING_SIZE /\
  0 <= head r < RING_SIZE /\ 0 <= tail r < RING_SIZE.

End Ring.
Arguments ringbuf : clear implicits.
Arguments mk_ring {A}.
Arguments ev {A}.
Arguments head {A}.
Arguments tail {A}.
Arguments ring_push {A}.
Arguments ring_push_all {A}.
Arguments ring_count {A}.
Arguments ring_full {A}.
Arguments ring_wf {A}.
End Ring.
Import Ring.

(** The spec's capacity of the ring: its number of slots, a power of two. *)
Definition capacity : Z := RING_SIZE.

(** ** Devices and what lies outside the translation unit *)

Record device : Type := mk_device {
  d_fd : Z;
  d_id : Z;
  d_path : string
}.

Definition device_zero : device := mk_device 0 0 "".

(** [struct ni_device_info]: the fields [fill_device_info] and the callers
    write.  (Declared in the header revision that is not among the
    sources.) *)
Record ni_device_info : Type := mk_device_info {
  i_id : Z;
  i_path : string;
  i_bustype : Z;
  i_vendor : Z;
  i_product : Z;
  i_version : Z;
  i_name : string
}.

Definition info_zero : ni_device_info := mk_device_info 0 "" 0 0 0 0 "".

(** A device filter with its user pointer: non-zero result is [true]. *)
Definition ni_device_filter : Type := ni_device_info -> Z -> bool.

(** Callbacks are opaque code; a function pointer is its address and
    [NULL] is [None]. *)
Definition ni_callback : Type := Z.
Definition ni_key_callback : Type := Z.

Inductive xkb_mod : Type :=
  | XKB_MOD_NAME_SHIFT | XKB_MOD_NAME_CTRL | XKB_MOD_NAME_ALT | XKB_MOD_NAME_LOGO.

(** [struct xkb_rule_names]; [None] is [NULL]. *)
Record xkb_rule_names : Type := mk_rule_names {
  rn_rules : option string;
  rn_model : option string;
  rn_layout : option string;
  rn_variant : option string;
  rn_options : option string
}.

(** What the build and the headers that are not among the sources fix:
    whether [ASYNCINPUT_HAVE_XKBCOMMON] is defined, the numbers behind
    [NI_EV_MOUSE], [NI_MOUSE_BUTTON] and [NI_MOUSE_MOVE], the sizes of the
    [text], [path] and [name] buffers, and libxkbcommon: its state type and
    the functions called on it.  [xkb_state_key_get_utf8 st k buf] is the
    buffer [buf] after the call with its length as size. *)
Record platform : Type := mk_platform {
  HAVE_XKBCOMMON : bool;
  NI_EV_MOUSE : Z;
  NI_MOUSE_BUTTON : Z;
  NI_MOUSE_MOVE : Z;
  TEXT_SIZE : nat;
  INFO_PATH_SIZE : nat;
  INFO_NAME_SIZE : nat;
  xkb_st : Type;
  xkb_state_update_key : xkb_st -> Z -> bool -> xkb_st;
  xkb_state_mod_name_is_active : xkb_st -> xkb_mod -> bool;
  xkb_state_key_get_one_sym : xkb_st -> Z -> Z;
  xkb_state_key_get_utf8 : xkb_st -> Z -> list Z -> list Z;
  xkb_context_new : bool;
  xkb_state_new_from_names : xkb_rule_names -> option xkb_st
}.

(** The operating system's answers during one call into the engine. *)
Record os_env : Type := mk_os {
  sys_open : string -> Z;                       (* fd, or negative *)
  sys_evdev_id : Z -> option (Z * Z * Z * Z);   (* ioctl EVIOCGID, by fd *)
  sys_evdev_name : Z -> option string;          (* ioctl EVIOCGNAME, by fd *)
  sys_epoll_create1 : Z;
  sys_inotify_init1 : Z;
  sys_pthread_create_worker : bool;             (* true: returned 0 *)
  sys_pthread_create_mice : bool;
  sys_now_ns : Z                                (* CLOCK_MONOTONIC, in ns *)
}.

(** What [read] on a device returned. *)
Inductive read_result : Type :=
  | ReadError                         (* r < 0 *)
  | ReadShort                         (* 0 <= r, r != sizeof(iev) *)
  | ReadEvent (iev : input_event).    (* r == sizeof(iev) *)

(** The tag the multiplexer hands back, with what the handle then yields. *)
Inductive ready_item : Type :=
  | ReadyInotify (batches : list (list inotify_event))   (* one per read *)
  | ReadyNull
  | ReadyDevice (slot : nat) (reads : list read_result).

(** Calls that act outside [g]. *)
Inductive effect : Type :=
  | EpollAdd (fd : Z)
  | EpollDel (fd : Z)
  | SysClose (fd : Z)
  | CallCb (f : ni_callback) (user : Z) (e : ni_event)
  | CallKeyCb (f : ni_key_callback) (user : Z) (k : ni_key_event).

(** ** The engine *)

Section Engine.
Context (P : platform).

Record G : Type := mkG {
  g_initialized : bool;
  g_epoll_fd : Z;
  g_inotify_fd : Z;
  g_thread : bool;
  g_stop : bool;
  g_devices : list device;
  g_ndevi : Z;
  g_queue : ringbuf ni_event;
  g_cb : option ni_callback;
  g_cb_user : Z;
  g_filter : option ni_device_filter;
  g_filter_user : Z;
  g_rescan_until_ns : Z;
  g_mice_enabled : bool;
  g_mice_fd : Z;
  g_mice_thread : bool;
  g_xkb_enabled : bool;
  g_xkb_ctx : bool;
  g_xkb_state : option (xkb_st P);
  g_xkb_rules : string;
  g_xkb_model : string;
  g_xkb_layout : string;
  g_xkb_variant : string;
  g_xkb_options : string;
  g_key_queue : ringbuf ni_key_event;
  g_key_cb : option ni_key_callback;
  g_key_cb_user : Z;
  g_trace : list effect
}.

Definition with_initialized (g : G) (v : bool) : G :=
  mkG v (g_epoll_fd g) (g_inotify_fd g) (g_thread g) (g_stop g) (g_devices g)
    (g_ndevi g) (g_queue g) (g_cb g) (g_cb_user g) (g_filter g)
    (g_filter_user g) (g_rescan_until_ns g) (g_mice_enabled g) (g_mice_fd g)
    (g_mice_thread g) (g_xkb_enabled g) (g_xkb_ctx g) (g_xkb_state g)
    (g_xkb_rules g) (g_xkb_model g) (g_xkb_layout g) (g_xkb_variant g)
    (g_xkb_options g) (g_key_queue g) (g_key_cb g) (g_key_cb_user g)
    (g_trace g).
Definition with_epoll_fd (g : G) (v : Z) : G :=
  mkG (g_initialized g) v (g_inotify_fd g) (g_thread g) (g_stop g)
    (g_devices g) (g_ndevi g) (g_queue g) (g_cb g) (g_cb_user g) (g_filter g)
    (g_filter_user g) (g_rescan_until_ns g) (g_mice_enabled g) (g_mice_fd g)
    (g_mice_thread g) (g_xkb_enabled g) (g_xkb_ctx g) (g_xkb_state g)
    (g_xkb_rules g) (g_xkb_model g) (g_xkb_layout g) (g_xkb_variant g)
    (g_xkb_options g) (g_key_queue g) (g_key_cb g) (g_key_cb_user g)
    (g_trace g).
Definition with_inotify_fd (g : G) (v : Z) : G :=
  mkG (g_initialized g) (g_epoll_fd g) v (g_thread g) (g_stop g) (g_devices g)
    (g_ndevi g) (g_queue g) (g_cb g) (g_cb_user g) (g_filter g)
    (g_filter_user g) (g_rescan_until_ns g) (g_mice_enabled g) (g_mice_fd g)
    (g_mice_thread g) (g_xkb_enabled g) (g_xkb_ctx g) (g_xkb_state g)
    (g_xkb_rules g) (g_xkb_model g) (g_xkb_layout g) (g_xkb_variant g)
    (g_xkb_options g) (g_key_queue g) (g_key_cb g) (g_key_cb_user g)
    (g_trace g).
Definition with_thread (g : G) (v : bool) : G :=
  mkG (g_initialized g) (g_epoll_fd g) (g_inotify_fd g) v (g_stop g)
    (g_devices g) (g_ndevi g) (g_queue g) (g_cb g) (g_cb_user g) (g_filter g)
    (g_filter_user g) (g_rescan_until_ns g) (g_mice_enabled g) (g_mice_fd g)
    (g_mice_thread g) (g_xkb_enabled g) (g_xkb_ctx g) (g_xkb_state g)
    (g_xkb_rules g) (g_xkb_model g) (g_xkb_layout g) (g_xkb_variant g)
    (g_xkb_options g) (g_key_queue g) (g_key_cb g) (g_key_cb_user g)
    (g_trace g).
Definition with_stop (g : G) (v : bool) : G :=
  mkG (g_initialized g) (g_epoll_fd g) (g_inotify_fd g) (g_thread g) v
    (g_devices g) (g_ndevi g) (g_queue g) (g_cb g) (g_cb_user g) (g_filter g)
    (g_filter_user g) (g_rescan_until_ns g) (g_mice_enabled g) (g_mice_fd g)
    (g_mice_thread g) (g_xkb_enabled g) (g_xkb_ctx g) (g_xkb_state g)
    (g_xkb_rules g) (g_xkb_model g) (g_xkb_layout g) (g_xkb_variant g)
    (g_xkb_options g) (g_key_queue g) (g_key_cb g) (g_key_cb_user g)
    (g_trace g).
Definition with_devices (g : G) (v : list device) : G :=
  mkG (g_initialized g) (g_epoll_fd g) (g_inotify_fd g) (g_thread g)
    (g_stop g) v (g_ndevi g) (g_queue g) (g_cb g) (g_cb_user g) (g_filter g)
    (g_filter_user g) (g_rescan_until_ns g) (g_mice_enabled g) (g_mice_fd g)
    (g_mice_thread g) (g_xkb_enabled g) (g_xkb_ctx g) (g_xkb_state g)
    (g_xkb_rules g) (g_xkb_model g) (g_xkb_layout g) (g_xkb_variant g)
    (g_xkb_options g) (g_key_queue g) (g_key_cb g) (g_key_cb_user g)
    (g_trace g).
Definition with_ndevi (g : G) (v : Z) : G :=
  mkG (g_initialized g) (g_epoll_fd g) (g_inotify_fd g) (g_thread g)
    (g_stop g) (g_devices g) v (g_queue g) (g_cb g) (g_cb_user g) (g_filter g)
    (g_filter_user g) (g_rescan_until_ns g) (g_mice_enabled g) (g_mice_fd g)
    (g_mice_thread g) (g_xkb_enabled g) (g_xkb_ctx g) (g_xkb_state g)
    (g_xkb_rules g) (g_xkb_model g) (g_xkb_layout g) (g_xkb_variant g)
    (g_xkb_options g) (g_key_queue g) (g_key_cb g) (g_key_cb_user g)
    (g_trace g).
Definition with_queue (g : G) (v : ringbuf ni_event) : G :=
  mkG (g_initialized g) (g_epoll_fd g) (g_inotify_fd g) (g_thread g)
    (g_stop g) (g_devices g) (g_ndevi g) v (g_cb g) (g_cb_user g) (g_filter g)
    (g_filter_user g) (g_rescan_until_ns g) (g_mice_enabled g) (g_mice_fd g)
    (g_mice_thread g) (g_xkb_enabled g) (g_xkb_ctx g) (g_xkb_state g)
    (g_xkb_rules g) (g_xkb_model g) (g_xkb_layout g) (g_xkb_variant g)
    (g_xkb_options g) (g_key_queue g) (g_key_cb g) (g_key_cb_user g)
    (g_trace g).
Definition with_cb (g : G) (v : option ni_callback) : G :=
  mkG (g_initialized g) (g_epoll_fd g) (g_inotify_fd g) (g_thread g)
    (g_stop g) (g_devices g) (g_ndevi g) (g_queue g) v (g_cb_user g)
    (g_filter g) (g_filter_user g) (g_rescan_until_ns g) (g_mice_enabled g)
    (g_mice_fd g) (g_mice_thread g) (g_xkb_enabled g) (g_xkb_ctx g)
    (g_xkb_state g) (g_xkb_rules g) (g_xkb_model g) (g_xkb_layout g)
    (g_xkb_variant g) (g_xkb_options g) (g_key_queue g) (g_key_cb g)
    (g_key_cb_user g) (g_trace g).
Definition with_cb_user (g : G) (v : Z) : G :=
  mkG (g_initialized g) (g_epoll_fd g) (g_inotify_fd g) (g_thread g)
    (g_stop g) (g_devices g) (g_ndevi g) (g_queue g) (g_cb g) v (g_filter g)
    (g_filter_user g) (g_rescan_until_ns g) (g_mice_enabled g) (g_mice_fd g)
    (g_mice_thread g) (g_xkb_enabled g) (g_xkb_ctx g) (g_xkb_state g)
    (g_xkb_rules g) (g_xkb_model g) (g_xkb_layout g) (g_xkb_variant g)
    (g_xkb_options g) (g_key_queue g) (g_key_cb g) (g_key_cb_user g)
    (g_trace g).
Definition with_filter (g : G) (v : option ni_device_filter) : G :=
  mkG (g_initialized g) (g_epoll_fd g) (g_inotify_fd g) (g_thread g)
    (g_stop g) (g_devices g) (g_ndevi g) (g_queue g) (g_cb g) (g_cb_user g) v
    (g_filter_user g) (g_rescan_until_ns g) (g_mice_enabled g) (g_mice_fd g)
    (g_mice_thread g) (g_xkb_enabled g) (g_xkb_ctx g) (g_xkb_state g)
    (g_xkb_rules g) (g_xkb_model g) (g_xkb_layout g) (g_xkb_variant g)
    (g_xkb_options g) (g_key_queue g) (g_key_cb g) (g_key_cb_user g)
    (g_trace g).
Definition with_filter_user (g : G) (v : Z) : G :=
  mkG (g_initialized g) (g_epoll_fd g) (g_inotify_fd g) (g_thread g)
    (g_stop g) (g_devices g) (g_ndevi g) (g_queue g) (g_cb g) (g_cb_user g)
    (g_filter g) v (g_rescan_until_ns g) (g_mice_enabled g) (g_mice_fd g)
    (g_mice_thread g) (g_xkb_enabled g) (g_xkb_ctx g) (g_xkb_state g)
    (g_xkb_rules g) (g_xkb_model g) (g_xkb_layout g) (g_xkb_variant g)
    (g_xkb_options g) (g_key_queue g) (g_key_cb g) (g_key_cb_user g)
    (g_trace g).
Definition with_rescan_until_ns (g : G) (v : Z) : G :=
  mkG (g_initialized g) (g_epoll_fd g) (g_inotify_fd g) (g_thread g)
    (g_stop g) (g_devices g) (g_ndevi g) (g_queue g) (g_cb g) (g_cb_user g)
    (g_filter g) (g_filter_user g) v (g_mice_enabled g) (g_mice_fd g)
    (g_mice_thread g) (g_xkb_enabled g) (g_xkb_ctx g) (g_xkb_state g)
    (g_xkb_rules g) (g_xkb_model g) (g_xkb_layout g) (g_xkb_variant g)
    (g_xkb_options g) (g_key_queue g) (g_key_cb g) (g_key_cb_user g)
    (g_trace g).
Definition with_mice_enabled (g : G) (v : bool) : G :=
  mkG (g_initialized g) (g_epoll_fd g) (g_inotify_fd g) (g_thread g)
    (g_stop g) (g_devices g) (g_ndevi g) (g_queue g) (g_cb g) (g_cb_user g)
    (g_filter g) (g_filter_user g) (g_rescan_until_ns g) v (g_mice_fd g)
    (g_mice_thread g) (g_xkb_enabled g) (g_xkb_ctx g) (g_xkb_state g)
    (g_xkb_rules g) (g_xkb_model g) (g_xkb_layout g) (g_xkb_variant g)
    (g_xkb_options g) (g_key_queue g) (g_key_cb g) (g_key_cb_user g)
    (g_trace g).
Definition with_mice_fd (g : G) (v : Z) : G :=
  mkG (g_initialized g) (g_epoll_fd g) (g_inotify_fd g) (g_thread g)
    (g_stop g) (g_devices g) (g_ndevi g) (g_queue g) (g_cb g) (g_cb_user g)
    (g_filter g) (g_filter_user g) (g_rescan_until_ns g) (g_mice_enabled g) v
    (g_mice_thread g) (g_xkb_enabled g) (g_xkb_ctx g) (g_xkb_state g)
    (g_xkb_rules g) (g_xkb_model g) (g_xkb_layout g) (g_xkb_variant g)
    (g_xkb_options g) (g_key_queue g) (g_key_cb g) (g_key_cb_user g)
    (g_trace g).
Definition with_mice_thread (g : G) (v : bool) : G :=
  mkG (g_initialized g) (g_epoll_fd g) (g_inotify_fd g) (g_thread g)
    (g_stop g) (g_devices g) (g_ndevi g) (g_queue g) (g_cb g) (g_cb_user g)
    (g_filter g) (g_filter_user g) (g_rescan_until_ns g) (g_mice_enabled g)
    (g_mice_fd g) v (g_xkb_enabled g) (g_xkb_ctx g) (g_xkb_state g)
    (g_xkb_rules g) (g_xkb_model g) (g_xkb_layout g) (g_xkb_variant g)
    (g_xkb_options g) (g_key_queue g) (g_key_cb g) (g_key_cb_user g)
    (g_trace g).
Definition with_xkb_enabled (g : G) (v : bool) : G :=
  mkG (g_initialized g) (g_epoll_fd g) (g_inotify_fd g) (g_thread g)
    (g_stop g) (g_devices g) (g_ndevi g) (g_queue g) (g_cb g) (g_cb_user g)
    (g_filter g) (g_filter_user g) (g_rescan_until_ns g) (g_mice_enabled g)
    (g_mice_fd g) (g_mice_thread g) v (g_xkb_ctx g) (g_xkb_state g)
    (g_xkb_rules g) (g_xkb_model g) (g_xkb_layout g) (g_xkb_variant g)
    (g_xkb_options g) (g_key_queue g) (g_key_cb g) (g_key_cb_user g)
    (g_trace g).
Definition with_xkb_ctx (g : G) (v : bool) : G :=
  mkG (g_initialized g) (g_epoll_fd g) (g_inotify_fd g) (g_thread g)
    (g_stop g) (g_devices g) (g_ndevi g) (g_queue g) (g_cb g) (g_cb_user g)
    (g_filter g) (g_filter_user g) (g_rescan_until_ns g) (g_mice_enabled g)
    (g_mice_fd g) (g_mice_thread g) (g_xkb_enabled g) v (g_xkb_state g)
    (g_xkb_rules g) (g_xkb_model g) (g_xkb_layout g) (g_xkb_variant g)
    (g_xkb_options g) (g_key_queue g) (g_key_cb g) (g_key_cb_user g)
    (g_trace g).
Definition with_xkb_state (g : G) (v : option (xkb_st P)) : G :=
  mkG (g_initialized g) (g_epoll_fd g) (g_inotify_fd g) (g_thread g)
    (g_stop g) (g_devices g) (g_ndevi g) (g_queue g) (g_cb g) (g_cb_user g)
    (g_filter g) (g_filter_user g) (g_rescan_until_ns g) (g_mice_enabled g)
    (g_mice_fd g) (g_mice_thread g) (g_xkb_enabled g) (g_xkb_ctx g) v
    (g_xkb_rules g) (g_xkb_model g) (g_xkb_layout g) (g_xkb_variant g)
    (g_xkb_options g) (g_key_queue g) (g_key_cb g) (g_key_cb_user g)
    (g_trace g).
Definition with_xkb_rules (g : G) (v : string) : G :=
  mkG (g_initialized g) (g_epoll_fd g) (g_inotify_fd g) (g_thread g)
    (g_stop g) (g_devices g) (g_ndevi g) (g_queue g) (g_cb g) (g_cb_user g)
    (g_filter g) (g_filter_user g) (g_rescan_until_ns g) (g_mice_enabled g)
    (g_mice_fd g) (g_mice_thread g) (g_xkb_enabled g) (g_xkb_ctx g)
    (g_xkb_state g) v (g_xkb_model g) (g_xkb_layout g) (g_xkb_variant g)
    (g_xkb_options g) (g_key_queue g) (g_key_cb g) (g_key_cb_user g)
    (g_trace g).
Definition with_xkb_model (g : G) (v : string) : G :=
  mkG (g_initialized g) (g_epoll_fd g) (g_inotify_fd g) (g_thread g)
    (g_stop g) (g_devices g) (g_ndevi g) (g_queue g) (g_cb g) (g_cb_user g)
    (g_filter g) (g_filter_user g) (g_rescan_until_ns g) (g_mice_enabled g)
    (g_mice_fd g) (g_mice_thread g) (g_xkb_enabled g) (g_xkb_ctx g)
    (g_xkb_state g) (g_xkb_rules g) v (g_xkb_layout g) (g_xkb_variant g)
    (g_xkb_options g) (g_key_queue g) (g_key_cb g) (g_key_cb_user g)
    (g_trace g).
Definition with_xkb_layout (g : G) (v : string) : G :=
  mkG (g_initialized g) (g_epoll_fd g) (g_inotify_fd g) (g_thread g)
    (g_stop g) (g_devices g) (g_ndevi g) (g_queue g) (g_cb g) (g_cb_user g)
    (g_filter g) (g_filter_user g) (g_rescan_until_ns g) (g_mice_enabled g)
    (g_mice_fd g) (g_mice_thread g) (g_xkb_enabled g) (g_xkb_ctx g)
    (g_xkb_state g) (g_xkb_rules g) (g_xkb_model g) v (g_xkb_variant g)
    (g_xkb_options g) (g_key_queue g) (g_key_cb g) (g_key_cb_user g)
    (g_trace g).
Definition with_xkb_variant (g : G) (v : string) : G :=
  mkG (g_initialized g) (g_epoll_fd g) (g_inotify_fd g) (g_thread g)
    (g_stop g) (g_devices g) (g_ndevi g) (g_queue g) (g_cb g) (g_cb_user g)
    (g_filter g) (g_filter_user g) (g_rescan_until_ns g) (g_mice_enabled g)
    (g_mice_fd g) (g_mice_thread g) (g_xkb_enabled g) (g_xkb_ctx g)
    (g_xkb_state g) (g_xkb_rules g) (g_xkb_model g) (g_xkb_layout g) v
    (g_xkb_options g) (g_key_queue g) (g_key_cb g) (g_key_cb_user g)
    (g_trace g).
Definition with_xkb_options (g : G) (v : string) : G :=
  mkG (g_initialized g) (g_epoll_fd g) (g_inotify_fd g) (g_thread g)
    (g_stop g) (g_devices g) (g_ndevi g) (g_queue g) (g_cb g) (g_cb_user g)
    (g_filter g) (g_filter_user g) (g_rescan_until_ns g) (g_mice_enabled g)
    (g_mice_fd g) (g_mice_thread g) (g_xkb_enabled g) (g_xkb_ctx g)
    (g_xkb_state g) (g_xkb_rules g) (g_xkb_model g) (g_xkb_layout g)
    (g_xkb_variant g) v (g_key_queue g) (g_key_cb g) (g_key_cb_user g)
    (g_trace g).
Definition with_key_queue (g : G) (v : ringbuf ni_key_event) : G :=
  mkG (g_initialized g) (g_epoll_fd g) (g_inotify_fd g) (g_thread g)
    (g_stop g) (g_devices g) (g_ndevi g) (g_queue g) (g_cb g) (g_cb_user g)
    (g_filter g) (g_filter_user g) (g_rescan_until_ns g) (g_mice_enabled g)
    (g_mice_fd g) (g_mice_thread g) (g_xkb_enabled g) (g_xkb_ctx g)
    (g_xkb_state g) (g_xkb_rules g) (g_xkb_model g) (g_xkb_layout g)
    (g_xkb_variant g) (g_xkb_options g) v (g_key_cb g) (g_key_cb_user g)
    (g_trace g).
Definition with_key_cb (g : G) (v : option ni_key_callback) : G :=
  mkG (g_initialized g) (g_epoll_fd g) (g_inotify_fd g) (g_thread g)
    (g_stop g) (g_devices g) (g_ndevi g) (g_queue g) (g_cb g) (g_cb_user g)
    (g_filter g) (g_filter_user g) (g_rescan_until_ns g) (g_mice_enabled g)
    (g_mice_fd g) (g_mice_thread g) (g_xkb_enabled g) (g_xkb_ctx g)
    (g_xkb_state g) (g_xkb_rules g) (g_xkb_model g) (g_xkb_layout g)
    (g_xkb_variant g) (g_xkb_options g) (g_key_queue g) v (g_key_cb_user g)
    (g_trace g).
Definition with_key_cb_user (g : G) (v : Z) : G :=
  mkG (g_initialized g) (g_epoll_fd g) (g_inotify_fd g) (g_thread g)
    (g_stop g) (g_devices g) (g_ndevi g) (g_queue g) (g_cb g) (g_cb_user g)
    (g_filter g) (g_filter_user g) (g_rescan_until_ns g) (g_mice_enabled g)
    (g_mice_fd g) (g_mice_thread g) (g_xkb_enabled g) (g_xkb_ctx g)
    (g_xkb_state g) (g_xkb_rules g) (g_xkb_model g) (g_xkb_layout g)
    (g_xkb_variant g) (g_xkb_options g) (g_key_queue g) (g_key_cb g) v
    (g_trace g).
Definition with_trace (g : G) (v : list effect) : G :=
  mkG (g_initialized g) (g_epoll_fd g) (g_inotify_fd g) (g_thread g)
    (g_stop g) (g_devices g) (g_ndevi g) (g_queue g) (g_cb g) (g_cb_user g)
    (g_filter g) (g_filter_user g) (g_rescan_until_ns g) (g_mice_enabled g)
    (g_mice_fd g) (g_mice_thread g) (g_xkb_enabled g) (g_xkb_ctx g)
    (g_xkb_state g) (g_xkb_rules g) (g_xkb_model g) (g_xkb_layout g)
    (g_xkb_variant g) (g_xkb_options g) (g_key_queue g) (g_key_cb g)
    (g_key_cb_user g) v.

Definition add_trace (g : G) (es : list effect) : G :=
  with_trace g (g_trace g ++ es).

(** [struct ni_key_event kev = {0}] *)
Definition kev_zero : ni_key_event :=
  mk_key_event 0 0 0 0 0 (replicate (TEXT_SIZE P) 0).

(** Every field of [g] zero, as static storage starts and as
    [memset(&g, 0, sizeof(g))] followed by [ring_init], [keyring_init] and
    [pthread_mutex_init] leaves it.  The trace is not part of [g]. *)
Definition g_zero (tr : list effect) : G :=
  mkG false 0 0 false false
    (replicate (Z.to_nat MAX_DEVICES) device_zero) 0
    (ring_init ev_zero) None 0 None 0 0
    false 0 false
    false false None "" "" "" "" ""
    (ring_init kev_zero) None 0
    tr.

Definition g_memset (g : G) : G := g_zero (g_trace g).

(** The [g] of a fresh process. *)
Definition g_boot : G := g_zero [].

(** *** Dispatch *)

Definition emit_or_queue (g : G) (e : ni_event) : G :=
  match g_cb g with
  | Some f => add_trace g [CallCb f (g_cb_user g) e]
  | None => with_queue g (ring_push (g_queue g) e)
  end.

(** *** The legacy pointer reader *)

Record mice_state : Type := mk_mice {
  pkt : list Z;     (* unsigned char pkt[4] *)
  have : Z;
  ticks : nat       (* calls of now_ns made so far *)
}.

Definition mice_start : mice_state := mk_mice [0; 0; 0; 0] 0 0.

(** [(signed char)b] for a byte [0 <= b < 256] *)
Definition signed_char (b : Z) : Z := if b <? 128 then b else b - 256.

(** [btn & m] as a condition *)
Definition bit_set (btn m : Z) : bool := negb (Z.land btn m =? 0).

(** [struct ni_event mev = {0}; mev.device_id = ev.device_id; ...] *)
Definition mev_of (e : ni_event) : ni_event :=
  set_type (set_timestamp_ns (set_device_id ev_zero (device_id e))
              (timestamp_ns e)) (NI_EV_MOUSE P).

Definition mev_button (e : ni_event) (b v : Z) : ni_event :=
  set_value (set_extra (set_code (mev_of e) (NI_MOUSE_BUTTON P)) b) v.

Definition mev_move (e : ni_event) (dx dy : Z) : ni_event :=
  set_y (set_x (set_code (mev_of e) (NI_MOUSE_MOVE P)) dx) (- dy).

(** The body of [if (have >= 3) { ... }] up to [have = 0]: the events handed
    to [emit_or_queue], in order.  [t] is what [now_ns()] returned. *)
Definition mice_packet (t : Z) (pkt : list Z) (have : Z) : list ni_event :=
  let btn := nth 0 pkt 0 in
  let dx := signed_char (nth 1 pkt 0) in
  let dy := signed_char (nth 2 pkt 0) in
  let ev0 := set_timestamp_ns (set_device_id ev_zero (-2)) t in
  let ev1 := set_value (set_code (set_type ev0 NI_EV_KEY) NI_BTN_LEFT)
               (if bit_set btn 1 then 1 else 0) in
  let ev2 := set_value (set_code ev1 NI_BTN_RIGHT)
               (if bit_set btn 2 then 1 else 0) in
  let ev3 := set_value (set_code ev2 NI_BTN_MIDDLE)
               (if bit_set btn 4 then 1 else 0) in
  let ev4 := set_value (set_code (set_type ev3 NI_EV_REL) NI_REL_X) dx in
  let ev5 := set_value (set_code (set_type ev4 NI_EV_REL) NI_REL_Y) (- dy) in
  [ev1; ev2; ev3]
  ++ (if bit_set btn 1 then [mev_button ev3 1 1] else [])
  ++ (if negb (bit_set btn 1) then [mev_button ev3 1 0] else [])
  ++ (if bit_set btn 2 then [mev_button ev3 2 1] else [])
  ++ (if negb (bit_set btn 2) then [mev_button ev3 2 0] else [])
  ++ (if bit_set btn 4 then [mev_button ev3 3 1] else [])
  ++ (if negb (bit_set btn 4) then [mev_button ev3 3 0] else [])
  ++ [ev4; ev5]
  ++ (if negb (dx =? 0) || negb (dy =? 0) then [mev_move ev5 dx dy] else [])
  ++ (if 4 <=? have
      then [set_value (set_code (set_type ev5 NI_EV_REL) NI_REL_WHEEL)
              (signed_char (nth 3 pkt 0))]
      else []).

(** One turn of [for (i = 0; i < r; i++)]: [pkt[have++] = buf[i]], then the
    packet body when [have >= 3]. *)
Definition mice_byte (clock : nat -> Z) (st : mice_state) (b : Z)
  : mice_state * list ni_event :=
  let pkt' := <[Z.to_nat (have st) := b]> (pkt st) in
  let have' := have st + 1 in
  if 3 <=? have'
  then (mk_mice pkt' 0 (S (ticks st)), mice_packet (clock (ticks st)) pkt' have')
  else (mk_mice pkt' have' (ticks st), []).

(** The bytes of one or more reads, in order: the state left and every event
    handed to [emit_or_queue]. *)
Fixpoint mice_feed (clock : nat -> Z) (st : mice_state) (buf : list Z)
  : mice_state * list ni_event :=
  match buf with
  | [] => (st, [])
  | b :: rest =>
      let '(st1, evs) := mice_byte clock st b in
      let '(st2, evs') := mice_feed clock st1 rest in
      (st2, evs ++ evs')
  end.

Inductive mice_read : Type :=
  | MiceAgain                  (* r <= 0 with EAGAIN: sleep and retry *)
  | MiceFail                   (* r <= 0 otherwise *)
  | MiceData (buf : list Z).   (* r > 0 bytes *)

Definition mice_close (g : G) : G :=
  if 0 <=? g_mice_fd g
  then with_mice_fd (add_trace g [SysClose (g_mice_fd g)]) (-1)
  else g.

(** The [while (!g.stop && g.mice_enabled)] loop over the results of the
    successive reads; when they are used up the thread is left in its loop. *)
Fixpoint mice_loop (clock : nat -> Z) (g : G) (st : mice_state)
  (reads : list mice_read) : G * mice_state :=
  match reads with
  | [] => (g, st)
  | rd :: rest =>
      if g_stop g || negb (g_mice_enabled g) then (mice_close g, st)
      else match rd with
           | MiceAgain => mice_loop clock g st rest
           | MiceFail => (mice_close g, st)
           | MiceData buf =>
               let '(st', evs) := mice_feed clock st buf in
               mice_loop clock (foldl emit_or_queue g evs) st' rest
           end
  end.

Definition mice_worker (os : os_env) (clock : nat -> Z) (g : G)
  (reads : list mice_read) : G * mice_state :=
  let g1 := if g_mice_fd g <? 0
            then with_mice_fd g (sys_open os "/dev/input/mice") else g in
  if g_mice_fd g1 <? 0 then (g1, mice_start)
  else mice_loop clock g1 mice_start reads.

(** *** The device registry

    [g.devices] is the array of [MAX_DEVICES] slots and [g.ndevi] the number
    in use; the registered devices are the first [ndevi] slots.

    [add_device_fd] is described for [ndevi < MAX_DEVICES] only.  With
    [ndevi >= MAX_DEVICES] the C code stores past the end of the array,
    into whatever [g] holds after it; that has no counterpart here (the
    definition then changes no slot), and every statement below that
    reaches [add_device_fd] does so with a free slot. *)

Definition registered (g : G) : list device :=
  take (Z.to_nat (g_ndevi g)) (g_devices g).

Definition fill_device_info (os : os_env) (fd : Z) (path : string)
  : ni_device_info :=
  let '(b, v, p, r) := default (0, 0, 0, 0) (sys_evdev_id os fd) in
  mk_device_info 0 (c_copy (INFO_PATH_SIZE P) path) b v p r
    (match sys_evdev_name os fd with
     | Some n => c_copy (INFO_NAME_SIZE P) (c_copy 256 n)
     | None => ""%string
     end).

Definition set_i_id (info : ni_device_info) (v : Z) : ni_device_info :=
  mk_device_info v (i_path info) (i_bustype info) (i_vendor info)
    (i_product info) (i_version info) (i_name info).

(** The node number read off the path: [atoi] of what follows the last
    ['t']. *)
Definition devid_of_path (path : string) : Z :=
  match strrchr path "t" with
  | Some p => let n := atoi (str_skip 1 p) in if 0 <=? n then n else -1
  | None => -1
  end.

(** Returns the handle (negative: none) and [*out_devid], which the callers
    initialise to -1.  [info.id = devid] is written before
    [fill_device_info] clears [info], so the filter sees id 0. *)
Definition open_device_filtered (os : os_env) (g : G) (path : string)
  : G * Z * Z :=
  let devid := devid_of_path path in
  let fd := sys_open os path in
  if fd <? 0 then (g, -1, -1)
  else
    match g_filter g with
    | Some f =>
        let info := fill_device_info os fd path in
        if f info (g_filter_user g) then (g, fd, devid)
        else (add_trace g [SysClose fd], -1, -1)
    | None => (g, fd, devid)
    end.

Definition has_device_id (g : G) (id : Z) : bool :=
  existsb (fun d => d_id d =? id) (registered g).

Definition add_device_fd (g : G) (fd devid : Z) (path : string) : G :=
  let dev := mk_device fd devid (c_copy 128 path) in
  let g1 := with_devices g (<[Z.to_nat (g_ndevi g) := dev]> (g_devices g)) in
  let g2 := with_ndevi g1 (g_ndevi g + 1) in
  add_trace g2 [EpollAdd fd].

(** [g.devices[i] = g.devices[g.ndevi-1]; g.ndevi--;] after unregistering
    and closing slot [i]'s handle. *)
Definition drop_slot (g : G) (i : nat) : G :=
  let d := nth i (g_devices g) device_zero in
  let last := nth (Z.to_nat (g_ndevi g - 1)) (g_devices g) device_zero in
  let g1 := add_trace g [EpollDel (d_fd d); SysClose (d_fd d)] in
  with_ndevi (with_devices g1 (<[i := last]> (g_devices g))) (g_ndevi g - 1).

Definition remove_device_by_id (g : G) (devid : Z) : G :=
  match list_find (fun d => d_id d = devid) (registered g) with
  | Some (i, _) => drop_slot g i
  | None => g
  end.

Definition scan_step (os : os_env) (g : G) (i : Z) : G :=
  let path := event_path i in
  if has_device_id g i then g
  else
    let '(g1, fd, devid) := open_device_filtered os g path in
    if fd <? 0 then g1
    else add_device_fd g1 fd (if 0 <=? devid then devid else i) path.

Definition scan_devices (os : os_env) (g : G) : G :=
  foldl (scan_step os) g (seqZ 0 MAX_DEVICES).

Definition fd_to_device_id (g : G) (fd : Z) : Z :=
  match list_find (fun d => d_fd d = fd) (registered g) with
  | Some (_, d) => d_id d
  | None => -1
  end.

(** [strncmp(ie->name, "event", 5) == 0] *)
Definition is_event_name (name : string) : bool := String.prefix "event" name.

(** One [struct inotify_event] of the buffer. *)
Definition inotify_step (os : os_env) (g : G) (ie : inotify_event) : G :=
  let g1 :=
    if (bit_set (in_mask ie) IN_CREATE || bit_set (in_mask ie) IN_MOVED_TO)
       && (0 <? in_len ie)
    then
      if is_event_name (in_name ie) then
        let path := c_copy 128 ("/dev/input/" ++ in_name ie) in
        let '(g', fd, devid) := open_device_filtered os g path in
        if 0 <=? fd then add_device_fd g' fd devid path
        else with_rescan_until_ns g' (sys_now_ns os + 3000000000)
      else g
    else g in
  if bit_set (in_mask ie) IN_DELETE && (0 <? in_len ie)
  then
    if is_event_name (in_name ie)
    then remove_device_by_id g1 (atoi (str_skip 5 (in_name ie)))
    else g1
  else g1.

(** [events]: everything the read loop drains, in order. *)
Definition handle_inotify_event (os : os_env) (g : G)
  (events : list inotify_event) : G :=
  foldl (inotify_step os) g events.

(** *** The keymap layer *)

Definition mods_mask_from_state (g : G) : Z :=
  if HAVE_XKBCOMMON P then
    match g_xkb_state g with
    | Some st =>
        let bit (m : xkb_mod) (k : Z) (acc : Z) :=
          if xkb_state_mod_name_is_active P st m
          then Z.lor acc (Z.shiftl 1 k) else acc in
        bit XKB_MOD_NAME_LOGO 3 (bit XKB_MOD_NAME_ALT 2
          (bit XKB_MOD_NAME_CTRL 1 (bit XKB_MOD_NAME_SHIFT 0 0)))
    | None => 0
    end
  else 0.

(** [(uint32_t)c + 8u] *)
Definition xkb_code_of (c : Z) : Z := (c mod 2 ^ 32 + 8) mod 2 ^ 32.

Definition keyring_push (r : ringbuf ni_key_event) (k : ni_key_event)
  : ringbuf ni_key_event := ring_push r k.

Definition keyring_pop_many (r : ringbuf ni_key_event) (max : Z)
  : ringbuf ni_key_event * list ni_key_event * Z :=
  ring_pop_many kev_zero r max.

Definition set_text (k : ni_key_event) (v : list Z) : ni_key_event :=
  mk_key_event (k_device_id k) (k_timestamp_ns k) (down k) (keysym k) (mods k) v.

Definition maybe_emit_key_event (g : G) (base : ni_event) : G :=
  if negb (g_xkb_enabled g) then g
  else if negb (HAVE_XKBCOMMON P) then g
  else if negb (type base =? NI_EV_KEY) then g
  else
    let xkb_code := xkb_code_of (code base) in
    match g_xkb_state g with
    | None => g
    | Some st =>
        let st' := xkb_state_update_key P st xkb_code (negb (value base =? 0)) in
        let g1 := with_xkb_state g (Some st') in
        let dn := if negb (value base =? 0) then 1 else 0 in
        let sym := xkb_state_key_get_one_sym P st' xkb_code in
        let kev := mk_key_event (device_id base) (timestamp_ns base) dn
                     (sym mod 2 ^ 32) (mods_mask_from_state g1)
                     (<[0%nat := 0]> (text kev_zero)) in
        let kev := if negb (down kev =? 0)
                   then set_text kev
                          (xkb_state_key_get_utf8 P st' xkb_code (text kev))
                   else kev in
        match g_key_cb g1 with
        | Some f => add_trace g1 [CallKeyCb f (g_key_cb_user g1) kev]
        | None => with_key_queue g1 (keyring_push (g_key_queue g1) kev)
        end
    end.

(** *** The acquisition worker *)

(** A value reduced to [long long]. *)
Definition wrap64 (z : Z) : Z := (z + 2 ^ 63) mod 2 ^ 64 - 2 ^ 63.

(** The Event Record built from one [struct input_event]. *)
Definition decode_event (devid : Z) (iev : input_event) : ni_event :=
  let ev := set_device_id ev_zero devid in
  let ev := set_type ev (ie_type iev) in
  let ev := set_code ev (ie_code iev) in
  let ev := set_value ev (ie_value iev) in
  set_timestamp_ns ev
    (wrap64 (wrap64 (tv_sec iev * 1000000000) + wrap64 (tv_usec iev * 1000))).

Definition worker_event (g : G) (devid : Z) (iev : input_event) : G :=
  let ev := decode_event devid iev in
  let g1 := match g_cb g with
            | Some f => add_trace g [CallCb f (g_cb_user g) ev]
            | None => with_queue g (ring_push (g_queue g) ev)
            end in
  maybe_emit_key_event g1 ev.

(** The [for (;;)] read loop on one ready device; after the last listed
    result the handle would block. *)
Fixpoint worker_drain (g : G) (devid : Z) (reads : list read_result) : G :=
  match reads with
  | ReadEvent iev :: rest => worker_drain (worker_event g devid iev) devid rest
  | _ => g
  end.

Definition worker_ready (os : os_env) (g : G) (item : ready_item) : G :=
  match item with
  | ReadyInotify batches => handle_inotify_event os g (concat batches)
  | ReadyNull => g
  | ReadyDevice slot reads =>
      worker_drain g (d_id (nth slot (g_devices g) device_zero)) reads
  end.

(** One turn of [while (!g.stop)] with the items [epoll_wait] returned. *)
Definition worker_wake (os : os_env) (g : G) (ready : list ready_item) : G :=
  let g1 := if negb (g_rescan_until_ns g =? 0)
               && (sys_now_ns os <? g_rescan_until_ns g)
            then scan_devices os g else g in
  foldl (worker_ready os) g1 ready.

(** *** The public entry points *)

Definition ni_init (os : os_env) (g : G) (flags : Z) : G * Z :=
  if negb (flags =? 0) then (g, -1)
  else if g_initialized g then (g, 0)
  else
    let g := g_memset g in
    let g := with_epoll_fd g (sys_epoll_create1 os) in
    let g := with_mice_fd g (-1) in
    if g_epoll_fd g <? 0 then (g, -1)
    else
      let g := with_inotify_fd g (sys_inotify_init1 os) in
      let g := if 0 <=? g_inotify_fd g
               then add_trace g [EpollAdd (g_inotify_fd g)] else g in
      let g := scan_devices os g in
      let g := with_stop g false in
      if HAVE_XKBCOMMON P then
        let g := if String.eqb (g_xkb_rules g) ""
                 then with_xkb_rules g (c_copy 32 "evdev") else g in
        let g := if String.eqb (g_xkb_model g) ""
                 then with_xkb_model g (c_copy 32 "pc105") else g in
        let g := if String.eqb (g_xkb_layout g) ""
                 then with_xkb_layout g (c_copy 64 "us") else g in
        if negb (sys_pthread_create_worker os) then (g, -1)
        else
          let g := with_thread g true in
          let g := if g_mice_enabled g
                   then if sys_pthread_create_mice os
                        then with_mice_thread g true
                        else with_mice_enabled g false
                   else g in
          (with_initialized g true, 0)
      else (g, -1).

(** The loop [for (i = g.ndevi - 1; i >= 0; i--)] of
    [ni_set_device_filter], entered with [k = ndevi]. *)
Fixpoint filter_reeval (os : os_env) (g : G) (k : nat) : G :=
  match k with
  | O => g
  | S i =>
      let d := nth i (g_devices g) device_zero in
      let info := set_i_id (fill_device_info os (d_fd d) (d_path d)) (d_id d) in
      let keep := match g_filter g with
                  | Some f => f info (g_filter_user g)
                  | None => true
                  end in
      filter_reeval os (if keep then g else drop_slot g i) i
  end.

Definition ni_set_device_filter (os : os_env) (g : G)
  (f : option ni_device_filter) (user_data : Z) : G * Z :=
  let g := with_filter_user (with_filter g f) user_data in
  if negb (g_initialized g) then (g, 0)
  else
    let g := filter_reeval os g (Z.to_nat (g_ndevi g)) in
    let g := scan_devices os g in
    (g, 0).

Definition ni_device_count (g : G) : Z := g_ndevi g.

Definition ni_register_callback (g : G) (cb : option ni_callback)
  (user_data flags : Z) : G * Z :=
  if negb (g_initialized g) || negb (flags =? 0) then (g, -1)
  else (with_cb_user (with_cb g cb) user_data, 0).

(** [evts]: whether the buffer pointer is non-null.  Returns [g], the
    records written to [evts[0..]] and the result. *)
Definition ni_poll (g : G) (evts : bool) (max_events : Z)
  : G * list ni_event * Z :=
  if negb (g_initialized g) || negb evts || (max_events <=? 0) then (g, [], -1)
  else
    let '(q, out, n) := ring_pop_many ev_zero (g_queue g) max_events in
    (with_queue g q, out, n).

Definition ni_shutdown (g : G) : G * Z :=
  if negb (g_initialized g) then (g, 0)
  else
    let g := with_mice_enabled (with_stop g true) false in
    let g := add_trace g (map (fun d => SysClose (d_fd d)) (registered g)) in
    let g := if 0 <=? g_inotify_fd g
             then add_trace g [SysClose (g_inotify_fd g)] else g in
    let g := add_trace g [SysClose (g_epoll_fd g)] in
    (with_initialized g false, 0).

Definition ni_register_key_callback (g : G) (cb : option ni_key_callback)
  (user_data flags : Z) : G * Z :=
  if negb (g_initialized g) then (g, -1)
  else (with_key_cb_user (with_key_cb g cb) user_data, 0).

Definition ni_poll_key_events (g : G) (evts : bool) (max_events : Z)
  : G * list ni_key_event * Z :=
  if negb (g_initialized g) || negb evts || (max_events <=? 0) then (g, [], -1)
  else
    let '(q, out, n) := keyring_pop_many (g_key_queue g) max_events in
    (with_key_queue g q, out, n).

(** [s[0] ? s : NULL] *)
Definition name_or_null (s : string) : option string :=
  if String.eqb s "" then None else Some s.

Definition rebuild_xkb_keymap (g : G) : G * Z :=
  if HAVE_XKBCOMMON P then
    if negb (g_xkb_enabled g) then (g, 0)
    else
      let g := if g_xkb_ctx g then g else with_xkb_ctx g (xkb_context_new P) in
      if negb (g_xkb_ctx g) then (g, -1)
      else
        let rmlvo := mk_rule_names (name_or_null (g_xkb_rules g))
                       (name_or_null (g_xkb_model g))
                       (name_or_null (g_xkb_layout g))
                       (name_or_null (g_xkb_variant g))
                       (name_or_null (g_xkb_options g)) in
        match xkb_state_new_from_names P rmlvo with
        | None => (g, -1)
        | Some st => (with_xkb_state g (Some st), 0)
        end
  else (g, -1).

Definition ni_enable_xkb (g : G) (enabled : Z) : G * Z :=
  let g := with_xkb_enabled g (negb (enabled =? 0)) in
  if HAVE_XKBCOMMON P then
    if g_xkb_enabled g then rebuild_xkb_keymap g
    else (with_xkb_ctx (with_xkb_state g None) false, 0)
  else (g, -1).

Definition ni_set_xkb_names (g : G)
  (rules model layout variant options : option string) : G * Z :=
  if HAVE_XKBCOMMON P then
    let g := match rules with
             | Some s => with_xkb_rules g (c_copy 32 s) | None => g end in
    let g := match model with
             | Some s => with_xkb_model g (c_copy 32 s) | None => g end in
    let g := match layout with
             | Some s => with_xkb_layout g (c_copy 64 s) | None => g end in
    let g := match variant with
             | Some s => with_xkb_variant g (c_copy 32 s) | None => g end in
    let g := match options with
             | Some s => with_xkb_options g (c_copy 128 s) | None => g end in
    if g_xkb_enabled g then rebuild_xkb_keymap g else (g, 0)
  else (g, -1).

Definition ni_enable_mice (os : os_env) (g : G) (enabled : Z) : G * Z :=
  let g := with_mice_enabled g (negb (enabled =? 0)) in
  if negb (g_initialized g) then (g, 0)
  else if negb (enabled =? 0) && negb (g_mice_thread g) then
    if sys_pthread_create_mice os then (with_mice_thread g true, 0)
    else (with_mice_enabled g false, -1)
  else (g, 0).

End Engine.

(** ** What the statements below speak of *)

(** A C string buffer that holds a NUL. *)
Definition nul_terminated (buf : list Z) : Prop := exists i : nat, buf !! i = Some 0.

(** The text of a buffer is the empty string. *)
Definition text_empty (buf : list Z) : Prop := buf !! 0%nat = Some 0.

(** What libxkbcommon documents of [xkb_state_key_get_utf8]: it writes
    inside the buffer it is given and, when that has room for one byte,
    leaves a NUL-terminated string in it. *)
Definition xkb_utf8_contract (P : platform) : Prop :=
  forall (st : xkb_st P) (k : Z) (buf : list Z),
    length (xkb_state_key_get_utf8 P st k buf) = length buf /\
    (buf <> [] -> nul_terminated (xkb_state_key_get_utf8 P st k buf)).

(** A [struct input_event] whose time stamp, in nanoseconds, fits the
    64-bit [timestamp_ns]; the kernel derives the stamp from its own 64-bit
    nanosecond clock, so every packet it hands out is of this kind. *)
Definition stamp_fits (iev : input_event) : Prop :=
  - 2 ^ 63 <= tv_sec iev * 10 ^ 9 + tv_usec iev * 10 ^ 3 < 2 ^ 63.

(** The three KEY events of one legacy-pointer packet stamped [t] whose
    button byte is [btn]: one per primary button, carrying the level of its
    mask bit. *)
Definition key_levels (t btn : Z) : list ni_event :=
  [mk_event (-2) NI_EV_KEY NI_BTN_LEFT (if bit_set btn 1 then 1 else 0) t 0 0 0;
   mk_event (-2) NI_EV_KEY NI_BTN_RIGHT (if bit_set btn 2 then 1 else 0) t 0 0 0;
   mk_event (-2) NI_EV_KEY NI_BTN_MIDDLE (if bit_set btn 4 then 1 else 0) t 0 0 0].

(** The KEY events of a run of packets (button byte, dx byte, dy byte), the
    first stamped by the [k]-th clock reading. *)
Fixpoint mice_key_events (clock : nat -> Z) (k : nat) (pkts : list (Z * Z * Z))
  : list ni_event :=
  match pkts with
  | [] => []
  | (btn, _, _) :: rest =>
      key_levels (clock k) btn ++ mice_key_events clock (S k) rest
  end.

Definition packet_bytes (p : Z * Z * Z) : list Z := [p.1.1; p.1.2; p.2].

Definition is_key_event (e : ni_event) : bool := type e =? NI_EV_KEY.

(** The registry as the array bounds allow it. *)
Definition registry_wf (P : platform) (g : G P) : Prop :=
  length (g_devices P g) = Z.to_nat MAX_DEVICES /\
  0 <= g_ndevi P g <= MAX_DEVICES.

(** [g] with the three fields the registry operations write replaced. *)
Definition registry_update (P : platform) (g : G P) (ds : list device) (n : Z)
  (tr : list effect) : G P :=
  with_trace P (with_ndevi P (with_devices P g ds) n) tr.

(** The multiplexer and close calls that remove a device. *)
Definition removal_calls (d : device) : list effect :=
  [EpollDel (d_fd d); SysClose (d_fd d)].

(** The configuration a caller installs: filter, the two sinks, the
    legacy-pointer and keymap switches with the reader's thread, and the
    five keymap names. *)
Definition config_of (P : platform) (g : G P) :=
  (g_filter P g, g_cb P g, g_key_cb P g,
   g_mice_enabled P g, g_mice_thread P g, g_xkb_enabled P g,
   (g_xkb_rules P g, g_xkb_model P g, g_xkb_layout P g, g_xkb_variant P g,
    g_xkb_options P g)).

(** No filter, no sink, everything off, and the given keymap names. *)
Definition config_none (names : string * string * string * string * string) :=
  (@None ni_device_filter, @None ni_callback, @None ni_key_callback,
   false, false, false, names).

(** The descriptor the filter is shown when a registered device is
    re-evaluated. *)
Definition reeval_info (P : platform) (os : os_env) (d : device) : ni_device_info :=
  set_i_id (fill_device_info P os (d_fd d) (d_path d)) (d_id d).

(** ** Concrete inputs used in the examples *)

(** A platform for the examples: a keymap with one letter and Shift, whose
    state is whether Shift is held.  The three mouse numbers are arbitrary;
    no statement depends on them beyond what it says. *)
Definition demo_platform : platform :=
  mk_platform true 32 1 2 32 256 256 bool
    (fun st k is_down => if k =? 50 then is_down else st)
    (fun st m => match m with XKB_MOD_NAME_SHIFT => st | _ => false end)
    (fun st k => if k =? 38 then (if st then 65 else 97) else 0)
    (fun st k buf =>
       match buf with
       | _ :: _ :: rest =>
           if k =? 38 then (if st then 65 else 97) :: 0 :: rest
           else <[0%nat := 0]> buf
       | _ => <[0%nat := 0]> buf
       end)
    true (fun _ => Some false).

(** Filters that look at the node path only. *)
Definition only_event0 : ni_device_filter :=
  fun info _ => String.eqb (i_path info) "/dev/input/event0".
Definition only_event1 : ni_device_filter :=
  fun info _ => String.eqb (i_path info) "/dev/input/event1".
Definition reject_all : ni_device_filter := fun _ _ => false.

(** An operating system with two device nodes, event0 and event1. *)
Definition demo_os : os_env :=
  mk_os (fun p => if String.eqb p "/dev/input/event0" then 10
                  else if String.eqb p "/dev/input/event1" then 11 else -1)
        (fun _ => None) (fun _ => None) 3 4 true true 1000.

(** [n] key presses of key 30, stamped 0, 1, 2, ... *)
Definition key_burst (n : nat) : list ni_event :=
  map (fun i => mk_event 0 NI_EV_KEY 30 1 (Z.of_nat i) 0 0 0) (seq 0 n).

(** An operating system on which every node event0 .. event127 opens. *)
Definition full_os : os_env :=
  mk_os (fun p => if String.prefix "/dev/input/event" p
                  then 100 + atoi (str_skip 16 p) else -1)
        (fun _ => None) (fun _ => None) 3 4 true true 1000.

(** The demo engine after a first [ni_init] and with the keymap enabled. *)
Definition demo_engine : G demo_platform :=
  (ni_enable_xkb demo_platform
     (ni_init demo_platform demo_os (g_boot demo_platform) 0).1 1).1.

(** A press of key 30 on device 0 at time 77. *)
Definition demo_key_press : ni_event := mk_event 0 NI_EV_KEY 30 1 77 0 0 0.

(** ** Further vocabulary *)

(** The packets a read loop consumes: those before the first read that
    fails or comes back short. *)
Fixpoint packets_read (reads : list read_result) : list input_event :=
  match reads with
  | ReadEvent iev :: rest => iev :: packets_read rest
  | _ => []
  end.

(** The invocations of the raw sink recorded in a trace, in order. *)
Fixpoint raw_calls (tr : list effect) : list (ni_callback * Z * ni_event) :=
  match tr with
  | [] => []
  | CallCb f u e :: rest => (f, u, e) :: raw_calls rest
  | _ :: rest => raw_calls rest
  end.

(** The invocations of the key sink recorded in a trace, in order. *)
Fixpoint key_calls (tr : list effect) : list (ni_key_callback * Z * ni_key_event) :=
  match tr with
  | [] => []
  | CallKeyCb f u k :: rest => (f, u, k) :: key_calls rest
  | _ :: rest => key_calls rest
  end.

(** The rule names [rebuild_xkb_keymap] hands to libxkbcommon. *)
Definition rmlvo_of (P : platform) (g : G P) : xkb_rule_names :=
  mk_rule_names (name_or_null (g_xkb_rules P g)) (name_or_null (g_xkb_model P g))
    (name_or_null (g_xkb_layout P g)) (name_or_null (g_xkb_variant P g))
    (name_or_null (g_xkb_options P g)).

(** A name buffer after [ni_set_xkb_names]: the new name cut to the buffer,
    or the old one when the argument is null. *)
Definition name_set (size : nat) (old : string) (new : option string) : string :=
  match new with Some s => c_copy size s | None => old end.

(** Reads of a ready device: two packets, a short read, one more packet. *)
Definition demo_reads : list read_result :=
  [ReadEvent (mk_input_event 1700000000 100 1 30 1);
   ReadEvent (mk_input_event 1700000000 200 1 30 0);
   ReadShort;
   ReadEvent (mk_input_event 1700000000 300 1 31 1)].

(** The demo engine with raw sink 7 registered. *)
Definition demo_engine_cb : G demo_platform :=
  (ni_register_callback demo_platform demo_engine (Some 7) 0 0).1.

(** The stable ids of the registered devices, in slot order. *)
Definition ids_of (P : platform) (g : G P) : list Z := map d_id (registered P g).

(** What the discovery pass keeps: the registry within the array, ids
    pairwise distinct, each the number of a candidate node. *)
Definition scan_inv (P : platform) (g : G P) : Prop :=
  registry_wf P g /\ NoDup (ids_of P g) /\
  Forall (fun i => 0 <= i < MAX_DEVICES) (ids_of P g).

(** Candidate node [i] opens and passes the filter in force. *)
Definition admissible (P : platform) (os : os_env) (g : G P) (i : Z) : bool :=
  (0 <=? sys_open os (event_path i)) &&
  match g_filter P g with
  | Some f => f (fill_device_info P os (sys_open os (event_path i)) (event_path i))
                (g_filter_user P g)
  | None => true
  end.

(** The filter in force accepts registered device [d] on re-evaluation. *)
Definition keeps (P : platform) (os : os_env) (g : G P) (d : device) : bool :=
  match g_filter P g with
  | Some f => f (reeval_info P os d) (g_filter_user P g)
  | None => true
  end.

(** The demo engine's registry after the first [ni_init]: event0 and
    event1. *)
Definition demo_registry : G demo_platform :=
  (ni_init demo_platform demo_os (g_boot demo_platform) 0).1.

(** The same registry with a filter stored that accepts event1 only. *)
Definition demo_filtered : G demo_platform :=
  with_filter demo_platform demo_registry (Some only_event1).

(** The same registry with the legacy pointer enabled. *)
Definition demo_pointer : G demo_platform :=
  (ni_enable_mice demo_platform demo_os demo_registry 1).1.

(** An operating system on which no node opens and no thread starts, at
    time 500. *)
Definition bare_os : os_env :=
  mk_os (fun _ => -1) (fun _ => None) (fun _ => None) 3 4 false false 500.

Definition is_rel_event (e : ni_event) : bool := type e =? NI_EV_REL.

(** The two REL events of one legacy-pointer packet stamped [t] with
    motion bytes [dx], [dy]: X as read, Y with its sign reversed. *)
Definition rel_moves (t dx dy : Z) : list ni_event :=
  [mk_event (-2) NI_EV_REL NI_REL_X (signed_char dx) t 0 0 0;
   mk_event (-2) NI_EV_REL NI_REL_Y (- signed_char dy) t 0 0 0].

Fixpoint mice_rel_events (clock : nat -> Z) (k : nat) (pkts : list (Z * Z * Z))
  : list ni_event :=
  match pkts with
  | [] => []
  | (_, dx, dy) :: rest =>
      rel_moves (clock k) dx dy ++ mice_rel_events clock (S k) rest
  end.

Definition is_mouse_event (P : platform) (e : ni_event) : bool :=
  type e =? NI_EV_MOUSE P.

(** The high-level mouse events of one packet: a button event for each of
    the buttons 1, 2, 3 carrying its level, and a move event when either
    motion byte is not zero. *)
Definition mouse_layer (P : platform) (t btn dx dy : Z) : list ni_event :=
  [mk_event (-2) (NI_EV_MOUSE P) (NI_MOUSE_BUTTON P)
     (if bit_set btn 1 then 1 else 0) t 1 0 0;
   mk_event (-2) (NI_EV_MOUSE P) (NI_MOUSE_BUTTON P)
     (if bit_set btn 2 then 1 else 0) t 2 0 0;
   mk_event (-2) (NI_EV_MOUSE P) (NI_MOUSE_BUTTON P)
     (if bit_set btn 4 then 1 else 0) t 3 0 0]
  ++ (if (signed_char dx =? 0) && (signed_char dy =? 0) then []
      else [mk_event (-2) (NI_EV_MOUSE P) (NI_MOUSE_MOVE P) 0 t 0
              (signed_char dx) (- signed_char dy)]).

Fixpoint mice_mouse_events (P : platform) (clock : nat -> Z) (k : nat)
  (pkts : list (Z * Z * Z)) : list ni_event :=
  match pkts with
  | [] => []
  | (btn, dx, dy) :: rest =>
      mouse_layer P (clock k) btn dx dy ++ mice_mouse_events P clock (S k) rest
  end.

(** * Properties *)

(** Projections of explicit updates of [g], and nothing else. *)
Ltac g_norm :=
  cbn [g_initialized g_epoll_fd g_inotify_fd g_thread g_stop g_devices
       g_ndevi g_queue g_cb g_cb_user g_filter g_filter_user
       g_rescan_until_ns g_mice_enabled g_mice_fd g_mice_thread
       g_xkb_enabled g_xkb_ctx g_xkb_state g_xkb_rules g_xkb_model
       g_xkb_layout g_xkb_variant g_xkb_options g_key_queue g_key_cb
       g_key_cb_user g_trace with_initialized with_epoll_fd with_inotify_fd
       with_thread with_stop with_devices with_ndevi with_queue with_cb
       with_cb_user with_filter with_filter_user with_rescan_until_ns
       with_mice_enabled with_mice_fd with_mice_thread with_xkb_enabled
       with_xkb_ctx with_xkb_state with_xkb_rules with_xkb_model
       with_xkb_layout with_xkb_variant with_xkb_options with_key_queue
       with_key_cb with_key_cb_user with_trace add_trace registry_update
       g_memset g_zero fst snd negb].
Ltac g_norm_in H :=
  cbn [g_initialized g_epoll_fd g_inotify_fd g_thread g_stop g_devices
       g_ndevi g_queue g_cb g_cb_user g_filter g_filter_user
       g_rescan_until_ns g_mice_enabled g_mice_fd g_mice_thread
       g_xkb_enabled g_xkb_ctx g_xkb_state g_xkb_rules g_xkb_model
       g_xkb_layout g_xkb_variant g_xkb_options g_key_queue g_key_cb
       g_key_cb_user g_trace with_initialized with_epoll_fd with_inotify_fd
       with_thread with_stop with_devices with_ndevi with_queue with_cb
       with_cb_user with_filter with_filter_user with_rescan_until_ns
       with_mice_enabled with_mice_fd with_mice_thread with_xkb_enabled
       with_xkb_ctx with_xkb_state with_xkb_rules with_xkb_model
       with_xkb_layout with_xkb_variant with_xkb_options with_key_queue
       with_key_cb with_key_cb_user with_trace add_trace registry_update
       g_memset g_zero fst snd negb] in H.

(** ** The bounded ring *)

Section RingFacts.
Context {A : Type} (zero : A).
Implicit Types (r : ringbuf A) (l out : list A) (e : A).

Lemma nth_insert_same (i : nat) l e : (i < length l)%nat -> nth i (<[i:=e]> l) zero = e.
Proof. intros Hi. rewrite nth_lookup, list_lookup_insert_eq; auto. Qed.

Lemma nth_insert_other (i j : nat) l e : i <> j -> nth j (<[i:=e]> l) zero = nth j l zero.
Proof. intros Hij. rewrite !nth_lookup, list_lookup_insert_ne; auto. Qed.

Lemma ring_count_range r : 0 <= ring_count r < RING_SIZE.
Proof. unfold ring_count, RING_SIZE. apply Z.mod_pos_bound. lia. Qed.

Lemma ring_contents_length r : length (ring_contents zero r) = Z.to_nat (ring_count r).
Proof. unfold ring_contents. now rewrite length_map, length_seq. Qed.

Lemma ring_init_wf : ring_wf (ring_init zero).
Proof.
  unfold ring_wf, ring_init; cbn [ev head tail].
  rewrite length_replicate. unfold RING_SIZE. lia.
Qed.

Lemma ring_full_count r : ring_wf r -> (ring_full r <-> ring_count r = RING_SIZE - 1).
Proof.
  unfold ring_wf, ring_full, ring_count, RING_SIZE. intros (_ & Hh & Ht).
  split; intros H; Z.div_mod_to_equations; lia.
Qed.

Lemma ring_empty_count r : ring_wf r -> (head r = tail r <-> ring_count r = 0).
Proof.
  unfold ring_wf, ring_count, RING_SIZE. intros (_ & Hh & Ht).
  split; intros H; Z.div_mod_to_equations; lia.
Qed.

(** A push on a full ring changes nothing. *)
Lemma ring_push_full r e : ring_full r -> ring_push r e = r.
Proof.
  unfold ring_full, ring_push. intros ->. now rewrite Z.eqb_refl.
Qed.

(** A push on a ring that is not full appends the record. *)
Lemma ring_push_not_full r e :
  ring_wf r -> ring_count r < RING_SIZE - 1 ->
  ring_wf (ring_push r e) /\
  ring_contents zero (ring_push r e) = ring_contents zero r ++ [e].
Proof.
  intros Hwf Hc. pose proof Hwf as (Hlen & Hh & Ht).
  assert (Hnf : (head r + 1) mod RING_SIZE <> tail r).
  { intros Hf. apply (proj1 (ring_full_count r Hwf)) in Hf. lia. }
  unfold ring_push. apply Z.eqb_neq in Hnf. rewrite Hnf. simpl. apply Z.eqb_neq in Hnf.
  split.
  - unfold ring_wf; simpl. rewrite length_insert. repeat split; try lia;
      unfold RING_SIZE in *; Z.div_mod_to_equations; lia.
  - unfold ring_contents, ring_count; simpl.
    replace (Z.to_nat (((head r + 1) mod RING_SIZE - tail r) mod RING_SIZE))
      with (S (Z.to_nat ((head r - tail r) mod RING_SIZE))).
    2:{ unfold ring_count, RING_SIZE in *. Z.div_mod_to_equations. lia. }
    rewrite seq_S, map_app. simpl. f_equal.
    + apply map_ext_in. intros k Hk. apply in_seq in Hk.
      apply nth_insert_other.
      unfold ring_count, RING_SIZE in *. Z.div_mod_to_equations. lia.
    + f_equal.
      replace ((tail r + Z.of_nat (Z.to_nat ((head r - tail r) mod RING_SIZE)))
                 mod RING_SIZE) with (head r).
      2:{ unfold RING_SIZE in *. Z.div_mod_to_equations. lia. }
      apply nth_insert_same. unfold RING_SIZE in *. lia.
Qed.

Lemma ring_push_wf r e : ring_wf r -> ring_wf (ring_push r e).
Proof.
  intros Hwf. destruct (Z.eq_dec (ring_count r) (RING_SIZE - 1)) as [Hc|Hc].
  - rewrite ring_push_full; auto. now apply ring_full_count.
  - apply ring_push_not_full; auto. pose proof (ring_count_range r). lia.
Qed.

(** Pushing a sequence keeps what fits, oldest first. *)
Lemma ring_push_all_contents l : forall r,
  ring_wf r ->
  ring_wf (ring_push_all r l) /\
  ring_contents zero (ring_push_all r l)
  = take (Z.to_nat (RING_SIZE - 1)) (ring_contents zero r ++ l).
Proof.
  induction l as [|e l IH]; intros r Hwf; simpl.
  - split; auto. rewrite app_nil_r, take_ge; auto.
    rewrite ring_contents_length. pose proof (ring_count_range r). lia.
  - destruct (Z.eq_dec (ring_count r) (RING_SIZE - 1)) as [Hc|Hc].
    + rewrite ring_push_full by now apply ring_full_count.
      destruct (IH r Hwf) as [Hw ->]. split; auto.
      rewrite !take_app_le by (rewrite ring_contents_length; lia). reflexivity.
    + pose proof (ring_count_range r).
      destruct (ring_push_not_full r e Hwf ltac:(lia)) as [Hw He].
      destruct (IH _ Hw) as [Hw' ->]. split; auto.
      now rewrite He, <- app_assoc.
Qed.

(** Advancing [tail] removes the oldest record. *)
Lemma ring_contents_advance r :
  ring_wf r -> tail r <> head r ->
  let r' := mk_ring (ev r) (head r) ((tail r + 1) mod RING_SIZE) in
  ring_wf r' /\
  ring_contents zero r = nth (Z.to_nat (tail r)) (ev r) zero :: ring_contents zero r'.
Proof.
  intros Hwf Hne r'. pose proof Hwf as (Hlen & Hh & Ht). split.
  - unfold ring_wf, r'; simpl. repeat split; try lia;
      unfold RING_SIZE in *; Z.div_mod_to_equations; lia.
  - unfold ring_contents, ring_count, r'; simpl.
    replace (Z.to_nat ((head r - tail r) mod RING_SIZE))
      with (S (Z.to_nat ((head r - (tail r + 1) mod RING_SIZE) mod RING_SIZE))).
    2:{ unfold RING_SIZE in *. Z.div_mod_to_equations. lia. }
    simpl. f_equal.
    + f_equal. unfold RING_SIZE in *. Z.div_mod_to_equations. lia.
    + rewrite <- seq_shift, map_map. apply map_ext_in. intros k Hk.
      apply in_seq in Hk. f_equal. f_equal.
      unfold RING_SIZE in *. Z.div_mod_to_equations. lia.
Qed.

(** The pop loop copies the oldest records, as many as the fuel, [max] and
    the ring allow. *)
Lemma ring_pop_loop_spec fuel : forall r out n max,
  ring_wf r ->
  let k := (fuel `min` (Z.to_nat (max - n) `min` Z.to_nat (ring_count r)))%nat in
  exists r',
    ring_pop_loop zero fuel r out n max
    = (r', out ++ take k (ring_contents zero r), n + Z.of_nat k) /\
    ring_wf r' /\ head r' = head r /\
    ring_contents zero r' = drop k (ring_contents zero r).
Proof.
  induction fuel as [|fuel IH]; intros r out n max Hwf k.
  - exists r. subst k. simpl. rewrite app_nil_r, Z.add_0_r. auto.
  - simpl. destruct (n <? max) eqn:Hn; simpl.
    + destruct (tail r =? head r) eqn:Hth; simpl.
      * apply Z.eqb_eq in Hth. symmetry in Hth.
        apply (ring_empty_count r Hwf) in Hth.
        exists r. subst k. rewrite Hth. simpl.
        rewrite Nat.min_0_r. simpl. rewrite app_nil_r, Z.add_0_r. auto.
      * apply Z.eqb_neq in Hth. apply Z.ltb_lt in Hn.
        destruct (ring_contents_advance r Hwf Hth) as [Hw' Hc].
        set (r1 := mk_ring (ev r) (head r) ((tail r + 1) mod RING_SIZE)) in *.
        destruct (IH r1 (out ++ [nth (Z.to_nat (tail r)) (ev r) zero]) (n + 1) max Hw')
          as (r' & Heq & Hwr & Hhd & Hcr).
        exists r'. rewrite Heq.
        assert (Hcnt : Z.to_nat (ring_count r) = S (Z.to_nat (ring_count r1))).
        { rewrite <- !ring_contents_length, Hc. reflexivity. }
        assert (Hk : k = S (fuel `min` (Z.to_nat (max - (n + 1))
                                         `min` Z.to_nat (ring_count r1)))%nat).
        { subst k. rewrite Hcnt. lia. }
        rewrite Hk, Hc. simpl. rewrite <- app_assoc. simpl.
        split; [f_equal; lia|]. split; [exact Hwr|]. split; [exact Hhd|exact Hcr].
    + apply Z.ltb_ge in Hn. exists r. subst k.
      replace (Z.to_nat (max - n)) with 0%nat by lia. rewrite Nat.min_0_l, Nat.min_0_r.
      simpl. rewrite app_nil_r, Z.add_0_r. auto.
Qed.

(** [ring_pop_many] returns the [min max count] oldest records and leaves
    the rest. *)
Lemma ring_pop_many_spec r max :
  ring_wf r ->
  let k := (Z.to_nat max `min` Z.to_nat (ring_count r))%nat in
  exists r',
    ring_pop_many zero r max = (r', take k (ring_contents zero r), Z.of_nat k) /\
    ring_wf r' /\ ring_contents zero r' = drop k (ring_contents zero r).
Proof.
  intros Hwf k. unfold ring_pop_many.
  destruct (ring_pop_loop_spec (Z.to_nat max) r [] 0 max Hwf) as (r' & Heq & Hw & _ & Hc).
  rewrite Z.sub_0_r, Nat.min_assoc, Nat.min_id in *. fold k in Heq, Hc.
  exists r'. rewrite Heq, Z.add_0_l. auto.
Qed.

(** The count returned is the number of records written, whatever the ring
    holds. *)
Lemma ring_pop_loop_count fuel : forall r out n max r' out' n',
  ring_pop_loop zero fuel r out n max = (r', out', n') ->
  n' - n = Z.of_nat (length out') - Z.of_nat (length out) /\ n <= n'.
Proof.
  induction fuel as [|fuel IH]; intros r out n max r' out' n' H; simpl in H.
  - inversion H; subst. lia.
  - destruct ((n <? max) && negb (tail r =? head r)).
    + apply IH in H. rewrite length_app in H. simpl in H. lia.
    + inversion H; subst. lia.
Qed.

(** The unrolling of [ring_pop_many] stops at the loop's own test. *)
Lemma ring_pop_loop_exit fuel : forall r out n max r' out' n',
  max - n <= Z.of_nat fuel ->
  ring_pop_loop zero fuel r out n max = (r', out', n') ->
  (n' <? max) && negb (tail r' =? head r') = false.
Proof.
  induction fuel as [|fuel IH]; intros r out n max r' out' n' Hf H; simpl in H.
  - inversion H; subst. replace (n' <? max) with false; auto.
    symmetry. apply Z.ltb_ge. lia.
  - destruct ((n <? max) && negb (tail r =? head r)) eqn:Hc.
    + eapply IH; [|exact H]. lia.
    + inversion H; subst. exact Hc.
Qed.

Lemma ring_pop_many_exit r max r' out n :
  ring_pop_many zero r max = (r', out, n) ->
  (n <? max) && negb (tail r' =? head r') = false.
Proof.
  unfold ring_pop_many. apply ring_pop_loop_exit. lia.
Qed.

Lemma ring_pop_many_count r max r' out n :
  ring_pop_many zero r max = (r', out, n) -> n = Z.of_nat (length out) /\ 0 <= n.
Proof.
  unfold ring_pop_many. intros H. apply ring_pop_loop_count in H. simpl in H. lia.
Qed.

End RingFacts.

(** C1 (as amended). A push on a full ring drops the incoming event and
    leaves the ring as it was; the ring is full when it holds
    [RING_SIZE - 1] = 1023 events, one slot staying unused.  So after
    pushing 1023 or more events into an empty ring with no pop in between, a
    [ring_pop_many] with [max >= 1023] returns exactly 1023 records: the
    oldest pushed events, in push order. *)
Theorem ring_overflow_keeps_oldest {A : Type} (zero : A) (r : ringbuf A)
  (e : A) (l : list A) (max : Z) :
  ring_wf r ->
  (ring_full r <-> Z.of_nat (length (ring_contents zero r)) = RING_SIZE - 1) /\
  (ring_full r -> ring_push r e = r) /\
  (head r = tail r ->
   RING_SIZE - 1 <= Z.of_nat (length l) -> RING_SIZE - 1 <= max ->
   (ring_pop_many zero (ring_push_all r l) max).1.2
     = take (Z.to_nat (RING_SIZE - 1)) l /\
   (ring_pop_many zero (ring_push_all r l) max).2 = RING_SIZE - 1).
Proof.
  intros Hwf. split; [|split].
  - rewrite ring_contents_length, (ring_full_count r Hwf).
    pose proof (ring_count_range r). lia.
  - apply ring_push_full.
  - intros Hempty Hlen Hmax.
    destruct (ring_push_all_contents zero l r Hwf) as [Hw Hc].
    apply (ring_empty_count r Hwf) in Hempty.
    assert (Hnil : ring_contents zero r = []).
    { apply length_zero_iff_nil. rewrite ring_contents_length. lia. }
    rewrite Hnil in Hc. simpl in Hc.
    destruct (ring_pop_many_spec zero (ring_push_all r l) max Hw) as (r' & Heq & _ & _).
    assert (Hcnt : Z.to_nat (ring_count (ring_push_all r l)) = Z.to_nat (RING_SIZE - 1)).
    { rewrite <- (ring_contents_length zero), Hc, length_take. lia. }
    rewrite Heq, Hcnt, Hc. cbn [fst snd].
    replace (Z.to_nat max `min` Z.to_nat (RING_SIZE - 1))%nat
      with (Z.to_nat (RING_SIZE - 1)) by lia.
    split.
    + rewrite take_take. f_equal; lia.
    + unfold RING_SIZE. lia.
Qed.

Lemma ring_overflow_keeps_oldest_witness :
  (ring_pop_many ev_zero (ring_push_all (ring_init ev_zero) (key_burst 1100)) 2000).2
  = RING_SIZE - 1.
Proof.
  apply (ring_overflow_keeps_oldest ev_zero (ring_init ev_zero) ev_zero
           (key_burst 1100) 2000).
  - unfold ring_wf. vm_compute. repeat split; congruence.
  - reflexivity.
  - vm_compute. congruence.
  - vm_compute. congruence.
Defined.

(** C1, the claim as stated fails: with [capacity] = 1024 slots, 2048
    pushes into the empty ring leave 1023 records to pop, not 1024. *)
Lemma ring_overflow_pops_1023 :
  (ring_pop_many ev_zero (ring_push_all (ring_init ev_zero) (key_burst 2048)) 4096).2
  = 1023 /\ capacity = 1024.
Proof. split; vm_compute; reflexivity. Qed.

(** C9 (as amended). A sequence of at most [RING_SIZE - 1] = 1023 events
    pushed into an empty ring is returned whole and in push order by a
    [ring_pop_many] whose [max] is at least its length, and the ring is
    empty again. *)
Theorem ring_push_pop_roundtrip {A : Type} (zero : A) (r : ringbuf A)
  (l : list A) (max : Z) :
  ring_wf r -> head r = tail r ->
  Z.of_nat (length l) <= RING_SIZE - 1 -> Z.of_nat (length l) <= max ->
  exists r',
    ring_pop_many zero (ring_push_all r l) max = (r', l, Z.of_nat (length l)) /\
    head r' = tail r'.
Proof.
  intros Hwf Hempty Hlen Hmax.
  destruct (ring_push_all_contents zero l r Hwf) as [Hw Hc].
  apply (ring_empty_count r Hwf) in Hempty.
  assert (Hnil : ring_contents zero r = []).
  { apply length_zero_iff_nil. rewrite ring_contents_length. lia. }
  rewrite Hnil in Hc. simpl in Hc. rewrite take_ge in Hc by lia.
  destruct (ring_pop_many_spec zero (ring_push_all r l) max Hw) as (r' & Heq & Hw' & Hc').
  assert (Hcnt : Z.to_nat (ring_count (ring_push_all r l)) = length l).
  { now rewrite <- (ring_contents_length zero), Hc. }
  rewrite Hcnt, Hc in Heq, Hc'.
  replace (Z.to_nat max `min` length l)%nat with (length l) in Heq, Hc' by lia.
  rewrite take_ge in Heq by lia. rewrite drop_ge in Hc' by lia.
  exists r'. split; [exact Heq|].
  apply (ring_empty_count r' Hw').
  apply (f_equal length) in Hc'. rewrite ring_contents_length in Hc'. simpl in Hc'.
  pose proof (ring_count_range r'). lia.
Qed.

Lemma ring_push_pop_roundtrip_witness :
  exists r',
    ring_pop_many ev_zero (ring_push_all (ring_init ev_zero) (key_burst 5)) 10
    = (r', key_burst 5, 5) /\ head r' = tail r'.
Proof.
  apply (ring_push_pop_roundtrip ev_zero (ring_init ev_zero) (key_burst 5) 10).
  - unfold ring_wf. vm_compute. repeat split; congruence.
  - reflexivity.
  - vm_compute. congruence.
  - vm_compute. congruence.
Defined.

(** C9, the claim as stated fails at the boundary: a sequence whose length
    is exactly [capacity] = 1024 loses its last event. *)
Lemma ring_roundtrip_fails_at_capacity :
  Z.of_nat (length (key_burst 1024)) = capacity /\
  (ring_pop_many ev_zero (ring_push_all (ring_init ev_zero) (key_burst 1024)) 1024).1.2
  = key_burst 1023 /\
  (ring_pop_many ev_zero (ring_push_all (ring_init ev_zero) (key_burst 1024)) 1024).2
  = 1023.
Proof. repeat split; vm_compute; reflexivity. Qed.

(** ** Polling *)

(** C7. [ni_poll] and [ni_poll_key_events] return a negative value exactly
    when the buffer is null, [max_events] is not positive or the engine is
    not initialized (the value is then -1 and nothing is copied); otherwise
    they return what [ring_pop_many] returns on the engine's ring: the
    number of records copied out, which is not negative. *)
Theorem ni_poll_negative_iff_invalid (P : platform) (g : G P) (evts : bool)
  (max_events : Z) :
  let invalid := g_initialized P g = false \/ evts = false \/ max_events <= 0 in
  let '(g1, out, n) := ni_poll P g evts max_events in
  let '(g2, kout, kn) := ni_poll_key_events P g evts max_events in
  (n < 0 <-> invalid) /\
  (kn < 0 <-> invalid) /\
  (n < 0 /\ n = -1 /\ out = [] /\ g1 = g \/
   0 <= n /\ n = Z.of_nat (length out) /\
   (g_queue P g1, out, n) = ring_pop_many ev_zero (g_queue P g) max_events) /\
  (kn < 0 /\ kn = -1 /\ kout = [] /\ g2 = g \/
   0 <= kn /\ kn = Z.of_nat (length kout) /\
   (g_key_queue P g2, kout, kn)
   = ring_pop_many (kev_zero P) (g_key_queue P g) max_events).
Proof.
  intros invalid. unfold ni_poll, ni_poll_key_events, keyring_pop_many.
  destruct (g_initialized P g) eqn:Hi, evts eqn:He, (max_events <=? 0) eqn:Hm;
    cbn [negb orb];
    try (apply Z.leb_le in Hm); try (apply Z.leb_gt in Hm);
    try (subst invalid; repeat split; first [lia | tauto | (left; repeat split; lia)]).
  destruct (ring_pop_many ev_zero (g_queue P g) max_events) as [[q out] n] eqn:Hq.
  destruct (ring_pop_many (kev_zero P) (g_key_queue P g) max_events) as [[kq kout] kn] eqn:Hk.
  apply ring_pop_many_count in Hq, Hk. subst invalid.
  repeat split; try lia; try (intros [?|[?|?]]; first [discriminate | lia]);
    right; repeat split; lia.
Qed.

(** ** The acquisition worker and the keymap layer *)

Lemma wrap64_small (z : Z) : - 2 ^ 63 <= z < 2 ^ 63 -> wrap64 z = z.
Proof.
  unfold wrap64. change (2 ^ 63) with 9223372036854775808.
  change (2 ^ 64) with 18446744073709551616. intros H.
  Z.div_mod_to_equations. lia.
Qed.

(** The sum is the same whether or not the two products wrapped. *)
Lemma wrap64_sum (a b : Z) : wrap64 (wrap64 a + wrap64 b) = wrap64 (a + b).
Proof.
  unfold wrap64. change (2 ^ 63) with 9223372036854775808.
  change (2 ^ 64) with 18446744073709551616.
  Z.div_mod_to_equations. lia.
Qed.

Section WorkerFacts.
Context (P : platform).
Implicit Types (g : G P) (base ev : ni_event).

(** The keymap layer does not touch the raw stream: neither its ring nor
    its sink, and every call it adds to the trace is a key-callback call. *)
Lemma maybe_emit_key_event_raw_stream g base :
  let g' := maybe_emit_key_event P g base in
  g_queue P g' = g_queue P g /\ g_cb P g' = g_cb P g /\
  g_cb_user P g' = g_cb_user P g /\
  exists rest, g_trace P g' = g_trace P g ++ rest /\
               forall e, e ∈ rest -> exists f u k, e = CallKeyCb f u k.
Proof.
  unfold maybe_emit_key_event.
  destruct (g_xkb_enabled P g), (HAVE_XKBCOMMON P), (type base =? NI_EV_KEY),
    (g_xkb_state P g) as [st|]; cbn [negb];
    try (repeat split; try reflexivity; exists []; rewrite app_nil_r;
         split; [reflexivity | intros e He; inversion He]).
  cbn [g_key_cb with_xkb_state g_key_cb_user].
  destruct (g_key_cb P g) as [f|]; repeat split; try reflexivity.
  - eexists [_]. split; [reflexivity|]. intros e He. apply list_elem_of_singleton in He.
    subst e. eauto.
  - exists []. rewrite app_nil_r. split; [reflexivity | intros e He; inversion He].
Qed.

End WorkerFacts.

(** C8. For an OS packet whose time stamp fits 64-bit nanoseconds, the
    Event Record the worker builds carries exactly seconds times 10^9 plus
    microseconds times 10^3 as [timestamp_ns], and the packet's type, code
    and value unmodified; that record is what the worker delivers, to the
    registered sink or, with no sink, to the ring. *)
Theorem worker_event_decodes (P : platform) (g : G P) (devid : Z)
  (iev : input_event) :
  stamp_fits iev ->
  let ev := decode_event devid iev in
  timestamp_ns ev = tv_sec iev * 10 ^ 9 + tv_usec iev * 10 ^ 3 /\
  type ev = ie_type iev /\ code ev = ie_code iev /\ value ev = ie_value iev /\
  match g_cb P g with
  | Some f =>
      exists rest,
        g_trace P (worker_event P g devid iev)
        = g_trace P g ++ CallCb f (g_cb_user P g) ev :: rest /\
        (forall e, e ∈ rest -> exists f' u k, e = CallKeyCb f' u k) /\
        g_queue P (worker_event P g devid iev) = g_queue P g
  | None =>
      g_queue P (worker_event P g devid iev) = ring_push (g_queue P g) ev /\
      forall f u e, CallCb f u e ∈ g_trace P (worker_event P g devid iev) ->
                    CallCb f u e ∈ g_trace P g
  end.
Proof.
  intros Hfit ev. unfold stamp_fits in Hfit.
  split; [|split; [|split; [|split]]]; try reflexivity.
  - subst ev. unfold decode_event. cbn [timestamp_ns set_timestamp_ns].
    rewrite wrap64_sum, wrap64_small.
    + change (10 ^ 9) with 1000000000. change (10 ^ 3) with 1000. reflexivity.
    + change (10 ^ 9) with 1000000000 in Hfit. change (10 ^ 3) with 1000 in Hfit.
      exact Hfit.
  - unfold worker_event. fold ev.
    destruct (g_cb P g) as [f|] eqn:Hcb.
    + destruct (maybe_emit_key_event_raw_stream P
                  (add_trace P g [CallCb f (g_cb_user P g) ev]) ev)
        as (Hq & _ & _ & rest & Ht & Hrest).
      exists rest. rewrite Ht, Hq. cbn. rewrite <- app_assoc. auto.
    + destruct (maybe_emit_key_event_raw_stream P
                  (with_queue P g (ring_push (g_queue P g) ev)) ev)
        as (Hq & _ & _ & rest & Ht & Hrest).
      rewrite Hq, Ht. cbn. split; [reflexivity|].
      intros f u e Hin. apply elem_of_app in Hin as [Hin|Hin]; [exact Hin|].
      apply Hrest in Hin as (? & ? & ? & Hin). discriminate.
Qed.

Lemma worker_event_decodes_witness :
  timestamp_ns (decode_event 3 (mk_input_event 1700000000 123456 1 30 1))
  = 1700000000 * 10 ^ 9 + 123456 * 10 ^ 3.
Proof.
  apply (worker_event_decodes demo_platform (g_boot demo_platform) 3
           (mk_input_event 1700000000 123456 1 30 1)).
  unfold stamp_fits. cbn. lia.
Defined.

(** C4. One KEY Event Record handed to the keymap layer yields at most one
    Key Record, given to the key sink or, with none, pushed on the key ring.
    The record carries the event's [timestamp_ns]; its [down] flag is 1 for
    a non-zero event value and 0 otherwise; its text buffer has [TEXT_SIZE]
    bytes, holds a NUL, and is the empty string when [down] is 0. *)
Theorem key_event_record (P : platform) (g : G P) (base : ni_event) :
  (0 < TEXT_SIZE P)%nat -> xkb_utf8_contract P ->
  let g' := maybe_emit_key_event P g base in
  (g_trace P g' = g_trace P g /\ g_key_queue P g' = g_key_queue P g) \/
  exists kev : ni_key_event,
    g_xkb_enabled P g = true /\ type base = NI_EV_KEY /\
    k_timestamp_ns kev = timestamp_ns base /\
    k_device_id kev = device_id base /\
    down kev = (if value base =? 0 then 0 else 1) /\
    length (text kev) = TEXT_SIZE P /\
    nul_terminated (text kev) /\
    (down kev = 0 -> text_empty (text kev)) /\
    match g_key_cb P g with
    | Some f =>
        g_trace P g' = g_trace P g ++ [CallKeyCb f (g_key_cb_user P g) kev] /\
        g_key_queue P g' = g_key_queue P g
    | None =>
        g_trace P g' = g_trace P g /\
        g_key_queue P g' = keyring_push (g_key_queue P g) kev
    end.
Proof.
  intros Hsize Hxkb g'. subst g'. unfold maybe_emit_key_event.
  destruct (g_xkb_enabled P g) eqn:Hen; cbn [negb]; [|left; auto].
  destruct (HAVE_XKBCOMMON P); cbn [negb]; [|left; auto].
  destruct (type base =? NI_EV_KEY) eqn:Hty; cbn [negb]; [|left; auto].
  destruct (g_xkb_state P g) as [st|]; [|left; auto].
  apply Z.eqb_eq in Hty. right.
  set (st' := xkb_state_update_key P st (xkb_code_of (code base))
                (negb (value base =? 0))).
  set (g1 := with_xkb_state P g (Some st')).
  set (txt0 := <[0%nat := 0]> (text (kev_zero P))).
  assert (Hlen0 : length txt0 = TEXT_SIZE P).
  { subst txt0. cbn [text kev_zero]. now rewrite length_insert, length_replicate. }
  assert (Hz0 : text_empty txt0).
  { subst txt0. unfold text_empty. apply list_lookup_insert_eq.
    cbn [text kev_zero]. rewrite length_replicate. lia. }
  set (sym := xkb_state_key_get_one_sym P st' (xkb_code_of (code base)) mod 2 ^ 32).
  cbn [down text set_text k_timestamp_ns k_device_id].
  destruct (value base =? 0) eqn:Hv; cbn [negb Z.eqb].
  - (* release: the text stays empty *)
    exists (mk_key_event (device_id base) (timestamp_ns base) 0 sym
              (mods_mask_from_state P g1) txt0).
    cbn [k_timestamp_ns k_device_id down text].
    split; [reflexivity|]. split; [exact Hty|]. do 3 (split; [reflexivity|]).
    split; [exact Hlen0|]. split; [exists 0%nat; exact Hz0|].
    split; [intros _; exact Hz0|].
    subst g1. cbn [g_key_cb with_xkb_state g_key_cb_user].
    destruct (g_key_cb P g); split; reflexivity.
  - (* press: the text is what libxkbcommon wrote *)
    destruct (Hxkb st' (xkb_code_of (code base)) txt0) as [Hl Hn].
    exists (mk_key_event (device_id base) (timestamp_ns base) 1 sym
              (mods_mask_from_state P g1)
              (xkb_state_key_get_utf8 P st' (xkb_code_of (code base)) txt0)).
    cbn [k_timestamp_ns k_device_id down text].
    split; [reflexivity|]. split; [exact Hty|]. do 3 (split; [reflexivity|]).
    split; [now rewrite Hl|].
    split; [apply Hn; intros Hnil; rewrite Hnil in Hlen0; simpl in Hlen0; lia|].
    split; [intros Hd; discriminate|].
    subst g1. cbn [g_key_cb with_xkb_state g_key_cb_user].
    destruct (g_key_cb P g); split; reflexivity.
Qed.

Lemma demo_platform_utf8_contract : xkb_utf8_contract demo_platform.
Proof.
  intros st k buf. cbn [xkb_state_key_get_utf8 demo_platform].
  destruct buf as [|a [|b rest]]; [split; [reflexivity|congruence]|..].
  - split; [reflexivity|]. intros _. exists 0%nat. reflexivity.
  - destruct (k =? 38).
    + split; [reflexivity|]. intros _. exists 1%nat. reflexivity.
    + split; [reflexivity|]. intros _. exists 0%nat. reflexivity.
Qed.

Lemma key_event_record_witness :
  let g' := maybe_emit_key_event demo_platform demo_engine demo_key_press in
  (g_trace demo_platform g' = g_trace demo_platform demo_engine /\
   g_key_queue demo_platform g' = g_key_queue demo_platform demo_engine) \/
  exists kev : ni_key_event,
    g_xkb_enabled demo_platform demo_engine = true /\
    type demo_key_press = NI_EV_KEY /\
    k_timestamp_ns kev = timestamp_ns demo_key_press /\
    k_device_id kev = device_id demo_key_press /\
    down kev = (if value demo_key_press =? 0 then 0 else 1) /\
    length (text kev) = TEXT_SIZE demo_platform /\
    nul_terminated (text kev) /\
    (down kev = 0 -> text_empty (text kev)) /\
    match g_key_cb demo_platform demo_engine with
    | Some f =>
        g_trace demo_platform g'
        = g_trace demo_platform demo_engine
          ++ [CallKeyCb f (g_key_cb_user demo_platform demo_engine) kev] /\
        g_key_queue demo_platform g' = g_key_queue demo_platform demo_engine
    | None =>
        g_trace demo_platform g' = g_trace demo_platform demo_engine /\
        g_key_queue demo_platform g'
        = keyring_push (g_key_queue demo_platform demo_engine) kev
    end.
Proof.
  apply (key_event_record demo_platform demo_engine demo_key_press).
  - cbn. lia.
  - exact demo_platform_utf8_contract.
Defined.

(** The demo keymap at work: the press of key 30 queues one Key Record with
    text "a", and nothing reaches a sink. *)
Example demo_key_press_text :
  (ring_pop_many (kev_zero demo_platform)
     (g_key_queue demo_platform
        (maybe_emit_key_event demo_platform demo_engine demo_key_press)) 8).1.2
  = [mk_key_event 0 77 1 97 0 (97 :: replicate 31 0)].
Proof. vm_compute. reflexivity. Qed.

(** ** The legacy pointer reader *)

Section MiceFacts.
Context (P : platform) (clock : nat -> Z).

(** [have] is reset as soon as it reaches 3, so it is 0, 1 or 2 between
    bytes and the packet body only ever runs with [have = 3]: its
    [if (have >= 4)] branch is never taken. *)
Lemma mice_byte_have (st : mice_state) (b : Z) :
  0 <= have st < 3 ->
  0 <= have (mice_byte P clock st b).1 < 3 /\
  ((mice_byte P clock st b).2 = [] \/
   (mice_byte P clock st b).2
   = mice_packet P (clock (ticks st)) (<[Z.to_nat (have st) := b]> (pkt st)) 3).
Proof.
  intros Hh. unfold mice_byte.
  destruct (3 <=? have st + 1) eqn:H3; cbn [fst snd have].
  - apply Z.leb_le in H3. split; [lia|]. right.
    replace (have st + 1) with 3 by lia. reflexivity.
  - apply Z.leb_gt in H3. split; [lia|]. left. reflexivity.
Qed.

Lemma mice_feed_have (buf : list Z) : forall st,
  0 <= have st < 3 -> 0 <= have (mice_feed P clock st buf).1 < 3.
Proof.
  induction buf as [|b buf IH]; intros st Hh; simpl; [exact Hh|].
  destruct (mice_byte P clock st b) as [st1 evs] eqn:Hb.
  destruct (mice_feed P clock st1 buf) as [st2 evs'] eqn:Hf.
  cbn [fst]. pose proof (IH st1) as IH1. rewrite Hf in IH1. apply IH1.
  pose proof (mice_byte_have st b Hh) as [H _]. now rewrite Hb in H.
Qed.

(** Three bytes from [have = 0] make one packet. *)
Lemma mice_feed_packet (p0 p1 p2 p3 : Z) (k : nat) (b0 b1 b2 : Z) (rest : list Z) :
  mice_feed P clock (mk_mice [p0; p1; p2; p3] 0 k) (b0 :: b1 :: b2 :: rest)
  = ((mice_feed P clock (mk_mice [b0; b1; b2; p3] 0 (S k)) rest).1,
     mice_packet P (clock k) [b0; b1; b2; p3] 3
     ++ (mice_feed P clock (mk_mice [b0; b1; b2; p3] 0 (S k)) rest).2).
Proof.
  assert (H1 : mice_byte P clock (mk_mice [p0; p1; p2; p3] 0 k) b0
               = (mk_mice [b0; p1; p2; p3] 1 k, [])) by reflexivity.
  assert (H2 : mice_byte P clock (mk_mice [b0; p1; p2; p3] 1 k) b1
               = (mk_mice [b0; b1; p2; p3] 2 k, [])) by reflexivity.
  assert (H3 : mice_byte P clock (mk_mice [b0; b1; p2; p3] 2 k) b2
               = (mk_mice [b0; b1; b2; p3] 0 (S k),
                  mice_packet P (clock k) [b0; b1; b2; p3] 3)) by reflexivity.
  cbn [mice_feed]. rewrite H1. cbv beta iota. rewrite H2. cbv beta iota.
  rewrite H3. cbv beta iota.
  destruct (mice_feed P clock (mk_mice [b0; b1; b2; p3] 0 (S k)) rest) as [st evs].
  cbn [fst snd app]. reflexivity.
Qed.

(** With [have = 3] the KEY events of a packet are the three button
    levels. *)
Lemma mice_packet_keys (t b0 b1 b2 p3 : Z) :
  NI_EV_MOUSE P <> NI_EV_KEY ->
  List.filter is_key_event (mice_packet P t [b0; b1; b2; p3] 3) = key_levels t b0.
Proof.
  intros Hm. apply Z.eqb_neq in Hm.
  unfold mice_packet, key_levels. cbn [nth].
  rewrite !List.filter_app.
  assert (Hb : forall e b v, is_key_event (mev_button P e b v) = false).
  { intros. unfold is_key_event, mev_button, mev_of. cbn. exact Hm. }
  assert (Hv : forall e dx dy, is_key_event (mev_move P e dx dy) = false).
  { intros. unfold is_key_event, mev_move, mev_of. cbn. exact Hm. }
  destruct (bit_set b0 1), (bit_set b0 2), (bit_set b0 4),
    (negb (signed_char b1 =? 0) || negb (signed_char b2 =? 0));
    cbn [negb List.filter app]; rewrite ?Hb, ?Hv; reflexivity.
Qed.

Lemma mice_feed_keys (pkts : list (Z * Z * Z)) : forall p0 p1 p2 p3 k,
  NI_EV_MOUSE P <> NI_EV_KEY ->
  List.filter is_key_event
    (mice_feed P clock (mk_mice [p0; p1; p2; p3] 0 k) (flat_map packet_bytes pkts)).2
  = mice_key_events clock k pkts.
Proof.
  induction pkts as [|[[b dx] dy] pkts IH]; intros p0 p1 p2 p3 k Hm; [reflexivity|].
  cbn [flat_map packet_bytes fst snd app mice_key_events].
  rewrite mice_feed_packet. cbn [snd].
  rewrite List.filter_app, mice_packet_keys by exact Hm.
  f_equal. apply IH. exact Hm.
Qed.

End MiceFacts.

(** C2, on the failing input: the four bytes of a wheel packet (buttons 8,
    dx 5, dy 3, wheel 1).  The first three are decoded as a packet, with
    REL X 5 and REL Y -3; the fourth byte is not decoded into a wheel event
    but kept as the first byte of the next packet. *)
Theorem mice_fourth_byte_not_wheel (P : platform) (clock : nat -> Z) :
  let t := clock 0%nat in
  mice_feed P clock mice_start [8; 5; 3; 1]
  = (mk_mice [1; 5; 3; 0] 1 1,
     [mk_event (-2) NI_EV_KEY NI_BTN_LEFT 0 t 0 0 0;
      mk_event (-2) NI_EV_KEY NI_BTN_RIGHT 0 t 0 0 0;
      mk_event (-2) NI_EV_KEY NI_BTN_MIDDLE 0 t 0 0 0;
      mk_event (-2) (NI_EV_MOUSE P) (NI_MOUSE_BUTTON P) 0 t 1 0 0;
      mk_event (-2) (NI_EV_MOUSE P) (NI_MOUSE_BUTTON P) 0 t 2 0 0;
      mk_event (-2) (NI_EV_MOUSE P) (NI_MOUSE_BUTTON P) 0 t 3 0 0;
      mk_event (-2) NI_EV_REL NI_REL_X 5 t 0 0 0;
      mk_event (-2) NI_EV_REL NI_REL_Y (-3) t 0 0 0;
      mk_event (-2) (NI_EV_MOUSE P) (NI_MOUSE_MOVE P) 0 t 0 5 (-3)]).
Proof. reflexivity. Qed.

(** C3 (as amended). For every packet the reader emits one KEY event for
    each of the three primary buttons, carrying the current level of the
    button's mask bit; the previous packet's mask plays no part. *)
Theorem mice_key_events_are_levels (P : platform) (clock : nat -> Z)
  (pkts : list (Z * Z * Z)) :
  NI_EV_MOUSE P <> NI_EV_KEY ->
  List.filter is_key_event
    (mice_feed P clock mice_start (flat_map packet_bytes pkts)).2
  = mice_key_events clock 0 pkts.
Proof.
  intros Hm. apply mice_feed_keys. exact Hm.
Qed.

Lemma mice_key_events_are_levels_witness :
  List.filter is_key_event
    (mice_feed demo_platform Z.of_nat mice_start
       (flat_map packet_bytes [(9, 0, 0); (9, 0, 0)])).2
  = mice_key_events Z.of_nat 0 [(9, 0, 0); (9, 0, 0)].
Proof.
  apply (mice_key_events_are_levels demo_platform Z.of_nat [(9, 0, 0); (9, 0, 0)]).
  vm_compute. congruence.
Defined.

(** C3, the claim as stated fails: two consecutive packets with the same
    button mask (left button held, no motion) both produce a KEY event for
    the left button, though its state did not change. *)
Lemma mice_repeats_unchanged_button :
  map value
    (List.filter (fun e => is_key_event e && (code e =? NI_BTN_LEFT))
       (mice_feed demo_platform Z.of_nat mice_start [9; 0; 0; 9; 0; 0]).2)
  = [1; 1].
Proof. reflexivity. Qed.

(** ** The device registry *)

Section RegistryFacts.
Context (P : platform) (os : os_env).
Implicit Types (g : G P) (d : device).

Lemma registry_update_id g :
  registry_update P g (g_devices P g) (g_ndevi P g) (g_trace P g) = g.
Proof. destruct g; reflexivity. Qed.

Lemma registry_update_twice g ds n tr ds' n' tr' :
  registry_update P (registry_update P g ds n tr) ds' n' tr'
  = registry_update P g ds' n' tr'.
Proof. destruct g; reflexivity. Qed.

Lemma with_trace_as_update g tr :
  with_trace P g tr = registry_update P g (g_devices P g) (g_ndevi P g) tr.
Proof. destruct g; reflexivity. Qed.

Lemma drop_slot_as_update g (i : nat) :
  drop_slot P g i
  = registry_update P g
      (<[i := nth (Z.to_nat (g_ndevi P g - 1)) (g_devices P g) device_zero]>
         (g_devices P g))
      (g_ndevi P g - 1)
      (g_trace P g ++ removal_calls (nth i (g_devices P g) device_zero)).
Proof. destruct g; reflexivity. Qed.

Lemma add_device_fd_as_update g fd devid path :
  add_device_fd P g fd devid path
  = registry_update P g
      (<[Z.to_nat (g_ndevi P g) := mk_device fd devid (c_copy 128 path)]>
         (g_devices P g))
      (g_ndevi P g + 1) (g_trace P g ++ [EpollAdd fd]).
Proof. destruct g; reflexivity. Qed.

(** Opening a node changes at most the trace. *)
Lemma open_device_filtered_trace g path :
  exists tr, (open_device_filtered P os g path).1.1 = with_trace P g tr.
Proof.
  unfold open_device_filtered.
  destruct (sys_open os path <? 0); [exists (g_trace P g); now destruct g|].
  destruct (g_filter P g) as [f|]; [|exists (g_trace P g); now destruct g].
  destruct (f _ _); [exists (g_trace P g); now destruct g|].
  eexists. reflexivity.
Qed.

(** The discovery pass writes the registry and the trace only. *)
Lemma scan_step_as_update g i :
  exists ds n tr, scan_step P os g i = registry_update P g ds n tr.
Proof.
  unfold scan_step. destruct (has_device_id P g i).
  { eexists _, _, _. symmetry. apply registry_update_id. }
  destruct (open_device_filtered_trace g (event_path i)) as [tr Ho].
  destruct (open_device_filtered P os g (event_path i)) as [[g1 fd] devid].
  cbn [fst] in Ho. subst g1.
  destruct (fd <? 0).
  - eexists _, _, _. apply with_trace_as_update.
  - rewrite add_device_fd_as_update, with_trace_as_update, registry_update_twice.
    eexists _, _, _. reflexivity.
Qed.

Lemma scan_steps_as_update (l : list Z) : forall g,
  exists ds n tr, foldl (scan_step P os) g l = registry_update P g ds n tr.
Proof.
  induction l as [|i l IH]; intros g; simpl.
  - eexists _, _, _. symmetry. apply registry_update_id.
  - destruct (scan_step_as_update g i) as (ds & n & tr & ->).
    destruct (IH (registry_update P g ds n tr)) as (ds' & n' & tr' & ->).
    rewrite registry_update_twice. eauto.
Qed.

Lemma scan_devices_as_update g :
  exists ds n tr, scan_devices P os g = registry_update P g ds n tr.
Proof. apply scan_steps_as_update. Qed.

(** A node the filter rejects, or that does not open, is not admitted. *)
Lemma scan_step_rejected g f i :
  g_filter P g = Some f ->
  (0 <= sys_open os (event_path i) ->
   f (fill_device_info P os (sys_open os (event_path i)) (event_path i))
     (g_filter_user P g) = false) ->
  exists tr, scan_step P os g i = with_trace P g tr.
Proof.
  intros Hf Hrej. unfold scan_step.
  destruct (has_device_id P g i); [exists (g_trace P g); now destruct g|].
  unfold open_device_filtered. rewrite Hf.
  destruct (sys_open os (event_path i) <? 0) eqn:Ho; cbn [Z.ltb].
  - replace (-1 <? 0) with true by reflexivity. exists (g_trace P g). now destruct g.
  - apply Z.ltb_ge in Ho. rewrite (Hrej Ho).
    replace (-1 <? 0) with true by reflexivity. eexists. reflexivity.
Qed.

Lemma scan_steps_rejected f u (l : list Z) : forall g,
  g_filter P g = Some f -> g_filter_user P g = u ->
  (forall i, i ∈ l -> 0 <= sys_open os (event_path i) ->
     f (fill_device_info P os (sys_open os (event_path i)) (event_path i)) u
     = false) ->
  exists tr, foldl (scan_step P os) g l = with_trace P g tr.
Proof.
  induction l as [|i l IH]; intros g Hf Hu Hrej; simpl.
  - exists (g_trace P g). now destruct g.
  - destruct (scan_step_rejected g f i Hf) as [tr ->].
    { rewrite Hu. apply Hrej. left. }
    destruct (IH (with_trace P g tr)) as [tr' ->].
    + now destruct g.
    + now destruct g.
    + intros j Hj. apply Hrej. now right.
    + exists tr'. now destruct g.
Qed.

(** Re-evaluation under a filter that rejects every registered device
    removes them all, from the last slot down. *)
Lemma filter_reeval_all_rejected f : forall (k : nat) g,
  g_filter P g = Some f ->
  g_ndevi P g = Z.of_nat k -> (k <= length (g_devices P g))%nat ->
  (forall i, (i < k)%nat ->
     f (reeval_info P os (nth i (g_devices P g) device_zero)) (g_filter_user P g)
     = false) ->
  filter_reeval P os g k
  = registry_update P g (g_devices P g) 0
      (g_trace P g
       ++ flat_map removal_calls (rev (take k (g_devices P g)))).
Proof.
  induction k as [|i IH]; intros g Hf Hn Hlen Hrej.
  - cbn [filter_reeval take rev flat_map]. rewrite app_nil_r.
    change (Z.of_nat 0) with 0 in Hn. rewrite <- Hn.
    symmetry. apply registry_update_id.
  - cbn [filter_reeval]. rewrite Hf.
    fold (reeval_info P os (nth i (g_devices P g) device_zero)).
    rewrite (Hrej i) by lia.
    rewrite drop_slot_as_update.
    replace (Z.to_nat (g_ndevi P g - 1)) with i by lia.
    assert (Hlk : g_devices P g !! i = Some (nth i (g_devices P g) device_zero)).
    { rewrite nth_lookup. destruct (g_devices P g !! i) eqn:E; [reflexivity|].
      apply lookup_ge_None in E. lia. }
    rewrite (list_insert_id _ _ _ Hlk).
    rewrite IH; unfold registry_update;
      cbn [with_trace with_ndevi with_devices g_devices g_ndevi g_trace
           g_filter g_filter_user]; try lia; try assumption.
    + rewrite (take_S_r _ _ _ Hlk), rev_unit. cbn [flat_map].
      now rewrite <- app_assoc.
    + intros j Hj. apply Hrej. lia.
Qed.

End RegistryFacts.

(** C6 (as amended). On an initialized engine, replacing the filter with a
    predicate that rejects every registered device removes all of them,
    each handle unregistered from the multiplexer and closed, so the
    registry is empty when the discovery pass is re-run.  [device_count()]
    on return is what that pass admits; it is 0 when the predicate also
    rejects every candidate node that can be opened. *)
Theorem set_filter_reject_all (P : platform) (os : os_env) (g : G P)
  (f : ni_device_filter) (u : Z) :
  g_initialized P g = true -> registry_wf P g ->
  (forall d, d ∈ registered P g -> f (reeval_info P os d) u = false) ->
  let g0 := filter_reeval P os (with_filter_user P (with_filter P g (Some f)) u)
              (Z.to_nat (g_ndevi P g)) in
  ni_device_count P g0 = 0 /\
  (forall d, d ∈ registered P g ->
     EpollDel (d_fd d) ∈ g_trace P g0 /\ SysClose (d_fd d) ∈ g_trace P g0) /\
  ni_set_device_filter P os g (Some f) u = (scan_devices P os g0, 0) /\
  ((forall i, 0 <= i < MAX_DEVICES -> 0 <= sys_open os (event_path i) ->
      f (fill_device_info P os (sys_open os (event_path i)) (event_path i)) u
      = false) ->
   ni_device_count P (ni_set_device_filter P os g (Some f) u).1 = 0).
Proof.
  intros Hinit [Hlen Hn] Hrej g0.
  set (gf := with_filter_user P (with_filter P g (Some f)) u) in *.
  assert (Hreg : forall i, (i < Z.to_nat (g_ndevi P g))%nat ->
            nth i (g_devices P g) device_zero ∈ registered P g).
  { intros i Hi. unfold registered. apply list_elem_of_lookup. exists i.
    rewrite lookup_take_lt by lia. rewrite nth_lookup.
    destruct (g_devices P g !! i) eqn:E; [reflexivity|].
    apply lookup_ge_None in E. unfold MAX_DEVICES in *. lia. }
  assert (Hg0 : g0 = registry_update P gf (g_devices P g) 0
                  (g_trace P g ++ flat_map removal_calls
                     (rev (take (Z.to_nat (g_ndevi P g)) (g_devices P g))))).
  { subst g0. rewrite (filter_reeval_all_rejected P os f); subst gf;
      cbn [with_filter_user with_filter g_devices g_ndevi g_trace g_filter
           g_filter_user]; try reflexivity.
    - lia.
    - unfold MAX_DEVICES in *. lia.
    - intros i Hi. apply Hrej, Hreg, Hi. }
  assert (Hset : ni_set_device_filter P os g (Some f) u = (scan_devices P os g0, 0)).
  { unfold ni_set_device_filter. fold gf.
    replace (g_initialized P gf) with true by (subst gf; now rewrite <- Hinit).
    cbn [negb]. replace (g_ndevi P gf) with (g_ndevi P g) by reflexivity.
    reflexivity. }
  split; [|split; [|split]].
  - rewrite Hg0. reflexivity.
  - intros d Hd. rewrite Hg0. unfold registry_update. cbn [g_trace with_trace].
    assert (Hin : In d (rev (take (Z.to_nat (g_ndevi P g)) (g_devices P g)))).
    { apply in_rev. rewrite rev_involutive. apply list_elem_of_In. exact Hd. }
    split; apply elem_of_app; right; apply list_elem_of_In, in_flat_map;
      exists d; (split; [exact Hin|]); cbn; auto.
  - exact Hset.
  - intros Hall. rewrite Hset. cbn [fst]. unfold scan_devices.
    destruct (scan_steps_rejected P os f u (seqZ 0 MAX_DEVICES) g0) as [tr ->].
    + rewrite Hg0. reflexivity.
    + rewrite Hg0. reflexivity.
    + intros i Hi. apply elem_of_seqZ in Hi. apply Hall. lia.
    + rewrite Hg0. reflexivity.
Qed.

Lemma set_filter_reject_all_witness :
  ni_device_count demo_platform
    (ni_set_device_filter demo_platform demo_os
       (ni_init demo_platform demo_os (g_boot demo_platform) 0).1
       (Some reject_all) 0).1 = 0.
Proof.
  refine (proj2 (proj2 (proj2
    (set_filter_reject_all demo_platform demo_os
       (ni_init demo_platform demo_os (g_boot demo_platform) 0).1
       reject_all 0 _ _ _))) _).
  - vm_compute. reflexivity.
  - unfold registry_wf. vm_compute. repeat split; congruence.
  - intros d _. reflexivity.
  - intros i _ _. reflexivity.
Defined.

(** C6, the claim as stated fails: with event0 and event1 present and only
    event0 registered (the filter in force admitted nothing else), a new
    filter that rejects event0 and accepts event1 rejects every registered
    device, yet [device_count()] is 1 when [ni_set_device_filter] returns:
    the re-run discovery pass has admitted event1. *)
Lemma set_filter_reject_open_leaves_one :
  let g1 := (ni_init demo_platform demo_os (g_boot demo_platform) 0).1 in
  let g2 := (ni_set_device_filter demo_platform demo_os g1 (Some only_event0) 0).1 in
  let g3 := (ni_set_device_filter demo_platform demo_os g2 (Some only_event1) 0).1 in
  map d_path (registered demo_platform g2) = ["/dev/input/event0"%string] /\
  forallb (fun d => negb (only_event1 (reeval_info demo_platform demo_os d) 0))
    (registered demo_platform g2) = true /\
  ni_device_count demo_platform g3 = 1.
Proof. vm_compute. repeat split; reflexivity. Qed.

(** C5, on a failing input.  The initial scan registers event0 and event1
    under the distinct ids 0 and 1, well inside the array.  A hotplug
    create notification for event1, a node that is registered already,
    then registers it a second time: three devices are registered and two
    of them carry id 1.  The discovery pass on the same registry adds
    nothing: it asks [has_device_id] first, the hotplug path does not. *)
Theorem hotplug_create_breaks_registry_invariant :
  let g := (ni_init demo_platform demo_os (g_boot demo_platform) 0).1 in
  let g' := handle_inotify_event demo_platform demo_os g
              [mk_inotify_event IN_CREATE 16 "event1"] in
  map d_id (registered demo_platform g) = [0; 1] /\
  map d_id (registered demo_platform g') = [0; 1; 1] /\
  ni_device_count demo_platform g' = 3 /\
  map d_id (registered demo_platform (scan_devices demo_platform demo_os g))
  = [0; 1].
Proof. vm_compute. repeat split; reflexivity. Qed.

(** ** Initialisation *)

Section InitFacts.
Context (P : platform) (os : os_env).
Implicit Types (g : G P).

(** On an engine that is not initialized, [ni_init] starts from the zeroed
    state: nothing [g] held before has a part in the result. *)
Lemma ni_init_from_zero g :
  g_initialized P g = false ->
  ni_init P os g 0 = ni_init P os (g_zero P (g_trace P g)) 0.
Proof. intros Hi. unfold ni_init. rewrite Hi. reflexivity. Qed.

Lemma rebuild_xkb_keymap_keeps g :
  g_initialized P (rebuild_xkb_keymap P g).1 = g_initialized P g /\
  g_trace P (rebuild_xkb_keymap P g).1 = g_trace P g.
Proof.
  unfold rebuild_xkb_keymap.
  destruct (HAVE_XKBCOMMON P), (g_xkb_enabled P g), (g_xkb_ctx P g) eqn:Hc;
    cbn [negb fst]; auto.
  - rewrite Hc. cbn [negb]. destruct (xkb_state_new_from_names P _); auto.
  - cbn [g_xkb_ctx with_xkb_ctx]. destruct (xkb_context_new P); cbn [negb]; auto.
    destruct (xkb_state_new_from_names P _); auto.
Qed.

Lemma ni_set_xkb_names_keeps g rules model layout variant options :
  let g' := (ni_set_xkb_names P g rules model layout variant options).1 in
  g_initialized P g' = g_initialized P g /\ g_trace P g' = g_trace P g.
Proof.
  unfold ni_set_xkb_names. destruct (HAVE_XKBCOMMON P); [|auto].
  match goal with |- context [if g_xkb_enabled P ?h then _ else _] => set (g1 := h) end.
  assert (H1 : g_initialized P g1 = g_initialized P g /\ g_trace P g1 = g_trace P g).
  { subst g1. destruct rules, model, layout, variant, options; auto. }
  cbv zeta. destruct (g_xkb_enabled P g1); [|exact H1].
  destruct (rebuild_xkb_keymap_keeps g1) as [-> ->]. exact H1.
Qed.

Lemma config_of_memset g :
  config_of P (g_memset P g) = config_none ("", "", "", "", "")%string.
Proof. reflexivity. Qed.

(** Fields outside the configuration can be written without changing it. *)
Lemma config_of_frame g :
  (forall v, config_of P (with_epoll_fd P g v) = config_of P g) /\
  (forall v, config_of P (with_mice_fd P g v) = config_of P g) /\
  (forall v, config_of P (with_inotify_fd P g v) = config_of P g) /\
  (forall v, config_of P (with_stop P g v) = config_of P g) /\
  (forall v, config_of P (with_thread P g v) = config_of P g) /\
  (forall v, config_of P (with_initialized P g v) = config_of P g) /\
  (forall es, config_of P (add_trace P g es) = config_of P g) /\
  (forall ds n tr, config_of P (registry_update P g ds n tr) = config_of P g).
Proof. destruct g. repeat split. Qed.

Lemma config_of_scan_devices g :
  config_of P (scan_devices P os g) = config_of P g.
Proof.
  destruct (scan_devices_as_update P os g) as (ds & n & tr & ->).
  apply config_of_frame.
Qed.

(** The three defaults [ni_init] fills in when the names are empty. *)
Lemma config_of_default_names g f c k me mt xe r m l v o :
  config_of P g = (f, c, k, me, mt, xe, (r, m, l, v, o)) ->
  (forall s, config_of P (with_xkb_rules P g s) = (f, c, k, me, mt, xe, (s, m, l, v, o))) /\
  (forall s, config_of P (with_xkb_model P g s) = (f, c, k, me, mt, xe, (r, s, l, v, o))) /\
  (forall s, config_of P (with_xkb_layout P g s) = (f, c, k, me, mt, xe, (r, m, s, v, o))).
Proof. destruct g. unfold config_of. g_norm. intros H. inversion H. repeat split. Qed.

(** Where [ni_init] returns 0 on an engine that was not initialized, the
    configuration is the zeroed one with the default keymap names. *)
Lemma ni_init_success_config g g' :
  g_initialized P g = false -> ni_init P os g 0 = (g', 0) ->
  g_initialized P g' = true /\
  config_of P g' = config_none ("evdev", "pc105", "us", "", "")%string.
Proof.
  intros Hi. unfold ni_init. rewrite Hi.
  change (negb (0 =? 0)) with false. cbv iota.
  pose proof (config_of_memset g) as Hz. revert Hz.
  generalize (g_memset P g). intros z Hz. cbv zeta.
  (* the multiplexer *)
  assert (Hz1 : config_of P (with_mice_fd P (with_epoll_fd P z (sys_epoll_create1 os)) (-1))
                = config_none ("", "", "", "", "")%string).
  { rewrite (proj1 (proj2 (config_of_frame _))), (proj1 (config_of_frame _)). exact Hz. }
  revert Hz1. generalize (with_mice_fd P (with_epoll_fd P z (sys_epoll_create1 os)) (-1)).
  clear z Hz. intros z Hz.
  destruct (g_epoll_fd P z <? 0); [intros H; inversion H|].
  (* the hotplug watcher *)
  assert (Hz1 : config_of P (with_inotify_fd P z (sys_inotify_init1 os))
                = config_none ("", "", "", "", "")%string).
  { rewrite (proj1 (proj2 (proj2 (config_of_frame _)))). exact Hz. }
  revert Hz1. generalize (with_inotify_fd P z (sys_inotify_init1 os)).
  clear z Hz. intros z Hz.
  assert (Hz1 : config_of P (if 0 <=? g_inotify_fd P z
                             then add_trace P z [EpollAdd (g_inotify_fd P z)] else z)
                = config_none ("", "", "", "", "")%string).
  { destruct (0 <=? g_inotify_fd P z); [|exact Hz].
    rewrite (proj1 (proj2 (proj2 (proj2 (proj2 (proj2 (proj2 (config_of_frame _)))))))).
    exact Hz. }
  revert Hz1. generalize (if 0 <=? g_inotify_fd P z
                          then add_trace P z [EpollAdd (g_inotify_fd P z)] else z).
  clear z Hz. intros z Hz.
  (* the initial scan and the stop flag *)
  assert (Hz1 : config_of P (with_stop P (scan_devices P os z) false)
                = config_none ("", "", "", "", "")%string).
  { rewrite (proj1 (proj2 (proj2 (proj2 (config_of_frame _))))), config_of_scan_devices.
    exact Hz. }
  revert Hz1. generalize (with_stop P (scan_devices P os z) false).
  clear z Hz. intros z Hz.
  destruct (HAVE_XKBCOMMON P); [|intros H; inversion H].
  (* the default names *)
  assert (Hr : g_xkb_rules P z = ""%string) by (now inversion Hz).
  rewrite Hr. change (("" =? "")%string) with true. cbv iota.
  pose proof (proj1 (config_of_default_names z _ _ _ _ _ _ _ _ _ _ _ Hz)
                (c_copy 32 "evdev")) as Hz1.
  revert Hz1. generalize (with_xkb_rules P z (c_copy 32 "evdev")).
  clear z Hz Hr. intros z Hz.
  assert (Hr : g_xkb_model P z = ""%string) by (now inversion Hz).
  rewrite Hr. change (("" =? "")%string) with true. cbv iota.
  pose proof (proj1 (proj2 (config_of_default_names z _ _ _ _ _ _ _ _ _ _ _ Hz))
                (c_copy 32 "pc105")) as Hz1.
  revert Hz1. generalize (with_xkb_model P z (c_copy 32 "pc105")).
  clear z Hz Hr. intros z Hz.
  assert (Hr : g_xkb_layout P z = ""%string) by (now inversion Hz).
  rewrite Hr. change (("" =? "")%string) with true. cbv iota.
  pose proof (proj2 (proj2 (config_of_default_names z _ _ _ _ _ _ _ _ _ _ _ Hz))
                (c_copy 64 "us")) as Hz1.
  revert Hz1. generalize (with_xkb_layout P z (c_copy 64 "us")).
  clear z Hz Hr. intros z Hz.
  (* the threads *)
  destruct (sys_pthread_create_worker os); cbn [negb]; [|intros H; inversion H].
  assert (Hz1 : config_of P (with_thread P z true)
                = config_none (c_copy 32 "evdev", c_copy 32 "pc105", c_copy 64 "us",
                               "", "")%string).
  { rewrite (proj1 (proj2 (proj2 (proj2 (proj2 (config_of_frame _)))))). exact Hz. }
  revert Hz1. generalize (with_thread P z true). clear z Hz. intros z Hz.
  assert (Hme : g_mice_enabled P z = false) by (now inversion Hz).
  rewrite Hme. intros H. injection H as <-.
  split; [now destruct z|].
  rewrite (proj1 (proj2 (proj2 (proj2 (proj2 (proj2 (config_of_frame _))))))).
  exact Hz.
Qed.

End InitFacts.

(** C10. On an engine that is not initialized, installing a filter,
    setting the legacy-pointer flag and setting keymap names all leave it
    uninitialized (the first two return 0, and [ni_register_callback]
    refuses with -1), and a following [ni_init] gives the same result as if
    none of them had been called: the result of [ni_init] from the zeroed
    state, whose initial scan runs with no filter.  Where that [ni_init]
    returns 0, the filter and both sinks are null, the legacy pointer
    reader and the keymap are off and the keymap names are the defaults. *)
Theorem ni_init_discards_prior_config (P : platform) (os : os_env) (g : G P)
  (f : option ni_device_filter) (cb : option ni_callback) (u enabled : Z)
  (rules model layout variant options : option string) :
  g_initialized P g = false ->
  let s1 := ni_set_device_filter P os g f u in
  let s2 := ni_enable_mice P os s1.1 enabled in
  let s3 := ni_set_xkb_names P s2.1 rules model layout variant options in
  let s4 := ni_register_callback P s3.1 cb u 0 in
  s1.2 = 0 /\ g_filter P s1.1 = f /\
  s2.2 = 0 /\ g_mice_enabled P s2.1 = negb (enabled =? 0) /\
  s4.2 = -1 /\
  ni_init P os s4.1 0 = ni_init P os (g_zero P (g_trace P g)) 0 /\
  ni_init P os g 0 = ni_init P os (g_zero P (g_trace P g)) 0 /\
  forall g', ni_init P os s4.1 0 = (g', 0) ->
    g_initialized P g' = true /\
    config_of P g' = config_none ("evdev", "pc105", "us", "", "")%string.
Proof.
  intros Hi s1 s2 s3 s4.
  assert (H1 : s1 = (with_filter_user P (with_filter P g f) u, 0)).
  { subst s1. unfold ni_set_device_filter.
    cbn [g_initialized with_filter_user with_filter]. now rewrite Hi. }
  assert (H2 : s2 = (with_mice_enabled P s1.1 (negb (enabled =? 0)), 0)).
  { subst s2. unfold ni_enable_mice. rewrite H1.
    cbn [fst g_initialized with_filter_user with_filter with_mice_enabled].
    now rewrite Hi. }
  assert (Hi2 : g_initialized P s2.1 = false /\ g_trace P s2.1 = g_trace P g).
  { rewrite H2, H1. cbn. auto. }
  destruct (ni_set_xkb_names_keeps P s2.1 rules model layout variant options)
    as [Hi3 Ht3]. fold s3 in Hi3, Ht3.
  destruct Hi2 as [Hi2 Ht2]. rewrite Hi2 in Hi3. rewrite Ht2 in Ht3.
  assert (H4 : s4 = (s3.1, -1)).
  { subst s4. unfold ni_register_callback. now rewrite Hi3. }
  assert (Hinit4 : ni_init P os s4.1 0 = ni_init P os (g_zero P (g_trace P g)) 0).
  { rewrite H4. cbn [fst]. rewrite ni_init_from_zero by exact Hi3. now rewrite Ht3. }
  split; [now rewrite H1|]. split; [now rewrite H1|].
  split; [now rewrite H2|]. split; [now rewrite H2|].
  split; [now rewrite H4|]. split; [exact Hinit4|].
  split; [now apply ni_init_from_zero|].
  intros g' Hg'. apply (ni_init_success_config P os s4.1 g'); [|exact Hg'].
  rewrite H4. exact Hi3.
Qed.

Lemma ni_init_discards_prior_config_witness :
  ni_init demo_platform demo_os
    (ni_register_callback demo_platform
       (ni_set_xkb_names demo_platform
          (ni_enable_mice demo_platform demo_os
             (ni_set_device_filter demo_platform demo_os (g_boot demo_platform)
                (Some reject_all) 0).1 1).1
          None None (Some "de"%string) None None).1 (Some 7) 0 0).1 0
  = ni_init demo_platform demo_os (g_zero demo_platform []) 0.
Proof.
  refine (proj1 (proj2 (proj2 (proj2 (proj2 (proj2
    (ni_init_discards_prior_config demo_platform demo_os (g_boot demo_platform)
       (Some reject_all) (Some 7) 0 1 None None (Some "de"%string) None None _))))))).
  reflexivity.
Defined.

(** An instance: a filter that rejects every device, installed with success
    before the first [ni_init], does not keep the initial scan from
    registering both nodes. *)
Example filter_before_init_is_ignored :
  let s := ni_set_device_filter demo_platform demo_os (g_boot demo_platform)
             (Some reject_all) 0 in
  s.2 = 0 /\
  (ni_init demo_platform demo_os s.1 0).2 = 0 /\
  ni_device_count demo_platform (ni_init demo_platform demo_os s.1 0).1 = 2.
Proof. vm_compute. repeat split; reflexivity. Qed.

(** * Further properties of the engine *)

(** ** The bounded ring as a queue *)

Section RingQueue.
Context {A : Type} (zero : A).
Implicit Types (r : ringbuf A) (e : A).

Lemma ring_pop_loop_le fuel : forall r out n max r' out' n',
  n <= max ->
  ring_pop_loop zero fuel r out n max = (r', out', n') -> n' <= max.
Proof.
  induction fuel as [|fuel IH]; intros r out n max r' out' n' Hn H; simpl in H.
  - inversion H; subst. exact Hn.
  - destruct (n <? max) eqn:Hlt; cbn [andb] in H.
    + apply Z.ltb_lt in Hlt. destruct (negb (tail r =? head r)).
      * eapply IH; [|exact H]. lia.
      * inversion H; subst. exact Hn.
    + inversion H; subst. exact Hn.
Qed.

(** X1. On a well-formed ring [ring_push] is the enqueue of a queue bounded
    by [RING_SIZE - 1]: it appends the record when fewer than 1023 are
    queued and changes nothing otherwise, and the ring stays well formed. *)
Theorem ring_push_refines_queue r e :
  ring_wf r ->
  ring_wf (ring_push r e) /\
  ring_contents zero (ring_push r e)
  = (if ring_count r <? RING_SIZE - 1
     then ring_contents zero r ++ [e] else ring_contents zero r) /\
  Z.of_nat (length (ring_contents zero (ring_push r e))) <= RING_SIZE - 1.
Proof.
  intros Hwf. pose proof (ring_count_range r) as Hr.
  assert (Hc : ring_contents zero (ring_push r e)
               = (if ring_count r <? RING_SIZE - 1
                  then ring_contents zero r ++ [e] else ring_contents zero r)).
  { destruct (ring_count r <? RING_SIZE - 1) eqn:Hlt.
    - apply Z.ltb_lt in Hlt. now apply ring_push_not_full.
    - apply Z.ltb_ge in Hlt. rewrite ring_push_full; [reflexivity|].
      apply ring_full_count; [exact Hwf | lia]. }
  split; [now apply ring_push_wf|]. split; [exact Hc|].
  rewrite ring_contents_length. pose proof (ring_count_range (ring_push r e)). lia.
Qed.

(** X2. On a well-formed ring holding [c] records, [ring_pop_many] with
    [max] copies out the [min max c] oldest records in queue order, returns
    that number, and leaves the remaining records queued in order. *)
Theorem ring_pop_many_oldest_first r max :
  ring_wf r ->
  let k := (Z.to_nat max `min` length (ring_contents zero r))%nat in
  (ring_pop_many zero r max).1.2 = take k (ring_contents zero r) /\
  (ring_pop_many zero r max).2 = Z.of_nat k /\
  ring_contents zero (ring_pop_many zero r max).1.1 = drop k (ring_contents zero r) /\
  ring_wf (ring_pop_many zero r max).1.1.
Proof.
  intros Hwf k. subst k. rewrite ring_contents_length.
  destruct (ring_pop_many_spec zero r max Hwf) as (r' & -> & Hw & Hc).
  cbn [fst snd]. auto.
Qed.

(** X3. Two successive pops return, together, exactly what one pop of the
    combined size returns, and leave the same records queued. *)
Theorem ring_pop_many_twice r m1 m2 :
  ring_wf r -> 0 <= m1 -> 0 <= m2 ->
  let p1 := ring_pop_many zero r m1 in
  let p2 := ring_pop_many zero p1.1.1 m2 in
  let p := ring_pop_many zero r (m1 + m2) in
  p1.1.2 ++ p2.1.2 = p.1.2 /\ p1.2 + p2.2 = p.2 /\
  ring_contents zero p2.1.1 = ring_contents zero p.1.1.
Proof.
  intros Hwf H1 H2 p1 p2 p. subst p1 p2 p.
  destruct (ring_pop_many_spec zero r m1 Hwf) as (r1 & E1 & Hw1 & Hc1).
  destruct (ring_pop_many_spec zero r (m1 + m2) Hwf) as (r3 & E3 & Hw3 & Hc3).
  rewrite E1, E3. cbn [fst snd].
  destruct (ring_pop_many_spec zero r1 m2 Hw1) as (r2 & E2 & Hw2 & Hc2).
  rewrite E2. cbn [fst snd].
  rewrite <- (ring_contents_length zero r1) in *.
  rewrite <- (ring_contents_length zero r) in *.
  rewrite Hc2, Hc3, Hc1, length_drop.
  set (c := ring_contents zero r) in *.
  set (k1 := (Z.to_nat m1 `min` length c)%nat).
  set (k2 := (Z.to_nat m2 `min` (length c - k1))%nat).
  replace (Z.to_nat (m1 + m2) `min` length c)%nat with (k1 + k2)%nat by lia.
  split; [|split].
  - apply take_take_drop.
  - lia.
  - now rewrite drop_drop.
Qed.

(** X4. [ring_pop_many] never returns more than [max], and when it returns
    fewer the ring is empty afterwards: a poll with room to spare drains
    the ring. *)
Theorem ring_pop_many_drains r max r' out n :
  ring_pop_many zero r max = (r', out, n) ->
  0 <= max ->
  0 <= n <= max /\ (n < max -> tail r' = head r').
Proof.
  intros H Hmax. split.
  - split.
    + now apply ring_pop_many_count in H.
    + unfold ring_pop_many in H. eapply ring_pop_loop_le; [|exact H]. exact Hmax.
  - intros Hn. apply ring_pop_many_exit in H.
    apply Z.ltb_lt in Hn. rewrite Hn in H. cbn [andb] in H.
    apply negb_false_iff, Z.eqb_eq in H. exact H.
Qed.

(** A sequence that fits, pushed on an empty ring, is popped back whole. *)
Lemma ring_push_all_pop r (l : list A) max :
  ring_wf r -> head r = tail r ->
  Z.of_nat (length l) <= RING_SIZE - 1 -> Z.of_nat (length l) <= max ->
  exists r', ring_pop_many zero (ring_push_all r l) max = (r', l, Z.of_nat (length l)).
Proof.
  intros Hwf Hempty Hlen Hmax.
  destruct (ring_push_all_contents zero l r Hwf) as [Hw Hc].
  apply (ring_empty_count r Hwf) in Hempty.
  assert (Hnil : ring_contents zero r = []).
  { apply length_zero_iff_nil. rewrite ring_contents_length. lia. }
  rewrite Hnil in Hc. simpl in Hc. rewrite take_ge in Hc by lia.
  destruct (ring_pop_many_spec zero (ring_push_all r l) max Hw) as (r' & Heq & _ & _).
  rewrite <- (ring_contents_length zero), Hc in Heq.
  replace (Z.to_nat max `min` length l)%nat with (length l) in Heq by lia.
  rewrite take_ge in Heq by lia. eauto.
Qed.

End RingQueue.

Lemma ring_push_refines_queue_witness :
  ring_contents ev_zero (ring_push (ring_init ev_zero) ev_zero)
  = (if ring_count (ring_init ev_zero) <? RING_SIZE - 1
     then ring_contents ev_zero (ring_init ev_zero) ++ [ev_zero]
     else ring_contents ev_zero (ring_init ev_zero)).
Proof.
  apply (ring_push_refines_queue ev_zero (ring_init ev_zero) ev_zero).
  unfold ring_wf. vm_compute. repeat split; congruence.
Defined.

Lemma ring_pop_many_oldest_first_witness :
  (ring_pop_many ev_zero (ring_push_all (ring_init ev_zero) (key_burst 5)) 2).2
  = Z.of_nat (Z.to_nat 2 `min`
       length (ring_contents ev_zero
                 (ring_push_all (ring_init ev_zero) (key_burst 5))))%nat.
Proof.
  apply (ring_pop_many_oldest_first ev_zero
           (ring_push_all (ring_init ev_zero) (key_burst 5)) 2).
  unfold ring_wf. vm_compute. repeat split; congruence.
Defined.

Lemma ring_pop_many_twice_witness :
  let r := ring_push_all (ring_init ev_zero) (key_burst 5) in
  (ring_pop_many ev_zero r 2).2
  + (ring_pop_many ev_zero (ring_pop_many ev_zero r 2).1.1 4).2
  = (ring_pop_many ev_zero r (2 + 4)).2.
Proof.
  apply (ring_pop_many_twice ev_zero
           (ring_push_all (ring_init ev_zero) (key_burst 5)) 2 4).
  - unfold ring_wf. vm_compute. repeat split; congruence.
  - lia.
  - lia.
Defined.

Lemma ring_pop_many_drains_witness :
  0 <= 3 <= 10 /\
  (3 < 10 ->
   tail (ring_pop_many ev_zero (ring_push_all (ring_init ev_zero) (key_burst 3)) 10).1.1
   = head (ring_pop_many ev_zero (ring_push_all (ring_init ev_zero) (key_burst 3)) 10).1.1).
Proof.
  apply (ring_pop_many_drains ev_zero
           (ring_push_all (ring_init ev_zero) (key_burst 3)) 10
           (ring_pop_many ev_zero (ring_push_all (ring_init ev_zero) (key_burst 3)) 10).1.1
           (key_burst 3)).
  - vm_compute. reflexivity.
  - lia.
Defined.

(** ** The worker's read loop and the two delivery paths *)

Lemma raw_calls_app (a b : list effect) : raw_calls (a ++ b) = raw_calls a ++ raw_calls b.
Proof.
  induction a as [|e a IH]; [reflexivity|]. destruct e; simpl; rewrite IH; reflexivity.
Qed.

Lemma raw_calls_key_only (l : list effect) :
  (forall e, e ∈ l -> exists f u k, e = CallKeyCb f u k) -> raw_calls l = [].
Proof.
  induction l as [|e l IH]; intros H; [reflexivity|].
  destruct (H e) as (f & u & k & ->); [left|]. simpl. apply IH.
  intros e' He'. apply H. now right.
Qed.

Section WorkerLoop.
Context (P : platform).
Implicit Types (g : G P).

(** One packet in callback mode. *)
Lemma worker_event_callback g devid iev f :
  g_cb P g = Some f ->
  let g' := worker_event P g devid iev in
  g_cb P g' = Some f /\ g_cb_user P g' = g_cb_user P g /\
  g_queue P g' = g_queue P g /\
  raw_calls (g_trace P g')
  = raw_calls (g_trace P g) ++ [(f, g_cb_user P g, decode_event devid iev)].
Proof.
  intros Hcb. unfold worker_event. rewrite Hcb.
  destruct (maybe_emit_key_event_raw_stream P
              (add_trace P g [CallCb f (g_cb_user P g) (decode_event devid iev)])
              (decode_event devid iev)) as (Hq & Hc & Hu & rest & Ht & Hrest).
  cbv zeta. rewrite Hq, Hc, Hu, Ht.
  unfold add_trace. g_norm.
  rewrite !raw_calls_app, (raw_calls_key_only rest Hrest), app_nil_r.
  repeat split; auto.
Qed.

(** One packet in polling mode. *)
Lemma worker_event_poll g devid iev :
  g_cb P g = None ->
  let g' := worker_event P g devid iev in
  g_cb P g' = None /\ g_initialized P g' = g_initialized P g /\
  g_queue P g' = ring_push (g_queue P g) (decode_event devid iev) /\
  raw_calls (g_trace P g') = raw_calls (g_trace P g).
Proof.
  intros Hcb. unfold worker_event. rewrite Hcb.
  destruct (maybe_emit_key_event_raw_stream P
              (with_queue P g (ring_push (g_queue P g) (decode_event devid iev)))
              (decode_event devid iev)) as (Hq & Hc & Hu & rest & Ht & Hrest).
  cbv zeta. rewrite Hq, Hc, Ht. g_norm.
  rewrite raw_calls_app, (raw_calls_key_only rest Hrest), app_nil_r.
  repeat split; auto.
  unfold maybe_emit_key_event.
  destruct (negb _); [reflexivity|]. destruct (negb _); [reflexivity|].
  destruct (negb _); [reflexivity|].
  destruct (g_xkb_state P _); [|reflexivity].
  cbv zeta. destruct (g_key_cb P _); reflexivity.
Qed.

(** X5. With a raw sink registered, the read loop on a ready device calls
    the sink once for every packet read, in the order read, with the
    decoded Event Record, and stops at the first read that fails or is
    short; the raw ring is not touched. *)
Theorem worker_drain_callback_mode (reads : list read_result) : forall g devid f,
  g_cb P g = Some f ->
  raw_calls (g_trace P (worker_drain P g devid reads))
  = raw_calls (g_trace P g)
    ++ map (fun iev => (f, g_cb_user P g, decode_event devid iev))
         (packets_read reads) /\
  g_queue P (worker_drain P g devid reads) = g_queue P g.
Proof.
  induction reads as [|rd reads IH]; intros g devid f Hcb.
  - simpl. now rewrite app_nil_r.
  - destruct rd as [| |iev]; simpl; try (now rewrite app_nil_r).
    destruct (worker_event_callback g devid iev f Hcb) as (Hc & Hu & Hq & Ht).
    destruct (IH (worker_event P g devid iev) devid f Hc) as [IHt IHq].
    rewrite IHt, IHq, Ht, Hu, Hq, <- app_assoc. auto.
Qed.

(** With no raw sink, the read loop pushes the decoded packets on the raw
    ring, in the order read, and calls no raw sink. *)
Lemma worker_drain_poll_queue (reads : list read_result) : forall g devid,
  g_cb P g = None ->
  g_queue P (worker_drain P g devid reads)
  = ring_push_all (g_queue P g) (map (decode_event devid) (packets_read reads)) /\
  g_initialized P (worker_drain P g devid reads) = g_initialized P g /\
  raw_calls (g_trace P (worker_drain P g devid reads)) = raw_calls (g_trace P g).
Proof.
  induction reads as [|rd reads IH]; intros g devid Hcb.
  - simpl. auto.
  - destruct rd as [| |iev]; simpl; auto.
    destruct (worker_event_poll g devid iev Hcb) as (Hc & Hi & Hq & Ht).
    destruct (IH (worker_event P g devid iev) devid Hc) as (IHq & IHi & IHt).
    rewrite IHq, IHi, IHt, Hq, Hi, Ht. auto.
Qed.

(** X6. End to end in polling mode: with no sink, an empty raw ring and at
    most 1023 packets read from a device, a following [ni_poll] with room
    for them returns exactly the decoded packets, in the order the device
    produced them, and no raw sink was called. *)
Theorem worker_drain_then_poll g devid (reads : list read_result) (max : Z) :
  g_initialized P g = true -> g_cb P g = None ->
  ring_wf (g_queue P g) -> head (g_queue P g) = tail (g_queue P g) ->
  Z.of_nat (length (packets_read reads)) <= RING_SIZE - 1 ->
  Z.of_nat (length (packets_read reads)) <= max -> 0 < max ->
  let g' := worker_drain P g devid reads in
  (ni_poll P g' true max).1.2 = map (decode_event devid) (packets_read reads) /\
  (ni_poll P g' true max).2 = Z.of_nat (length (packets_read reads)) /\
  raw_calls (g_trace P g') = raw_calls (g_trace P g).
Proof.
  intros Hi Hcb Hwf He Hlen Hmax Hpos g'.
  destruct (worker_drain_poll_queue reads g devid Hcb) as (Hq & Hi' & Ht).
  fold g' in Hq, Hi', Ht. split; [|split]; [| |exact Ht].
  all: unfold ni_poll; rewrite Hi', Hi, Hq; cbn [negb orb].
  all: replace (max <=? 0) with false by (symmetry; apply Z.leb_gt; lia).
  all: destruct (ring_push_all_pop ev_zero (g_queue P g)
                   (map (decode_event devid) (packets_read reads)) max Hwf He)
         as (r' & Hr).
  all: try (rewrite length_map; lia).
  all: rewrite Hr; cbn [fst snd]; rewrite ?length_map; reflexivity.
Qed.

End WorkerLoop.

Lemma worker_drain_callback_mode_witness :
  raw_calls (g_trace demo_platform (worker_drain demo_platform demo_engine_cb 1 demo_reads))
  = raw_calls (g_trace demo_platform demo_engine_cb)
    ++ map (fun iev => (7, g_cb_user demo_platform demo_engine_cb, decode_event 1 iev))
         (packets_read demo_reads) /\
  g_queue demo_platform (worker_drain demo_platform demo_engine_cb 1 demo_reads)
  = g_queue demo_platform demo_engine_cb.
Proof.
  apply (worker_drain_callback_mode demo_platform demo_reads demo_engine_cb 1 7).
  vm_compute. reflexivity.
Defined.

Lemma worker_drain_then_poll_witness :
  (ni_poll demo_platform (worker_drain demo_platform demo_engine 1 demo_reads) true 16).1.2
  = map (decode_event 1) (packets_read demo_reads).
Proof.
  apply (worker_drain_then_poll demo_platform demo_engine 1 demo_reads 16).
  - vm_compute. reflexivity.
  - vm_compute. reflexivity.
  - unfold ring_wf. vm_compute. repeat split; congruence.
  - vm_compute. reflexivity.
  - vm_compute. congruence.
  - vm_compute. congruence.
  - lia.
Defined.

(** ** The keymap layer *)

Section KeymapFacts.
Context (P : platform).
Implicit Types (g : G P) (base : ni_event).

Lemma maybe_emit_key_event_frame g base :
  let g' := maybe_emit_key_event P g base in
  g_initialized P g' = g_initialized P g /\
  g_devices P g' = g_devices P g /\ g_ndevi P g' = g_ndevi P g /\
  g_filter P g' = g_filter P g /\ g_xkb_enabled P g' = g_xkb_enabled P g.
Proof.
  unfold maybe_emit_key_event.
  destruct (negb _); [auto|]. destruct (negb _); [auto|].
  destruct (negb _); [auto|]. destruct (g_xkb_state P g); [|auto].
  cbv zeta. destruct (g_key_cb P _); auto.
Qed.

(** X7. The keymap layer is additive: handling an event there never pushes
    on the raw ring, never calls or changes the raw sink, and leaves the
    registry, the filter and the lifecycle flag alone. *)
Theorem keymap_layer_leaves_raw_stream g base :
  let g' := maybe_emit_key_event P g base in
  g_queue P g' = g_queue P g /\
  g_cb P g' = g_cb P g /\ g_cb_user P g' = g_cb_user P g /\
  raw_calls (g_trace P g') = raw_calls (g_trace P g) /\
  g_initialized P g' = g_initialized P g /\
  g_devices P g' = g_devices P g /\ g_ndevi P g' = g_ndevi P g /\
  g_filter P g' = g_filter P g.
Proof.
  intros g'. subst g'.
  destruct (maybe_emit_key_event_raw_stream P g base) as (Hq & Hc & Hu & rest & Ht & Hr).
  destruct (maybe_emit_key_event_frame g base) as (Hi & Hd & Hn & Hf & _).
  rewrite Ht, raw_calls_app, (raw_calls_key_only rest Hr), app_nil_r. auto 10.
Qed.

(** X8. The modifier mask uses bits 0 to 3 only: Shift, Control, Alt and
    Super (Logo) in that order, each set exactly when libxkbcommon reports
    the modifier active; with no keymap state the mask is 0. *)
Theorem mods_mask_bits g :
  0 <= mods_mask_from_state P g < 16 /\
  (forall st, HAVE_XKBCOMMON P = true -> g_xkb_state P g = Some st ->
     Z.testbit (mods_mask_from_state P g) 0
     = xkb_state_mod_name_is_active P st XKB_MOD_NAME_SHIFT /\
     Z.testbit (mods_mask_from_state P g) 1
     = xkb_state_mod_name_is_active P st XKB_MOD_NAME_CTRL /\
     Z.testbit (mods_mask_from_state P g) 2
     = xkb_state_mod_name_is_active P st XKB_MOD_NAME_ALT /\
     Z.testbit (mods_mask_from_state P g) 3
     = xkb_state_mod_name_is_active P st XKB_MOD_NAME_LOGO) /\
  (g_xkb_state P g = None -> mods_mask_from_state P g = 0).
Proof.
  unfold mods_mask_from_state.
  destruct (HAVE_XKBCOMMON P); [|repeat split; intros; try lia; discriminate].
  destruct (g_xkb_state P g) as [st|]; [|repeat split; intros; try lia; discriminate].
  split; [|split; [|intros; discriminate]].
  - destruct (xkb_state_mod_name_is_active P st XKB_MOD_NAME_SHIFT),
      (xkb_state_mod_name_is_active P st XKB_MOD_NAME_CTRL),
      (xkb_state_mod_name_is_active P st XKB_MOD_NAME_ALT),
      (xkb_state_mod_name_is_active P st XKB_MOD_NAME_LOGO);
      vm_compute; split; congruence.
  - intros st' _ Hst. injection Hst as <-.
    destruct (xkb_state_mod_name_is_active P st XKB_MOD_NAME_SHIFT),
      (xkb_state_mod_name_is_active P st XKB_MOD_NAME_CTRL),
      (xkb_state_mod_name_is_active P st XKB_MOD_NAME_ALT),
      (xkb_state_mod_name_is_active P st XKB_MOD_NAME_LOGO);
      vm_compute; auto.
Qed.

(** X9. Switching the keymap off stops the keymap stream: after
    [ni_enable_xkb(0)] the keymap state is gone and an event handed to the
    keymap layer changes nothing, so no Key Record is queued or delivered. *)
Theorem keymap_off_emits_nothing g base :
  let r := ni_enable_xkb P g 0 in
  r.2 = (if HAVE_XKBCOMMON P then 0 else -1) /\
  g_xkb_enabled P r.1 = false /\
  (HAVE_XKBCOMMON P = true -> g_xkb_state P r.1 = None) /\
  maybe_emit_key_event P r.1 base = r.1.
Proof.
  intros r. subst r. unfold ni_enable_xkb.
  change (negb (0 =? 0)) with false. g_norm.
  destruct (HAVE_XKBCOMMON P); cbn [fst snd]; unfold maybe_emit_key_event; g_norm;
    repeat split; auto; discriminate.
Qed.

(** X10. [ni_set_xkb_names] stores every non-null name, cut to its buffer,
    whether or not the keymap can be rebuilt.  While the keymap is enabled
    it rebuilds from the stored names: a failed build is reported with -1
    and leaves the previous keymap state in place, a successful one returns
    0 and installs the state libxkbcommon built from those names.  While
    the keymap is disabled nothing is built and 0 is returned. *)
Theorem set_xkb_names_rebuild g (rules model layout variant options : option string) :
  HAVE_XKBCOMMON P = true ->
  let r := ni_set_xkb_names P g rules model layout variant options in
  (g_xkb_rules P r.1, g_xkb_model P r.1, g_xkb_layout P r.1, g_xkb_variant P r.1,
   g_xkb_options P r.1)
  = (name_set 32 (g_xkb_rules P g) rules, name_set 32 (g_xkb_model P g) model,
     name_set 64 (g_xkb_layout P g) layout, name_set 32 (g_xkb_variant P g) variant,
     name_set 128 (g_xkb_options P g) options) /\
  (r.2 = 0 \/ r.2 = -1) /\
  (r.2 = -1 -> g_xkb_state P r.1 = g_xkb_state P g) /\
  (g_xkb_enabled P g = false -> r.2 = 0 /\ g_xkb_state P r.1 = g_xkb_state P g) /\
  (g_xkb_enabled P g = true -> r.2 = 0 ->
   g_xkb_state P r.1 = xkb_state_new_from_names P (rmlvo_of P r.1) /\
   g_xkb_state P r.1 <> None).
Proof.
  intros Hhave r. subst r. unfold ni_set_xkb_names. rewrite Hhave.
  match goal with |- context [if g_xkb_enabled P ?h then _ else _] => set (g1 := h) end.
  assert (H1 : (g_xkb_rules P g1, g_xkb_model P g1, g_xkb_layout P g1,
                g_xkb_variant P g1, g_xkb_options P g1)
               = (name_set 32 (g_xkb_rules P g) rules, name_set 32 (g_xkb_model P g) model,
                  name_set 64 (g_xkb_layout P g) layout,
                  name_set 32 (g_xkb_variant P g) variant,
                  name_set 128 (g_xkb_options P g) options)
               /\ g_xkb_state P g1 = g_xkb_state P g
               /\ g_xkb_enabled P g1 = g_xkb_enabled P g).
  { subst g1. destruct g. destruct rules, model, layout, variant, options; repeat split. }
  destruct H1 as (Hn & Hs & He). cbv zeta. clearbody g1.
  destruct (g_xkb_enabled P g1) eqn:Hen; rewrite <- He.
  - unfold rebuild_xkb_keymap. rewrite Hhave, Hen. cbn [negb].
    assert (Hframe : forall c,
              rmlvo_of P (with_xkb_ctx P g1 c) = rmlvo_of P g1 /\
              (g_xkb_rules P (with_xkb_ctx P g1 c), g_xkb_model P (with_xkb_ctx P g1 c),
               g_xkb_layout P (with_xkb_ctx P g1 c), g_xkb_variant P (with_xkb_ctx P g1 c),
               g_xkb_options P (with_xkb_ctx P g1 c))
              = (g_xkb_rules P g1, g_xkb_model P g1, g_xkb_layout P g1,
                 g_xkb_variant P g1, g_xkb_options P g1) /\
              g_xkb_state P (with_xkb_ctx P g1 c) = g_xkb_state P g1).
    { intros c. destruct g1. repeat split. }
    assert (Hst : forall h st,
              rmlvo_of P (with_xkb_state P h st) = rmlvo_of P h /\
              (g_xkb_rules P (with_xkb_state P h st), g_xkb_model P (with_xkb_state P h st),
               g_xkb_layout P (with_xkb_state P h st), g_xkb_variant P (with_xkb_state P h st),
               g_xkb_options P (with_xkb_state P h st))
              = (g_xkb_rules P h, g_xkb_model P h, g_xkb_layout P h,
                 g_xkb_variant P h, g_xkb_options P h) /\
              g_xkb_state P (with_xkb_state P h st) = st).
    { intros h st. destruct h. repeat split. }
    fold (rmlvo_of P (if g_xkb_ctx P g1 then g1
                      else with_xkb_ctx P g1 (xkb_context_new P))).
    destruct (g_xkb_ctx P g1) eqn:Hc.
    + rewrite Hc. cbn [negb].
      destruct (xkb_state_new_from_names P (rmlvo_of P g1)) as [st|] eqn:Hb;
        cbn [fst snd].
      * destruct (Hst g1 (Some st)) as (Hr1 & Hr2 & Hr3).
        rewrite Hr1, Hr2, Hr3, Hb, Hn.
        repeat split; auto; try discriminate.
      * rewrite Hn, Hs. repeat split; auto; discriminate.
    + destruct (Hframe (xkb_context_new P)) as (Hf1 & Hf2 & Hf3).
      destruct (xkb_context_new P) eqn:Hcn.
      * replace (g_xkb_ctx P (with_xkb_ctx P g1 true)) with true by now destruct g1.
        cbn [negb]. rewrite Hf1.
        destruct (xkb_state_new_from_names P (rmlvo_of P g1)) as [st|] eqn:Hb;
          cbn [fst snd].
        -- destruct (Hst (with_xkb_ctx P g1 true) (Some st)) as (Hr1 & Hr2 & Hr3).
           rewrite Hr1, Hr2, Hr3, Hf1, Hf2, Hb, Hn.
           repeat split; auto; try discriminate.
        -- rewrite Hf2, Hf3, Hn, Hs. repeat split; auto; discriminate.
      * replace (g_xkb_ctx P (with_xkb_ctx P g1 false)) with false by now destruct g1.
        cbn [negb fst snd]. rewrite Hf2, Hf3, Hn, Hs.
        repeat split; auto; discriminate.
  - cbn [fst snd]. rewrite Hn, Hs. repeat split; auto; try discriminate.
Qed.

End KeymapFacts.

Lemma set_xkb_names_rebuild_witness :
  (ni_set_xkb_names demo_platform demo_engine None None (Some "de"%string) None None).2 = 0
  \/ (ni_set_xkb_names demo_platform demo_engine None None (Some "de"%string) None None).2
     = -1.
Proof.
  refine (proj1 (proj2 (set_xkb_names_rebuild demo_platform demo_engine
                          None None (Some "de"%string) None None _))).
  reflexivity.
Defined.

(** ** The registry: add, remove, discovery, re-evaluation *)

(** For the node numbers of the discovery pass, printing the path and
    reading the number back are inverse, and the path fits its buffers. *)
Lemma event_path_table :
  forallb (fun i => (devid_of_path (event_path i) =? i)
                    && String.eqb (c_copy 128 (event_path i))
                         ("/dev/input/event" ++ dec i)
                    && (atoi (str_skip 5 ("event" ++ dec i)) =? i)
                    && is_event_name ("event" ++ dec i)
                    && String.eqb (c_copy 128 ("/dev/input/" ++ ("event" ++ dec i)))
                         (event_path i)
                    && String.eqb (event_path i) ("/dev/input/event" ++ dec i))
    (seqZ 0 MAX_DEVICES) = true.
Proof. vm_compute. reflexivity. Qed.

(** The path printed for a node number of the discovery pass, and the
    name of its hotplug notification, read back as that number. *)
Lemma event_path_facts (i : Z) :
  0 <= i < MAX_DEVICES ->
  devid_of_path (event_path i) = i /\
  c_copy 128 (event_path i) = ("/dev/input/event" ++ dec i)%string /\
  is_event_name ("event" ++ dec i) = true /\
  atoi (str_skip 5 ("event" ++ dec i)) = i /\
  c_copy 128 ("/dev/input/" ++ ("event" ++ dec i)) = event_path i /\
  event_path i = ("/dev/input/event" ++ dec i)%string.
Proof.
  intros Hi. pose proof event_path_table as H.
  rewrite forallb_forall in H. specialize (H i).
  rewrite <- list_elem_of_In, elem_of_seqZ in H. specialize (H ltac:(lia)).
  repeat (apply andb_prop in H as [H ?]).
  repeat split;
    first [now apply Z.eqb_eq | now apply String.eqb_eq | assumption].
Qed.

(** X11. For every node number [0 <= i < 128] the id read off the path
    "/dev/input/event<i>" is [i] again ([strrchr] for the last 't', then
    [atoi]); the path fits the 64-byte buffer it is printed in and is
    stored in the descriptor uncut; and the name "event<i>" of a hotplug
    notification is recognised and yields [i]. *)
Theorem event_path_roundtrip (i : Z) :
  0 <= i < MAX_DEVICES ->
  devid_of_path (event_path i) = i /\
  event_path i = ("/dev/input/event" ++ dec i)%string /\
  c_copy 128 (event_path i) = event_path i /\
  is_event_name ("event" ++ dec i) = true /\
  atoi (str_skip 5 ("event" ++ dec i)) = i.
Proof.
  intros Hi. destruct (event_path_facts i Hi) as (H1 & H2 & H3 & H4 & _ & H6).
  repeat split; auto. now rewrite H2, H6.
Qed.

Lemma event_path_roundtrip_witness : devid_of_path (event_path 17) = 17.
Proof. apply (event_path_roundtrip 17). unfold MAX_DEVICES. lia. Defined.

(** Distinct numbers below 128 are at most 128. *)
Lemma distinct_ids_bounded (l : list Z) :
  NoDup l -> Forall (fun i => 0 <= i < MAX_DEVICES) l ->
  Z.of_nat (length l) <= MAX_DEVICES.
Proof.
  intros Hnd Hr.
  assert (Hs : l ⊆+ seqZ 0 MAX_DEVICES).
  { apply NoDup_submseteq; [exact Hnd|]. intros x Hx. apply elem_of_seqZ.
    rewrite Forall_forall in Hr. apply Hr in Hx. lia. }
  apply submseteq_length in Hs. rewrite length_seqZ in Hs. unfold MAX_DEVICES in *. lia.
Qed.

(** Removing one slot: what is left is the old list without entry [i]. *)
Lemma take_insert_last_delete {A : Type} (l : list A) (i m : nat) (x : A) :
  l !! m = Some x -> (i <= m)%nat ->
  take m (<[i := x]> l) ≡ₚ delete i (take (S m) l).
Proof.
  intros Hm Hi. assert (Hlen : (m < length l)%nat) by (eapply lookup_lt_Some; eauto).
  rewrite (take_S_r _ _ _ Hm), delete_take_drop.
  destruct (decide (i = m)) as [->|Hne].
  - rewrite take_insert_ge by lia.
    rewrite take_app_le, drop_app_ge by (rewrite length_take; lia).
    rewrite take_take, length_take.
    replace (m `min` m)%nat with m by lia.
    replace (S m - m `min` length l)%nat with 1%nat by lia.
    simpl. now rewrite app_nil_r.
  - rewrite take_insert_lt by lia.
    rewrite insert_take_drop by (rewrite length_take; lia).
    rewrite take_app_le by (rewrite length_take; lia).
    rewrite drop_app_le by (rewrite length_take; lia).
    apply Permutation_app_head. apply Permutation_cons_append.
Qed.

Section RegistryOps.
Context (P : platform).
Implicit Types (g : G P) (d : device).

Lemma registered_lookup g (i : nat) :
  registry_wf P g -> (i < Z.to_nat (g_ndevi P g))%nat ->
  registered P g !! i = Some (nth i (g_devices P g) device_zero).
Proof.
  intros [Hlen Hn] Hi. unfold registered. rewrite lookup_take_lt by lia.
  rewrite nth_lookup. destruct (g_devices P g !! i) eqn:E; [reflexivity|].
  apply lookup_ge_None in E. unfold MAX_DEVICES in *. lia.
Qed.

Lemma registered_length g :
  registry_wf P g -> length (registered P g) = Z.to_nat (g_ndevi P g).
Proof.
  intros [Hlen Hn]. unfold registered. apply length_take_le.
  unfold MAX_DEVICES in *. lia.
Qed.

Lemma has_device_id_elem g id : has_device_id P g id = true <-> id ∈ ids_of P g.
Proof.
  unfold has_device_id, ids_of. rewrite existsb_exists, list_elem_of_fmap. split.
  - intros (d & Hd & He). apply Z.eqb_eq in He. exists d. split; [auto|].
    now apply list_elem_of_In.
  - intros (d & -> & Hd). exists d. split; [now apply list_elem_of_In|]. apply Z.eqb_refl.
Qed.

Lemma registered_add_device_fd g fd devid path :
  registry_wf P g -> g_ndevi P g < MAX_DEVICES ->
  registered P (add_device_fd P g fd devid path)
  = registered P g ++ [mk_device fd devid (c_copy 128 path)] /\
  registry_wf P (add_device_fd P g fd devid path).
Proof.
  intros [Hlen Hn] Hroom. rewrite add_device_fd_as_update.
  unfold registered, registry_wf, registry_update. g_norm.
  rewrite length_insert. split; [|split; [exact Hlen | lia]].
  replace (Z.to_nat (g_ndevi P g + 1)) with (S (Z.to_nat (g_ndevi P g))) by lia.
  rewrite (take_S_r _ _ (mk_device fd devid (c_copy 128 path))).
  - now rewrite take_insert_ge by lia.
  - apply list_lookup_insert_eq. unfold MAX_DEVICES in *. lia.
Qed.

(** X12. Adding a device while the array has room appends its descriptor
    (handle, id, path cut to 127 characters) after the registered ones,
    raises the count by one and registers the handle with the multiplexer;
    the id is then found by [has_device_id], and the handle maps back to
    the id by [fd_to_device_id] when no registered device had it before. *)
Theorem add_device_fd_registers g fd devid path :
  registry_wf P g -> g_ndevi P g < MAX_DEVICES ->
  let g' := add_device_fd P g fd devid path in
  registered P g' = registered P g ++ [mk_device fd devid (c_copy 128 path)] /\
  ni_device_count P g' = ni_device_count P g + 1 /\
  g_trace P g' = g_trace P g ++ [EpollAdd fd] /\
  registry_wf P g' /\
  has_device_id P g' devid = true /\
  (Forall (fun d => d_fd d <> fd) (registered P g) -> fd_to_device_id P g' fd = devid).
Proof.
  intros Hwf Hroom g'. subst g'.
  destruct (registered_add_device_fd g fd devid path Hwf Hroom) as [Hr Hw].
  split; [exact Hr|]. split; [now rewrite add_device_fd_as_update|].
  split; [now rewrite add_device_fd_as_update|]. split; [exact Hw|]. split.
  - apply has_device_id_elem. unfold ids_of. rewrite Hr, map_app.
    apply elem_of_app. right. left.
  - intros Hfd. unfold fd_to_device_id. rewrite Hr.
    destruct (list_find _ _) as [[i d]|] eqn:Hf.
    + apply list_find_Some in Hf as (Hl & Hp & _).
      apply lookup_app_Some in Hl as [Hl|[_ Hl]].
      * rewrite Forall_forall in Hfd. exfalso. apply (Hfd d); [|exact Hp].
        apply list_elem_of_lookup. eauto.
      * apply list_lookup_singleton_Some in Hl as [_ <-]. reflexivity.
    + apply list_find_None in Hf. rewrite Forall_app in Hf. destruct Hf as [_ Hf].
      inversion Hf as [|? ? Hx]; subst. exfalso. apply Hx. reflexivity.
Qed.

Lemma registered_drop_slot g (i : nat) d :
  registry_wf P g -> registered P g !! i = Some d ->
  registered P (drop_slot P g i) ≡ₚ delete i (registered P g) /\
  registry_wf P (drop_slot P g i) /\
  g_ndevi P (drop_slot P g i) = g_ndevi P g - 1 /\
  g_trace P (drop_slot P g i) = g_trace P g ++ removal_calls d /\
  (forall j, (j < i)%nat -> registered P (drop_slot P g i) !! j = registered P g !! j).
Proof.
  intros Hwf Hd. pose proof Hwf as [Hlen Hn].
  assert (Hi : (i < Z.to_nat (g_ndevi P g))%nat).
  { rewrite <- registered_length by exact Hwf. eapply lookup_lt_Some; eauto. }
  pose proof (registered_lookup g i Hwf Hi) as Hd'. rewrite Hd in Hd'.
  injection Hd' as Hd'.
  rewrite drop_slot_as_update. unfold registered, registry_wf, registry_update. g_norm.
  rewrite length_insert, <- Hd'.
  set (m := Z.to_nat (g_ndevi P g - 1)).
  assert (Hm : g_devices P g !! m = Some (nth m (g_devices P g) device_zero)).
  { rewrite nth_lookup. destruct (g_devices P g !! m) eqn:E; [reflexivity|].
    apply lookup_ge_None in E. unfold MAX_DEVICES in *. lia. }
  replace (Z.to_nat (g_ndevi P g)) with (S m) by lia.
  split; [|split; [|split; [|split]]].
  - apply take_insert_last_delete; [exact Hm | lia].
  - split; [exact Hlen | lia].
  - reflexivity.
  - reflexivity.
  - intros j Hj. rewrite !lookup_take_lt by lia.
    apply list_lookup_insert_ne. lia.
Qed.

Lemma NoDup_delete_not_elem {A : Type} (l : list A) (i : nat) (x : A) :
  NoDup l -> l !! i = Some x -> x ∉ delete i l.
Proof.
  intros Hnd Hi Hin. apply list_elem_of_lookup in Hin as [j Hj].
  destruct (decide (j < i)%nat) as [Hlt|Hge].
  - rewrite list_lookup_delete_lt in Hj by exact Hlt.
    pose proof (NoDup_lookup _ _ _ _ Hnd Hi Hj). lia.
  - rewrite list_lookup_delete_ge in Hj by lia.
    pose proof (NoDup_lookup _ _ _ _ Hnd Hi Hj). lia.
Qed.

(** X13. [remove_device_by_id] leaves the engine untouched when no
    registered device has the id.  Otherwise it removes the first
    registered device with that id and no other: the count drops by one,
    the device's handle is unregistered from the multiplexer and closed,
    and the remaining devices are the old ones (the last one moved into
    the freed slot).  When ids were pairwise distinct the id is no longer
    registered afterwards. *)
Theorem remove_device_by_id_spec g id :
  registry_wf P g ->
  let g' := remove_device_by_id P g id in
  (has_device_id P g id = false -> g' = g) /\
  (has_device_id P g id = true ->
   exists (i : nat) d,
     registered P g !! i = Some d /\ d_id d = id /\
     (forall j d', (j < i)%nat -> registered P g !! j = Some d' -> d_id d' <> id) /\
     registered P g' ≡ₚ delete i (registered P g) /\
     ni_device_count P g' = ni_device_count P g - 1 /\
     g_trace P g' = g_trace P g ++ removal_calls d /\
     registry_wf P g') /\
  (NoDup (ids_of P g) -> has_device_id P g' id = false).
Proof.
  intros Hwf g'. subst g'. unfold remove_device_by_id.
  destruct (list_find _ _) as [[i d]|] eqn:Hf.
  - apply list_find_Some in Hf as (Hl & Hp & Hfirst).
    destruct (registered_drop_slot g i d Hwf Hl) as (Hperm & Hw & Hn & Ht & _).
    split; [|split].
    + intros Hno. exfalso. apply not_true_iff_false in Hno. apply Hno.
      apply has_device_id_elem. unfold ids_of. apply list_elem_of_fmap.
      exists d. split; [auto|]. apply list_elem_of_lookup. eauto.
    + intros _. exists i, d. split; [exact Hl|]. split; [exact Hp|].
      split; [intros j d' Hj Hd'; exact (Hfirst j d' Hd' Hj)|].
      split; [exact Hperm|]. split; [exact Hn|]. split; [exact Ht | exact Hw].
    + intros Hnd. apply not_true_iff_false. intros Hhas.
      apply has_device_id_elem in Hhas. unfold ids_of in Hhas.
      rewrite Hperm in Hhas.
      assert (Hdel : map d_id (delete i (registered P g)) = delete i (ids_of P g)).
      { unfold ids_of. rewrite !delete_take_drop, map_app.
        now rewrite <- !fmap_take, <- !fmap_drop. }
      rewrite Hdel in Hhas. revert Hhas.
      apply NoDup_delete_not_elem; [exact Hnd|].
      unfold ids_of. rewrite list_lookup_fmap, Hl. simpl. now rewrite Hp.
  - apply list_find_None in Hf. split; [auto|]. split.
    + intros Hhas. exfalso. apply has_device_id_elem in Hhas.
      unfold ids_of in Hhas. apply list_elem_of_fmap in Hhas as (d & Hid & Hd).
      rewrite Forall_forall in Hf. apply (Hf d Hd). now symmetry.
    + intros _. apply not_true_iff_false. intros Hhas.
      apply has_device_id_elem in Hhas.
      unfold ids_of in Hhas. apply list_elem_of_fmap in Hhas as (d & Hid & Hd).
      rewrite Forall_forall in Hf. apply (Hf d Hd). now symmetry.
Qed.

End RegistryOps.

Section ScanFacts.
Context (P : platform) (os : os_env).
Implicit Types (g : G P) (d : device).

Lemma has_device_id_prefix g g' id :
  registered P g `prefix_of` registered P g' ->
  has_device_id P g id = true -> has_device_id P g' id = true.
Proof.
  intros [k Hk] H. apply has_device_id_elem in H. apply has_device_id_elem.
  unfold ids_of in *. rewrite Hk, map_app. apply elem_of_app. now left.
Qed.

Lemma admissible_same_filter g g' i :
  g_filter P g' = g_filter P g -> g_filter_user P g' = g_filter_user P g ->
  admissible P os g' i = admissible P os g i.
Proof. intros Hf Hu. unfold admissible. now rewrite Hf, Hu. Qed.

(** One candidate node of the discovery pass. *)
Lemma scan_step_spec g i :
  scan_inv P g -> 0 <= i < MAX_DEVICES ->
  let g' := scan_step P os g i in
  scan_inv P g' /\
  g_filter P g' = g_filter P g /\ g_filter_user P g' = g_filter_user P g /\
  registered P g `prefix_of` registered P g' /\
  (admissible P os g i = true -> has_device_id P g' i = true).
Proof.
  intros Hinv Hi g'. pose proof Hinv as (Hwf & Hnd & Hr). subst g'. unfold scan_step.
  destruct (has_device_id P g i) eqn:Hhas.
  { split; [exact Hinv|]. repeat split; auto. }
  assert (Hnot : i ∉ ids_of P g).
  { intros Hin. apply has_device_id_elem in Hin. congruence. }
  assert (Hroom : g_ndevi P g < MAX_DEVICES).
  { assert (Hb : Z.of_nat (length (i :: ids_of P g)) <= MAX_DEVICES).
    { apply distinct_ids_bounded; [now constructor | now constructor]. }
    simpl in Hb. unfold ids_of in Hb. rewrite length_map, registered_length in Hb by exact Hwf.
    destruct Hwf as [_ ?]. lia. }
  destruct (event_path_facts i Hi) as (Hdev & _).
  assert (Hadd : forall fd,
            let g2 := add_device_fd P g fd i (event_path i) in
            scan_inv P g2 /\ g_filter P g2 = g_filter P g /\
            g_filter_user P g2 = g_filter_user P g /\
            registered P g `prefix_of` registered P g2 /\
            has_device_id P g2 i = true).
  { intros fd g2. subst g2.
    destruct (registered_add_device_fd P g fd i (event_path i) Hwf Hroom) as [Hreg Hw2].
    assert (Hids : ids_of P (add_device_fd P g fd i (event_path i)) = ids_of P g ++ [i]).
    { unfold ids_of. now rewrite Hreg, map_app. }
    split; [split; [exact Hw2|split]|].
    - rewrite Hids. apply NoDup_app. split; [exact Hnd|]. split.
      + intros x Hx Hx'. apply list_elem_of_singleton in Hx'. now subst.
      + apply NoDup_singleton.
    - rewrite Hids. apply Forall_app. split; [exact Hr|]. now repeat constructor.
    - split; [now rewrite add_device_fd_as_update|].
      split; [now rewrite add_device_fd_as_update|].
      split; [rewrite Hreg; now apply prefix_app_r|].
      apply has_device_id_elem. rewrite Hids. apply elem_of_app. right. left. }
  assert (Htr : forall es,
            scan_inv P (add_trace P g es) /\ g_filter P (add_trace P g es) = g_filter P g /\
            g_filter_user P (add_trace P g es) = g_filter_user P g /\
            registered P g `prefix_of` registered P (add_trace P g es)).
  { intros es. split; [exact Hinv|]. repeat split; auto. }
  unfold open_device_filtered, admissible. rewrite Hdev.
  destruct (sys_open os (event_path i) <? 0) eqn:Ho.
  { replace (-1 <? 0) with true by reflexivity.
    replace (0 <=? sys_open os (event_path i)) with false
      by (symmetry; apply Z.leb_gt; now apply Z.ltb_lt).
    split; [exact Hinv|]. repeat split; auto. discriminate. }
  destruct (g_filter P g) as [f|] eqn:Hf.
  - destruct (f _ _) eqn:Hacc.
    + rewrite Ho. destruct (Hadd (sys_open os (event_path i))) as (H1 & H2 & H3 & H4 & H5).
      replace (if 0 <=? i then i else i) with i by (destruct (0 <=? i); reflexivity).
      auto.
    + replace (-1 <? 0) with true by reflexivity.
      destruct (Htr [SysClose (sys_open os (event_path i))]) as (H1 & H2 & H3 & H4).
      rewrite andb_false_r.
      split; [exact H1|]. repeat split; auto. discriminate.
  - rewrite Ho. destruct (Hadd (sys_open os (event_path i))) as (H1 & H2 & H3 & H4 & H5).
    replace (if 0 <=? i then i else i) with i by (destruct (0 <=? i); reflexivity).
    auto.
Qed.

Lemma scan_steps_spec (l : list Z) : forall g,
  scan_inv P g -> Forall (fun i => 0 <= i < MAX_DEVICES) l ->
  let g' := foldl (scan_step P os) g l in
  scan_inv P g' /\
  g_filter P g' = g_filter P g /\ g_filter_user P g' = g_filter_user P g /\
  registered P g `prefix_of` registered P g' /\
  (forall i, i ∈ l -> admissible P os g i = true -> has_device_id P g' i = true).
Proof.
  induction l as [|i l IH]; intros g Hinv Hl; simpl.
  - split; [exact Hinv|]. repeat split; auto. intros i Hi. inversion Hi.
  - inversion Hl as [|? ? Hi Hl']; subst.
    destruct (scan_step_spec g i Hinv Hi) as (H1 & H2 & H3 & H4 & H5).
    destruct (IH (scan_step P os g i) H1 Hl') as (I1 & I2 & I3 & I4 & I5).
    split; [exact I1|]. split; [congruence|]. split; [congruence|].
    split; [etrans; eauto|].
    intros j Hj Hadm. apply elem_of_cons in Hj as [->|Hj].
    + eapply has_device_id_prefix; [exact I4|]. now apply H5.
    + apply I5; [exact Hj|]. now rewrite (admissible_same_filter g _ j H2 H3).
Qed.

(** X14. The discovery pass keeps the registry sound: from a registry
    within its array whose ids are pairwise distinct node numbers below
    128, [scan_devices] yields such a registry again, so the count stays
    at most [MAX_DEVICES]; it never removes or reorders a registered
    device and never changes the filter. *)
Theorem scan_devices_keeps_registry_sound g :
  scan_inv P g ->
  let g' := scan_devices P os g in
  scan_inv P g' /\
  ni_device_count P g' <= MAX_DEVICES /\
  registered P g `prefix_of` registered P g' /\
  g_filter P g' = g_filter P g /\ g_filter_user P g' = g_filter_user P g.
Proof.
  intros Hinv g'. subst g'. unfold scan_devices.
  destruct (scan_steps_spec (seqZ 0 MAX_DEVICES) g Hinv) as (H1 & H2 & H3 & H4 & _).
  { apply Forall_forall. intros i Hi. apply elem_of_seqZ in Hi. lia. }
  split; [exact H1|]. split; [|auto].
  destruct H1 as ([_ Hn] & _). apply Hn.
Qed.

(** X15. The discovery pass is complete: afterwards every candidate node
    event0 .. event127 that opens and passes the filter in force is
    registered under its node number. *)
Theorem scan_devices_registers_admissible g i :
  scan_inv P g -> 0 <= i < MAX_DEVICES -> admissible P os g i = true ->
  has_device_id P (scan_devices P os g) i = true.
Proof.
  intros Hinv Hi Hadm. unfold scan_devices.
  destruct (scan_steps_spec (seqZ 0 MAX_DEVICES) g Hinv) as (_ & _ & _ & _ & H).
  { apply Forall_forall. intros j Hj. apply elem_of_seqZ in Hj. lia. }
  apply H; [|exact Hadm]. apply elem_of_seqZ. lia.
Qed.

(** The zeroed registry is sound. *)
Lemma scan_inv_registry_empty g :
  length (g_devices P g) = Z.to_nat MAX_DEVICES -> g_ndevi P g = 0 -> scan_inv P g.
Proof.
  intros Hlen Hn. unfold scan_inv, registry_wf, ids_of, registered. rewrite Hn.
  cbn [Z.to_nat take map]. repeat split; auto; try constructor.
  - lia.
  - unfold MAX_DEVICES. lia.
Qed.

End ScanFacts.

Section ReevalFacts.
Context (P : platform) (os : os_env).
Implicit Types (g : G P) (d : device).

Lemma registered_drop_slot_above g (i j : nat) d d' :
  registry_wf P g -> registered P g !! i = Some d -> (i <= j)%nat ->
  registered P (drop_slot P g i) !! j = Some d' ->
  exists j', (i < j')%nat /\ registered P g !! j' = Some d'.
Proof.
  intros Hwf Hd Hij Hj. pose proof Hwf as [Hlen Hn].
  assert (Hi : (i < Z.to_nat (g_ndevi P g))%nat).
  { rewrite <- registered_length by exact Hwf. eapply lookup_lt_Some; eauto. }
  revert Hj. rewrite drop_slot_as_update.
  unfold registered, registry_update. g_norm.
  set (m := Z.to_nat (g_ndevi P g - 1)).
  intros Hj.
  assert (Hjm : (j < m)%nat).
  { apply lookup_lt_Some in Hj. rewrite length_take in Hj. lia. }
  rewrite lookup_take_lt in Hj by exact Hjm.
  destruct (decide (i = j)) as [<-|Hne].
  - rewrite list_lookup_insert_eq in Hj by (unfold MAX_DEVICES in *; lia).
    injection Hj as <-. exists m. split; [lia|].
    rewrite lookup_take_lt by lia. rewrite nth_lookup.
    destruct (g_devices P g !! m) eqn:E; [reflexivity|].
    apply lookup_ge_None in E. unfold MAX_DEVICES in *. lia.
  - rewrite list_lookup_insert_ne in Hj by exact Hne.
    exists j. split; [lia|]. rewrite lookup_take_lt by lia. exact Hj.
Qed.

Lemma keeps_drop_slot g (i : nat) d : keeps P os (drop_slot P g i) d = keeps P os g d.
Proof. rewrite drop_slot_as_update. reflexivity. Qed.

(** The re-evaluation loop, entered at index [k] with everything at or
    above [k] already accepted. *)
Lemma filter_reeval_loop (k : nat) : forall g,
  registry_wf P g -> (k <= Z.to_nat (g_ndevi P g))%nat ->
  (forall j d, (k <= j)%nat -> registered P g !! j = Some d -> keeps P os g d = true) ->
  let g' := filter_reeval P os g k in
  registered P g' ≡ₚ filter (fun d => keeps P os g d = true) (registered P g) /\
  registry_wf P g' /\
  g_filter P g' = g_filter P g /\ g_filter_user P g' = g_filter_user P g /\
  (forall e, e ∈ g_trace P g -> e ∈ g_trace P g') /\
  (forall d, d ∈ registered P g -> keeps P os g d = false ->
     EpollDel (d_fd d) ∈ g_trace P g' /\ SysClose (d_fd d) ∈ g_trace P g').
Proof.
  induction k as [|i IH]; intros g Hwf Hk Habove.
  - cbn [filter_reeval]. split; [|split; [exact Hwf|repeat split; auto]].
    + assert (Hall : Forall (fun d => keeps P os g d = true) (registered P g)).
      { apply Forall_forall. intros d Hd. apply list_elem_of_lookup in Hd as [j Hj].
        apply (Habove j d); [lia | exact Hj]. }
      clear -Hall. induction Hall as [|d l Hd _ IHl]; [reflexivity|].
      rewrite filter_cons_True by exact Hd. now constructor.
    + exfalso. apply list_elem_of_lookup in H as [j Hj].
      rewrite (Habove j d) in H0; [discriminate | lia | exact Hj].
    + exfalso. apply list_elem_of_lookup in H as [j Hj].
      rewrite (Habove j d) in H0; [discriminate | lia | exact Hj].
  - cbn [filter_reeval].
    pose proof (registered_lookup P g i Hwf ltac:(lia)) as Hd.
    set (d := nth i (g_devices P g) device_zero) in *.
    change (match g_filter P g with
            | Some f => f (set_i_id (fill_device_info P os (d_fd d) (d_path d)) (d_id d))
                          (g_filter_user P g)
            | None => true
            end) with (keeps P os g d).
    destruct (keeps P os g d) eqn:Hkeep.
    + apply IH; [exact Hwf | lia |].
      intros j d' Hj Hd'. destruct (decide (j = i)) as [->|Hne].
      * rewrite Hd in Hd'. now injection Hd' as <-.
      * apply (Habove j d'); [lia | exact Hd'].
    + destruct (registered_drop_slot P g i d Hwf Hd) as (Hperm & Hw1 & Hn1 & Ht1 & Hlow).
      assert (Hf1 : g_filter P (drop_slot P g i) = g_filter P g)
        by now rewrite drop_slot_as_update.
      assert (Hu1 : g_filter_user P (drop_slot P g i) = g_filter_user P g)
        by now rewrite drop_slot_as_update.
      destruct (IH (drop_slot P g i) Hw1) as (I1 & I2 & I3 & I4 & I5 & I6).
      { rewrite Hn1. lia. }
      { intros j d' Hj Hd'. rewrite keeps_drop_slot.
        destruct (registered_drop_slot_above g i j d d' Hwf Hd Hj Hd') as (j' & Hj' & Hl).
        apply (Habove j' d'); [lia | exact Hl]. }
      assert (Hfilt : filter (fun d0 => keeps P os g d0 = true) (delete i (registered P g))
                      = filter (fun d0 => keeps P os g d0 = true) (registered P g)).
      { rewrite <- (take_drop_middle _ _ _ Hd) at 2.
        rewrite delete_take_drop, !filter_app, filter_cons_False; [reflexivity|].
        rewrite Hkeep. discriminate. }
      split; [|split; [exact I2|split; [congruence|split; [congruence|split]]]].
      * rewrite I1.
        rewrite (list_filter_iff _ (fun d0 => keeps P os g d0 = true))
          by (intros x; now rewrite keeps_drop_slot).
        rewrite Hperm. now rewrite Hfilt.
      * intros e He. apply I5. rewrite Ht1. apply elem_of_app. now left.
      * intros d' Hd' Hrej.
        apply list_elem_of_lookup in Hd' as [j Hj].
        destruct (decide (j = i)) as [->|Hne].
        -- rewrite Hd in Hj. injection Hj as <-.
           split; apply I5; rewrite Ht1; apply elem_of_app; right; cbn.
           ++ left.
           ++ right. left.
        -- apply I6; [|now rewrite keeps_drop_slot].
           rewrite Hperm. apply list_elem_of_lookup.
           destruct (decide (j < i)%nat).
           ++ exists j. now rewrite list_lookup_delete_lt.
           ++ exists (pred j). rewrite list_lookup_delete_ge by lia.
              replace (S (pred j)) with j by lia. exact Hj.
Qed.

(** X16. Re-evaluation keeps exactly the accepted devices: after the loop
    of [ni_set_device_filter] the registered devices are those registered
    before that the filter in force accepts (in some order: a removed slot
    is refilled from the end), every rejected device has been unregistered
    from the multiplexer and closed, and the registry stays within its
    array. *)
Theorem filter_reeval_keeps_accepted g :
  registry_wf P g ->
  let g' := filter_reeval P os g (Z.to_nat (g_ndevi P g)) in
  registered P g' ≡ₚ filter (fun d => keeps P os g d = true) (registered P g) /\
  registry_wf P g' /\
  ni_device_count P g' <= ni_device_count P g /\
  (forall d, d ∈ registered P g -> keeps P os g d = false ->
     EpollDel (d_fd d) ∈ g_trace P g' /\ SysClose (d_fd d) ∈ g_trace P g') /\
  g_filter P g' = g_filter P g.
Proof.
  intros Hwf g'. subst g'.
  destruct (filter_reeval_loop (Z.to_nat (g_ndevi P g)) g Hwf (le_n _))
    as (H1 & H2 & H3 & H4 & H5 & H6).
  { intros j d Hj Hd. apply lookup_lt_Some in Hd.
    rewrite registered_length in Hd by exact Hwf. lia. }
  split; [exact H1|]. split; [exact H2|]. split; [|auto].
  apply Permutation_length in H1.
  rewrite registered_length in H1 by exact H2.
  pose proof (length_filter (fun d => keeps P os g d = true) (registered P g)) as Hle.
  rewrite registered_length in Hle by exact Hwf.
  unfold ni_device_count. destruct Hwf as [_ ?], H2 as [_ ?]. lia.
Qed.

(** X17. A hotplug notification whose name does not begin with "event", or
    that carries no name, changes nothing, whatever its mask. *)
Theorem inotify_step_ignores_other_names g (ie : inotify_event) :
  is_event_name (in_name ie) = false \/ in_len ie <= 0 ->
  inotify_step P os g ie = g.
Proof.
  intros H. unfold inotify_step.
  destruct H as [H|H].
  - rewrite H. destruct (_ && _), (_ && _); reflexivity.
  - replace (0 <? in_len ie) with false by (symmetry; apply Z.ltb_ge; lia).
    rewrite !andb_false_r. reflexivity.
Qed.

(** X18. A delete notification for node event<i> removes the device
    registered under id [i], by [remove_device_by_id]: the number after
    "event" is read back as the id. *)
Theorem hotplug_delete_removes_by_id g (i mask len : Z) :
  0 <= i < MAX_DEVICES -> 0 < len ->
  bit_set mask IN_CREATE = false -> bit_set mask IN_MOVED_TO = false ->
  bit_set mask IN_DELETE = true ->
  inotify_step P os g (mk_inotify_event mask len ("event" ++ dec i))
  = remove_device_by_id P g i.
Proof.
  intros Hi Hlen Hc Hm Hd. unfold inotify_step.
  cbn [in_mask in_len in_name]. rewrite Hc, Hm, Hd.
  destruct (event_path_facts i Hi) as (_ & _ & Hname & Hatoi & _ & _).
  rewrite Hname, Hatoi.
  replace (0 <? len) with true by (symmetry; now apply Z.ltb_lt).
  reflexivity.
Qed.

(** X19. A create (or moved-to) notification for node event<i> that is not
    yet registered, opens and passes the filter registers it under id [i]
    at once: the count rises by one and the registry stays sound. *)
Theorem hotplug_create_registers g (i mask len : Z) :
  scan_inv P g -> 0 <= i < MAX_DEVICES -> 0 < len ->
  bit_set mask IN_CREATE || bit_set mask IN_MOVED_TO = true ->
  bit_set mask IN_DELETE = false ->
  has_device_id P g i = false -> admissible P os g i = true ->
  let g' := inotify_step P os g (mk_inotify_event mask len ("event" ++ dec i)) in
  has_device_id P g' i = true /\
  ni_device_count P g' = ni_device_count P g + 1 /\
  registered P g'
  = registered P g ++ [mk_device (sys_open os (event_path i)) i (event_path i)] /\
  scan_inv P g'.
Proof.
  intros Hinv Hi Hlen Hc Hd Hhas Hadm g'. subst g'.
  pose proof Hinv as (Hwf & Hnd & Hr).
  unfold inotify_step. cbn [in_mask in_len in_name]. rewrite Hc, Hd.
  destruct (event_path_facts i Hi) as (Hdev & Hcut & Hname & _ & Hpath & Hfull).
  rewrite Hname, Hpath.
  replace (0 <? len) with true by (symmetry; now apply Z.ltb_lt).
  cbn [andb]. unfold admissible in Hadm. apply andb_prop in Hadm as [Hopen Hacc].
  unfold open_device_filtered. rewrite Hdev.
  replace (sys_open os (event_path i) <? 0) with false
    by (symmetry; apply Z.ltb_ge; now apply Z.leb_le).
  assert (Hroom : g_ndevi P g < MAX_DEVICES).
  { assert (Hb : Z.of_nat (length (i :: ids_of P g)) <= MAX_DEVICES).
    { apply distinct_ids_bounded; [constructor; [|exact Hnd] | now constructor].
      intros Hin. apply has_device_id_elem in Hin. congruence. }
    simpl in Hb. unfold ids_of in Hb.
    rewrite length_map, registered_length in Hb by exact Hwf.
    destruct Hwf as [_ ?]. lia. }
  assert (Hgoal : let g2 := add_device_fd P g (sys_open os (event_path i)) i (event_path i) in
            has_device_id P g2 i = true /\
            ni_device_count P g2 = ni_device_count P g + 1 /\
            registered P g2
            = registered P g ++ [mk_device (sys_open os (event_path i)) i (event_path i)] /\
            scan_inv P g2).
  { intros g2. subst g2.
    destruct (registered_add_device_fd P g (sys_open os (event_path i)) i (event_path i)
                Hwf Hroom) as [Hreg Hw2].
    assert (Hc128 : c_copy 128 (event_path i) = event_path i).
    { now rewrite Hcut, Hfull. }
    rewrite Hc128 in Hreg.
    assert (Hids : ids_of P (add_device_fd P g (sys_open os (event_path i)) i (event_path i))
                   = ids_of P g ++ [i]).
    { unfold ids_of. now rewrite Hreg, map_app. }
    split; [|split; [|split; [exact Hreg|split; [exact Hw2|split]]]].
    - apply has_device_id_elem. rewrite Hids. apply elem_of_app. right. left.
    - now rewrite add_device_fd_as_update.
    - rewrite Hids. apply NoDup_app. split; [exact Hnd|]. split; [|apply NoDup_singleton].
      intros x Hx Hx'. apply list_elem_of_singleton in Hx'. subst.
      apply has_device_id_elem in Hx. congruence.
    - rewrite Hids. apply Forall_app. split; [exact Hr|]. now repeat constructor. }
  destruct (g_filter P g) as [f|] eqn:Hf.
  - rewrite Hacc, Hopen. exact Hgoal.
  - rewrite Hopen. exact Hgoal.
Qed.

(** X20. A create notification whose open fails leaves the registry as it
    was and arms the rescan window, three seconds from the clock reading;
    a worker wake inside the window re-runs the discovery pass, so the
    node is registered then if it opens and passes the filter by that
    time. *)
Theorem failed_hotplug_open_is_retried (os2 : os_env) g (i mask len : Z) :
  scan_inv P g -> 0 <= i < MAX_DEVICES -> 0 < len ->
  bit_set mask IN_CREATE || bit_set mask IN_MOVED_TO = true ->
  bit_set mask IN_DELETE = false ->
  sys_open os (event_path i) < 0 -> 0 <= sys_now_ns os ->
  sys_now_ns os2 < sys_now_ns os + 3000000000 ->
  admissible P os2 g i = true ->
  let g1 := inotify_step P os g (mk_inotify_event mask len ("event" ++ dec i)) in
  registered P g1 = registered P g /\
  g_rescan_until_ns P g1 = sys_now_ns os + 3000000000 /\
  has_device_id P (worker_wake P os2 g1 []) i = true.
Proof.
  intros Hinv Hi Hlen Hc Hd Hfail Hnow Hin Hadm g1.
  assert (Hg1 : g1 = with_rescan_until_ns P g (sys_now_ns os + 3000000000)).
  { subst g1. unfold inotify_step. cbn [in_mask in_len in_name]. rewrite Hc, Hd.
    destruct (event_path_facts i Hi) as (_ & _ & Hname & _ & Hpath & _).
    rewrite Hname, Hpath.
    replace (0 <? len) with true by (symmetry; now apply Z.ltb_lt).
    cbn [andb]. unfold open_device_filtered.
    replace (sys_open os (event_path i) <? 0) with true
      by (symmetry; now apply Z.ltb_lt).
    reflexivity. }
  clearbody g1. subst g1.
  split; [reflexivity|]. split; [reflexivity|].
  unfold worker_wake.
  replace (g_rescan_until_ns P (with_rescan_until_ns P g (sys_now_ns os + 3000000000)))
    with (sys_now_ns os + 3000000000) by reflexivity.
  replace (sys_now_ns os + 3000000000 =? 0) with false
    by (symmetry; apply Z.eqb_neq; lia).
  replace (sys_now_ns os2 <? sys_now_ns os + 3000000000) with true
    by (symmetry; now apply Z.ltb_lt).
  cbn [negb andb foldl]. unfold scan_devices.
  destruct (scan_steps_spec P os2 (seqZ 0 MAX_DEVICES)
              (with_rescan_until_ns P g (sys_now_ns os + 3000000000)))
    as (_ & _ & _ & _ & H).
  - exact Hinv.
  - apply Forall_forall. intros j Hj. apply elem_of_seqZ in Hj. lia.
  - apply H; [apply elem_of_seqZ; lia | exact Hadm].
Qed.

End ReevalFacts.

(** ** The registry statements at concrete engines *)

(** The registry of the demo engine, event0 and event1, is sound. *)
Lemma demo_registry_inv : scan_inv demo_platform demo_registry.
Proof.
  assert (Hids : ids_of demo_platform demo_registry = [0; 1])
    by (vm_compute; reflexivity).
  unfold scan_inv. rewrite Hids. split; [|split].
  - split; [vm_compute; reflexivity | vm_compute; split; congruence].
  - apply (bool_decide_unpack _). vm_compute. exact I.
  - repeat constructor; unfold MAX_DEVICES; lia.
Qed.

(** The engine before [ni_init] has a sound, empty registry. *)
Lemma g_boot_inv : scan_inv demo_platform (g_boot demo_platform).
Proof. apply scan_inv_registry_empty; vm_compute; reflexivity. Qed.

Lemma add_device_fd_registers_witness :
  has_device_id demo_platform
    (add_device_fd demo_platform demo_registry 12 2 "/dev/input/event2") 2 = true.
Proof.
  apply (add_device_fd_registers demo_platform demo_registry 12 2 "/dev/input/event2").
  - apply demo_registry_inv.
  - vm_compute. reflexivity.
Defined.

Lemma remove_device_by_id_spec_witness :
  has_device_id demo_platform (remove_device_by_id demo_platform demo_registry 0) 0
  = false.
Proof.
  apply (remove_device_by_id_spec demo_platform demo_registry 0).
  - apply demo_registry_inv.
  - apply demo_registry_inv.
Defined.

Lemma scan_devices_keeps_registry_sound_witness :
  ni_device_count demo_platform (scan_devices demo_platform full_os demo_registry)
  <= MAX_DEVICES.
Proof.
  apply (scan_devices_keeps_registry_sound demo_platform full_os demo_registry).
  apply demo_registry_inv.
Defined.

Lemma scan_devices_registers_admissible_witness :
  has_device_id demo_platform
    (scan_devices demo_platform full_os demo_registry) 77 = true.
Proof.
  apply (scan_devices_registers_admissible demo_platform full_os demo_registry 77).
  - apply demo_registry_inv.
  - unfold MAX_DEVICES. lia.
  - vm_compute. reflexivity.
Defined.

Lemma filter_reeval_keeps_accepted_witness :
  ni_device_count demo_platform
    (filter_reeval demo_platform demo_os demo_filtered
       (Z.to_nat (g_ndevi demo_platform demo_filtered)))
  <= ni_device_count demo_platform demo_filtered.
Proof.
  apply (filter_reeval_keeps_accepted demo_platform demo_os demo_filtered).
  split; [vm_compute; reflexivity | vm_compute; split; congruence].
Defined.

Lemma inotify_step_ignores_other_names_witness :
  inotify_step demo_platform demo_os demo_registry
    (mk_inotify_event IN_CREATE 16 "mouse0") = demo_registry.
Proof.
  apply (inotify_step_ignores_other_names demo_platform demo_os demo_registry
           (mk_inotify_event IN_CREATE 16 "mouse0")).
  left. vm_compute. reflexivity.
Defined.

Lemma hotplug_delete_removes_by_id_witness :
  inotify_step demo_platform demo_os demo_registry
    (mk_inotify_event IN_DELETE 16 ("event" ++ dec 1))
  = remove_device_by_id demo_platform demo_registry 1.
Proof.
  apply (hotplug_delete_removes_by_id demo_platform demo_os demo_registry 1
           IN_DELETE 16).
  - unfold MAX_DEVICES. lia.
  - lia.
  - vm_compute. reflexivity.
  - vm_compute. reflexivity.
  - vm_compute. reflexivity.
Defined.

Lemma hotplug_create_registers_witness :
  has_device_id demo_platform
    (inotify_step demo_platform full_os demo_registry
       (mk_inotify_event IN_CREATE 16 ("event" ++ dec 5))) 5 = true.
Proof.
  apply (hotplug_create_registers demo_platform full_os demo_registry 5
           IN_CREATE 16).
  - apply demo_registry_inv.
  - unfold MAX_DEVICES. lia.
  - lia.
  - vm_compute. reflexivity.
  - vm_compute. reflexivity.
  - vm_compute. reflexivity.
  - vm_compute. reflexivity.
Defined.

Lemma failed_hotplug_open_is_retried_witness :
  has_device_id demo_platform
    (worker_wake demo_platform full_os
       (inotify_step demo_platform demo_os demo_registry
          (mk_inotify_event IN_CREATE 16 ("event" ++ dec 5))) []) 5 = true.
Proof.
  apply (failed_hotplug_open_is_retried demo_platform demo_os full_os
           demo_registry 5 IN_CREATE 16).
  - apply demo_registry_inv.
  - unfold MAX_DEVICES. lia.
  - lia.
  - vm_compute. reflexivity.
  - vm_compute. reflexivity.
  - vm_compute. reflexivity.
  - vm_compute. congruence.
  - vm_compute. reflexivity.
  - vm_compute. reflexivity.
Defined.

(** ** The legacy pointer reader: framing and decoding *)

Section MiceReader.
Context (P : platform) (clock : nat -> Z).

(** A packet body run with [have = 3] hands out eight events, or nine
    when there is motion. *)
Lemma mice_packet_length (t : Z) (pk : list Z) :
  (8 <= length (mice_packet P t pk 3) <= 9)%nat.
Proof.
  unfold mice_packet. change (4 <=? 3) with false. cbv iota zeta.
  rewrite !length_app.
  destruct (bit_set (nth 0 pk 0) 1), (bit_set (nth 0 pk 0) 2),
    (bit_set (nth 0 pk 0) 4),
    (negb (signed_char (nth 1 pk 0) =? 0) || negb (signed_char (nth 2 pk 0) =? 0));
    cbn [negb length]; lia.
Qed.

Lemma mice_feed_frames (buf : list Z) : forall st,
  0 <= have st < 3 ->
  let r := mice_feed P clock st buf in
  have r.1 = (have st + Z.of_nat (length buf)) mod 3 /\
  Z.of_nat (ticks r.1)
  = Z.of_nat (ticks st) + (have st + Z.of_nat (length buf)) / 3 /\
  (8 * (ticks r.1 - ticks st) <= length r.2 <= 9 * (ticks r.1 - ticks st))%nat /\
  (ticks st <= ticks r.1)%nat.
Proof.
  induction buf as [|b buf IH]; intros st Hh; cbn [mice_feed length].
  - cbn [fst snd length]. change (Z.of_nat 0) with 0. rewrite Z.add_0_r.
    rewrite Z.mod_small, Z.div_small by lia. repeat split; lia.
  - destruct (mice_byte P clock st b) as [st1 evs] eqn:Hb.
    unfold mice_byte in Hb.
    destruct (3 <=? have st + 1) eqn:H3; injection Hb as <- <-.
    + apply Z.leb_le in H3.
      specialize (IH (mk_mice (<[Z.to_nat (have st) := b]> (pkt st)) 0
                        (S (ticks st)))).
      cbn [have ticks] in IH. specialize (IH ltac:(lia)).
      destruct (mice_feed P clock _ buf) as [st2 evs'].
      cbn [fst snd] in *. destruct IH as (I1 & I2 & I3 & I4).
      replace (have st + 1) with 3 by lia.
      pose proof (mice_packet_length (clock (ticks st))
                    (<[Z.to_nat (have st) := b]> (pkt st))) as Hl.
      rewrite length_app.
      replace (have st + Z.of_nat (S (length buf)))
        with (0 + Z.of_nat (length buf) + 1 * 3) by lia.
      rewrite Z.mod_add, Z.div_add by lia.
      repeat split; lia.
    + apply Z.leb_gt in H3.
      specialize (IH (mk_mice (<[Z.to_nat (have st) := b]> (pkt st))
                        (have st + 1) (ticks st))).
      cbn [have ticks] in IH. specialize (IH ltac:(lia)).
      destruct (mice_feed P clock _ buf) as [st2 evs'].
      cbn [fst snd app] in *. destruct IH as (I1 & I2 & I3 & I4).
      replace (have st + Z.of_nat (S (length buf)))
        with (have st + 1 + Z.of_nat (length buf)) by lia.
      repeat split; lia.
Qed.

(** X21. Framing of the byte stream: after any run of bytes from the start
    the reader holds [len mod 3] bytes of an unfinished packet, has decoded
    [len / 3] packets (one clock reading each) and has handed out eight or
    nine events for each of them. *)
Theorem mice_feed_framing (buf : list Z) :
  let r := mice_feed P clock mice_start buf in
  have r.1 = Z.of_nat (length buf) mod 3 /\
  Z.of_nat (ticks r.1) = Z.of_nat (length buf) / 3 /\
  (8 * ticks r.1 <= length r.2 <= 9 * ticks r.1)%nat.
Proof.
  destruct (mice_feed_frames buf mice_start) as (H1 & H2 & H3 & _).
  { cbn. lia. }
  cbn [have ticks mice_start] in *. change (Z.of_nat 0) with 0 in *.
  rewrite Z.add_0_l in *. rewrite Nat.sub_0_r in H3. auto.
Qed.

Lemma mice_feed_app (b1 b2 : list Z) : forall st,
  mice_feed P clock st (b1 ++ b2)
  = ((mice_feed P clock (mice_feed P clock st b1).1 b2).1,
     (mice_feed P clock st b1).2 ++ (mice_feed P clock (mice_feed P clock st b1).1 b2).2).
Proof.
  induction b1 as [|b b1 IH]; intros st; cbn [mice_feed app fst snd].
  - now destruct (mice_feed P clock st b2).
  - destruct (mice_byte P clock st b) as [st1 evs]. rewrite IH.
    destruct (mice_feed P clock st1 b1) as [st2 evs'].
    cbn [fst snd]. destruct (mice_feed P clock st2 b2) as [st3 evs''].
    cbn [fst snd]. now rewrite app_assoc.
Qed.

Lemma emit_or_queue_switches g e :
  g_stop P (emit_or_queue P g e) = g_stop P g /\
  g_mice_enabled P (emit_or_queue P g e) = g_mice_enabled P g.
Proof. unfold emit_or_queue. destruct g, g_cb; split; reflexivity. Qed.

Lemma emit_all_switches (evs : list ni_event) : forall g,
  g_stop P (foldl (emit_or_queue P) g evs) = g_stop P g /\
  g_mice_enabled P (foldl (emit_or_queue P) g evs) = g_mice_enabled P g.
Proof.
  induction evs as [|e evs IH]; intros g; cbn [foldl]; [auto|].
  destruct (IH (emit_or_queue P g e)) as [-> ->]. apply emit_or_queue_switches.
Qed.

(** X22. Packet boundaries need not fall on read boundaries: while the
    reader is running, two successive reads are decoded exactly as one read
    of their concatenation, and a read that would block changes nothing. *)
Theorem mice_loop_joins_reads g st (b1 b2 : list Z) (rest : list mice_read) :
  g_stop P g = false -> g_mice_enabled P g = true ->
  mice_loop P clock g st (MiceData b1 :: MiceData b2 :: rest)
  = mice_loop P clock g st (MiceData (b1 ++ b2) :: rest) /\
  mice_loop P clock g st (MiceData b1 :: MiceAgain :: MiceData b2 :: rest)
  = mice_loop P clock g st (MiceData (b1 ++ b2) :: rest).
Proof.
  intros Hs He.
  assert (Hjoin : mice_loop P clock g st (MiceData b1 :: MiceData b2 :: rest)
                  = mice_loop P clock g st (MiceData (b1 ++ b2) :: rest)).
  { cbn [mice_loop]. rewrite Hs, He. cbn [negb orb].
    rewrite mice_feed_app.
    destruct (mice_feed P clock st b1) as [st1 e1]. cbn [fst snd].
    destruct (emit_all_switches e1 g) as [Hs1 He1].
    destruct rest as [|rd rest'].
    - cbn [mice_loop]. rewrite Hs1, He1, Hs, He. cbn [negb orb].
      destruct (mice_feed P clock st1 b2) as [st2 e2]. cbn [mice_loop].
      now rewrite foldl_app.
    - cbn [mice_loop]. rewrite Hs1, He1, Hs, He. cbn [negb orb].
      destruct (mice_feed P clock st1 b2) as [st2 e2].
      now rewrite foldl_app. }
  split; [exact Hjoin|]. rewrite <- Hjoin.
  cbn [mice_loop]. rewrite Hs, He. cbn [negb orb].
  destruct (mice_feed P clock st b1) as [st1 e1].
  destruct (emit_all_switches e1 g) as [Hs1 He1].
  destruct rest as [|rd rest'];
    cbn [mice_loop]; rewrite Hs1, He1, Hs, He; cbn [negb orb]; reflexivity.
Qed.

Lemma mice_packet_rels (t b0 b1 b2 p3 : Z) :
  NI_EV_MOUSE P <> NI_EV_REL ->
  List.filter is_rel_event (mice_packet P t [b0; b1; b2; p3] 3) = rel_moves t b1 b2.
Proof.
  intros Hm. apply Z.eqb_neq in Hm.
  unfold mice_packet, rel_moves. cbn [nth].
  rewrite !List.filter_app.
  assert (Hb : forall e b v, is_rel_event (mev_button P e b v) = false).
  { intros. unfold is_rel_event, mev_button, mev_of. cbn. exact Hm. }
  assert (Hv : forall e dx dy, is_rel_event (mev_move P e dx dy) = false).
  { intros. unfold is_rel_event, mev_move, mev_of. cbn. exact Hm. }
  destruct (bit_set b0 1), (bit_set b0 2), (bit_set b0 4),
    (negb (signed_char b1 =? 0) || negb (signed_char b2 =? 0));
    cbn [negb List.filter app]; rewrite ?Hb, ?Hv; reflexivity.
Qed.

Lemma mice_feed_rels (pkts : list (Z * Z * Z)) : forall p0 p1 p2 p3 k,
  NI_EV_MOUSE P <> NI_EV_REL ->
  List.filter is_rel_event
    (mice_feed P clock (mk_mice [p0; p1; p2; p3] 0 k) (flat_map packet_bytes pkts)).2
  = mice_rel_events clock k pkts.
Proof.
  induction pkts as [|[[b dx] dy] pkts IH]; intros p0 p1 p2 p3 k Hm; [reflexivity|].
  cbn [flat_map packet_bytes fst snd app mice_rel_events].
  rewrite mice_feed_packet. cbn [snd].
  rewrite List.filter_app, mice_packet_rels by exact Hm.
  f_equal. apply IH. exact Hm.
Qed.

(** X23. The relative-motion events of a stream of three-byte packets:
    for each packet one REL X event carrying the second byte read as a
    signed char and one REL Y event carrying the negated third byte, both
    stamped with the packet's clock reading and device id -2.  A motion
    byte read as signed char lies in -128..127 and agrees with the byte
    modulo 256. *)
Theorem mice_rel_events_decode (pkts : list (Z * Z * Z)) :
  NI_EV_MOUSE P <> NI_EV_REL ->
  List.filter is_rel_event
    (mice_feed P clock mice_start (flat_map packet_bytes pkts)).2
  = mice_rel_events clock 0 pkts /\
  (forall b, 0 <= b < 256 ->
     -128 <= signed_char b <= 127 /\ signed_char b mod 256 = b).
Proof.
  intros Hm. split; [now apply mice_feed_rels|].
  intros b Hb. unfold signed_char.
  destruct (b <? 128) eqn:E.
  - apply Z.ltb_lt in E. split; [lia|]. apply Z.mod_small. lia.
  - apply Z.ltb_ge in E. split; [lia|].
    replace (b - 256) with (b + (-1) * 256) by lia.
    rewrite Z.mod_add by lia. apply Z.mod_small. lia.
Qed.

Lemma mice_packet_mouse (t b0 b1 b2 p3 : Z) :
  NI_EV_MOUSE P <> NI_EV_KEY -> NI_EV_MOUSE P <> NI_EV_REL ->
  List.filter (is_mouse_event P) (mice_packet P t [b0; b1; b2; p3] 3)
  = mouse_layer P t b0 b1 b2.
Proof.
  intros Hk Hr.
  assert (Hk' : (NI_EV_KEY =? NI_EV_MOUSE P) = false) by (apply Z.eqb_neq; congruence).
  assert (Hr' : (NI_EV_REL =? NI_EV_MOUSE P) = false) by (apply Z.eqb_neq; congruence).
  unfold mice_packet, mouse_layer. cbn [nth].
  rewrite !List.filter_app.
  assert (Hb : forall e b v, is_mouse_event P (mev_button P e b v) = true).
  { intros. unfold is_mouse_event, mev_button, mev_of. cbn. apply Z.eqb_refl. }
  assert (Hv : forall e dx dy, is_mouse_event P (mev_move P e dx dy) = true).
  { intros. unfold is_mouse_event, mev_move, mev_of. cbn. apply Z.eqb_refl. }
  destruct (bit_set b0 1), (bit_set b0 2), (bit_set b0 4),
    (signed_char b1 =? 0), (signed_char b2 =? 0);
    cbn [negb orb andb List.filter app]; rewrite ?Hb, ?Hv;
    unfold is_mouse_event; cbn [type set_type set_code set_value];
    rewrite ?Hk', ?Hr'; reflexivity.
Qed.

Lemma mice_feed_mouse (pkts : list (Z * Z * Z)) : forall p0 p1 p2 p3 k,
  NI_EV_MOUSE P <> NI_EV_KEY -> NI_EV_MOUSE P <> NI_EV_REL ->
  List.filter (is_mouse_event P)
    (mice_feed P clock (mk_mice [p0; p1; p2; p3] 0 k) (flat_map packet_bytes pkts)).2
  = mice_mouse_events P clock k pkts.
Proof.
  induction pkts as [|[[b dx] dy] pkts IH]; intros p0 p1 p2 p3 k Hk Hr; [reflexivity|].
  cbn [flat_map packet_bytes fst snd app mice_mouse_events].
  rewrite mice_feed_packet. cbn [snd].
  rewrite List.filter_app, mice_packet_mouse by assumption.
  f_equal. now apply IH.
Qed.

(** X24. The high-level mouse events of a stream of three-byte packets:
    for each packet a button event for each of the buttons 1, 2, 3 whose
    value is the level of the button's mask bit (pressed or released, every
    packet), then a move event with x the signed second byte and y the
    negated signed third byte, present exactly when one of the two is not
    zero. *)
Theorem mice_mouse_events_decode (pkts : list (Z * Z * Z)) :
  NI_EV_MOUSE P <> NI_EV_KEY -> NI_EV_MOUSE P <> NI_EV_REL ->
  List.filter (is_mouse_event P)
    (mice_feed P clock mice_start (flat_map packet_bytes pkts)).2
  = mice_mouse_events P clock 0 pkts.
Proof. intros Hk Hr. now apply mice_feed_mouse. Qed.

End MiceReader.

Lemma mice_loop_joins_reads_witness :
  mice_loop demo_platform Z.of_nat demo_pointer mice_start
    [MiceData [9; 5]; MiceData [3; 0]]
  = mice_loop demo_platform Z.of_nat demo_pointer mice_start [MiceData [9; 5; 3; 0]].
Proof.
  apply (mice_loop_joins_reads demo_platform Z.of_nat demo_pointer mice_start
           [9; 5] [3; 0] []).
  - vm_compute. reflexivity.
  - vm_compute. reflexivity.
Defined.

Lemma mice_rel_events_decode_witness :
  List.filter is_rel_event
    (mice_feed demo_platform Z.of_nat mice_start
       (flat_map packet_bytes [(8, 5, 3); (8, 255, 128)])).2
  = mice_rel_events Z.of_nat 0 [(8, 5, 3); (8, 255, 128)].
Proof.
  apply (mice_rel_events_decode demo_platform Z.of_nat [(8, 5, 3); (8, 255, 128)]).
  vm_compute. congruence.
Defined.

Lemma mice_mouse_events_decode_witness :
  List.filter (is_mouse_event demo_platform)
    (mice_feed demo_platform Z.of_nat mice_start
       (flat_map packet_bytes [(9, 0, 0); (8, 255, 128)])).2
  = mice_mouse_events demo_platform Z.of_nat 0 [(9, 0, 0); (8, 255, 128)].
Proof.
  apply (mice_mouse_events_decode demo_platform Z.of_nat
           [(9, 0, 0); (8, 255, 128)]).
  - vm_compute. congruence.
  - vm_compute. congruence.
Defined.

(** ** Start and stop *)

Section Lifecycle.
Context (P : platform) (os : os_env).
Implicit Types (g : G P).

(** Writes that leave the [initialized] flag alone. *)
Lemma initialized_frame g :
  (forall v, g_initialized P (with_epoll_fd P g v) = g_initialized P g) /\
  (forall v, g_initialized P (with_mice_fd P g v) = g_initialized P g) /\
  (forall v, g_initialized P (with_inotify_fd P g v) = g_initialized P g) /\
  (forall v, g_initialized P (with_stop P g v) = g_initialized P g) /\
  (forall v, g_initialized P (with_xkb_rules P g v) = g_initialized P g) /\
  (forall v, g_initialized P (with_xkb_model P g v) = g_initialized P g) /\
  (forall v, g_initialized P (with_xkb_layout P g v) = g_initialized P g) /\
  (forall es, g_initialized P (add_trace P g es) = g_initialized P g) /\
  (forall ds n tr, g_initialized P (registry_update P g ds n tr) = g_initialized P g).
Proof. destruct g. repeat split. Qed.

Lemma initialized_scan_devices g :
  g_initialized P (scan_devices P os g) = g_initialized P g.
Proof.
  destruct (scan_devices_as_update P os g) as (ds & n & tr & ->).
  apply initialized_frame.
Qed.

Lemma epoll_fd_set g e v :
  g_epoll_fd P (with_mice_fd P (with_epoll_fd P g e) v) = e.
Proof. destruct g. reflexivity. Qed.

Lemma initialized_set g : g_initialized P (with_initialized P g true) = true.
Proof. destruct g. reflexivity. Qed.

(** [ni_init] on an engine that is not initialized. *)
Lemma ni_init_fresh g :
  g_initialized P g = false ->
  exists g',
    ni_init P os g 0
    = (g', if (0 <=? sys_epoll_create1 os) && HAVE_XKBCOMMON P
              && sys_pthread_create_worker os then 0 else -1) /\
    g_initialized P g'
    = (0 <=? sys_epoll_create1 os) && HAVE_XKBCOMMON P
      && sys_pthread_create_worker os.
Proof.
  intros Hi. unfold ni_init. rewrite Hi.
  change (negb (0 =? 0)) with false. cbv iota.
  assert (Hz : g_initialized P (g_memset P g) = false) by reflexivity.
  revert Hz. generalize (g_memset P g). intros z Hz. cbv zeta.
  (* the multiplexer *)
  rewrite epoll_fd_set.
  assert (Hz1 : g_initialized P
                  (with_mice_fd P (with_epoll_fd P z (sys_epoll_create1 os)) (-1))
                = false).
  { rewrite (proj1 (proj2 (initialized_frame _))), (proj1 (initialized_frame _)).
    exact Hz. }
  revert Hz1. generalize (with_mice_fd P (with_epoll_fd P z (sys_epoll_create1 os)) (-1)).
  clear z Hz. intros z Hz.
  destruct (sys_epoll_create1 os <? 0) eqn:He.
  { apply Z.ltb_lt in He.
    replace (0 <=? sys_epoll_create1 os) with false
      by (symmetry; apply Z.leb_gt; lia).
    exists z. split; [reflexivity | exact Hz]. }
  apply Z.ltb_ge in He.
  replace (0 <=? sys_epoll_create1 os) with true by (symmetry; now apply Z.leb_le).
  (* the hotplug watcher, the scan and the stop flag *)
  assert (Hz1 : g_initialized P
                  (with_stop P
                     (scan_devices P os
                        (if 0 <=? g_inotify_fd P (with_inotify_fd P z (sys_inotify_init1 os))
                         then add_trace P (with_inotify_fd P z (sys_inotify_init1 os))
                                [EpollAdd (g_inotify_fd P
                                             (with_inotify_fd P z (sys_inotify_init1 os)))]
                         else with_inotify_fd P z (sys_inotify_init1 os))) false)
                = false).
  { rewrite (proj1 (proj2 (proj2 (proj2 (initialized_frame _))))),
      initialized_scan_devices.
    destruct (0 <=? _).
    - rewrite (proj1 (proj2 (proj2 (proj2 (proj2 (proj2 (proj2 (proj2
                 (initialized_frame _))))))))).
      rewrite (proj1 (proj2 (proj2 (initialized_frame _)))). exact Hz.
    - rewrite (proj1 (proj2 (proj2 (initialized_frame _)))). exact Hz. }
  revert Hz1.
  generalize (with_stop P
                (scan_devices P os
                   (if 0 <=? g_inotify_fd P (with_inotify_fd P z (sys_inotify_init1 os))
                    then add_trace P (with_inotify_fd P z (sys_inotify_init1 os))
                           [EpollAdd (g_inotify_fd P
                                        (with_inotify_fd P z (sys_inotify_init1 os)))]
                    else with_inotify_fd P z (sys_inotify_init1 os))) false).
  clear z Hz. intros z Hz.
  destruct (HAVE_XKBCOMMON P); cbn [andb]; [|exists z; split; [reflexivity|exact Hz]].
  (* the default names *)
  assert (Hz1 : g_initialized P
                  (if (g_xkb_rules P z =? "")%string
                   then with_xkb_rules P z (c_copy 32 "evdev") else z) = false).
  { destruct (_ =? _)%string; [|exact Hz].
    rewrite (proj1 (proj2 (proj2 (proj2 (proj2 (initialized_frame _)))))). exact Hz. }
  revert Hz1.
  generalize (if (g_xkb_rules P z =? "")%string
              then with_xkb_rules P z (c_copy 32 "evdev") else z).
  clear z Hz. intros z Hz.
  assert (Hz1 : g_initialized P
                  (if (g_xkb_model P z =? "")%string
                   then with_xkb_model P z (c_copy 32 "pc105") else z) = false).
  { destruct (_ =? _)%string; [|exact Hz].
    rewrite (proj1 (proj2 (proj2 (proj2 (proj2 (proj2 (initialized_frame _))))))).
    exact Hz. }
  revert Hz1.
  generalize (if (g_xkb_model P z =? "")%string
              then with_xkb_model P z (c_copy 32 "pc105") else z).
  clear z Hz. intros z Hz.
  assert (Hz1 : g_initialized P
                  (if (g_xkb_layout P z =? "")%string
                   then with_xkb_layout P z (c_copy 64 "us") else z) = false).
  { destruct (_ =? _)%string; [|exact Hz].
    rewrite (proj1 (proj2 (proj2 (proj2 (proj2 (proj2 (proj2
               (initialized_frame _)))))))).
    exact Hz. }
  revert Hz1.
  generalize (if (g_xkb_layout P z =? "")%string
              then with_xkb_layout P z (c_copy 64 "us") else z).
  clear z Hz. intros z Hz.
  (* the threads *)
  destruct (sys_pthread_create_worker os); cbn [negb];
    [|exists z; split; [reflexivity|exact Hz]].
  eexists. split; [reflexivity|]. apply initialized_set.
Qed.

(** X25. The result of [ni_init]: 0 or -1; it is 0 exactly when [flags]
    is 0 and either the engine is initialized already or the multiplexer
    is created, the build has the keymap library and the worker thread
    starts.  The engine is initialized afterwards exactly when it was
    before or the call returned 0, and a call with non-zero flags or on an
    initialized engine changes nothing. *)
Theorem ni_init_result g (flags : Z) :
  let r := ni_init P os g flags in
  (r.2 = 0 \/ r.2 = -1) /\
  (r.2 = 0 <->
   flags = 0 /\
   (g_initialized P g = true \/
    (0 <= sys_epoll_create1 os /\ HAVE_XKBCOMMON P = true /\
     sys_pthread_create_worker os = true))) /\
  (g_initialized P r.1 = true <-> g_initialized P g = true \/ r.2 = 0) /\
  (flags <> 0 \/ g_initialized P g = true -> r.1 = g).
Proof.
  intros r. subst r.
  destruct (flags =? 0) eqn:Hf.
  - apply Z.eqb_eq in Hf. subst flags.
    destruct (g_initialized P g) eqn:Hi.
    + unfold ni_init. rewrite Hi. change (negb (0 =? 0)) with false.
      cbn [fst snd]. rewrite Hi. intuition.
    + destruct (ni_init_fresh g Hi) as (g' & -> & Hg'). cbn [fst snd]. rewrite Hg'.
      destruct (0 <=? sys_epoll_create1 os) eqn:He;
        [apply Z.leb_le in He | apply Z.leb_gt in He];
        destruct (HAVE_XKBCOMMON P), (sys_pthread_create_worker os);
        cbn [andb]; intuition (try congruence; try lia).
  - unfold ni_init. rewrite Hf. cbn [negb fst snd]. apply Z.eqb_neq in Hf.
    intuition (try congruence; try lia).
Qed.

(** X26. [ni_shutdown] on an initialized engine returns 0, raises the stop
    flag, switches the legacy pointer off and closes, in this order, the
    handle of every registered device, the hotplug watcher when there is
    one, and the multiplexer.  It leaves the device count and both queues
    as they were; afterwards polling and sink registration are refused and
    a second shutdown changes nothing. *)
Theorem ni_shutdown_closes_handles g :
  g_initialized P g = true ->
  let g' := (ni_shutdown P g).1 in
  (ni_shutdown P g).2 = 0 /\
  g_initialized P g' = false /\ g_stop P g' = true /\ g_mice_enabled P g' = false /\
  g_trace P g'
  = g_trace P g ++ map (fun d => SysClose (d_fd d)) (registered P g)
    ++ (if 0 <=? g_inotify_fd P g then [SysClose (g_inotify_fd P g)] else [])
    ++ [SysClose (g_epoll_fd P g)] /\
  ni_device_count P g' = ni_device_count P g /\
  g_queue P g' = g_queue P g /\ g_key_queue P g' = g_key_queue P g /\
  (forall evts max_events, ni_poll P g' evts max_events = (g', [], -1)) /\
  (forall evts max_events, ni_poll_key_events P g' evts max_events = (g', [], -1)) /\
  (forall cb u fl, ni_register_callback P g' cb u fl = (g', -1)) /\
  (forall cb u fl, ni_register_key_callback P g' cb u fl = (g', -1)) /\
  ni_shutdown P g' = (g', 0).
Proof.
  intros Hi g'.
  assert (Hg' : g_initialized P g' = false).
  { subst g'. unfold ni_shutdown. rewrite Hi. cbn [negb fst].
    destruct g. destruct (0 <=? _); reflexivity. }
  split; [unfold ni_shutdown; rewrite Hi; reflexivity|].
  split; [exact Hg'|].
  split; [subst g'; unfold ni_shutdown; rewrite Hi; destruct g;
          destruct (0 <=? _); reflexivity|].
  split; [subst g'; unfold ni_shutdown; rewrite Hi; destruct g;
          destruct (0 <=? _); reflexivity|].
  split.
  { subst g'. unfold ni_shutdown. rewrite Hi. cbn [negb fst]. destruct g.
    unfold registered, add_trace. g_norm.
    destruct (0 <=? _); g_norm; rewrite <- ?app_assoc; reflexivity. }
  split; [subst g'; unfold ni_shutdown; rewrite Hi; destruct g;
          destruct (0 <=? _); reflexivity|].
  split; [subst g'; unfold ni_shutdown; rewrite Hi; destruct g;
          destruct (0 <=? _); reflexivity|].
  split; [subst g'; unfold ni_shutdown; rewrite Hi; destruct g;
          destruct (0 <=? _); reflexivity|].
  clearbody g'.
  split; [intros; unfold ni_poll; rewrite Hg'; reflexivity|].
  split; [intros; unfold ni_poll_key_events; rewrite Hg'; reflexivity|].
  split; [intros; unfold ni_register_callback; rewrite Hg'; reflexivity|].
  split; [intros; unfold ni_register_key_callback; rewrite Hg'; reflexivity|].
  unfold ni_shutdown. rewrite Hg'. reflexivity.
Qed.

(** X27. The legacy pointer's reader thread is started at most once.  On
    an initialized engine a first enable starts it; a disable clears the
    switch, so the reader leaves its loop at its next test and closes its
    handle; a later enable sets the switch again and returns 0 without
    starting a thread, whatever thread creation would answer. *)
Theorem mice_reader_started_once (os2 os3 : os_env) g (clock : nat -> Z)
  (st : mice_state) (rd : mice_read) (reads : list mice_read) :
  g_initialized P g = true -> g_mice_thread P g = false ->
  sys_pthread_create_mice os = true ->
  let g1 := (ni_enable_mice P os g 1).1 in
  let g2 := (ni_enable_mice P os2 g1 0).1 in
  g_mice_thread P g1 = true /\ g_mice_enabled P g1 = true /\
  g_mice_thread P g2 = true /\ g_mice_enabled P g2 = false /\
  mice_loop P clock g2 st (rd :: reads) = (mice_close P g2, st) /\
  ni_enable_mice P os3 g2 1 = (g1, 0).
Proof.
  intros Hi Ht Hc g1 g2. subst g1 g2.
  destruct g. simpl in Hi, Ht. subst.
  unfold ni_enable_mice. g_norm. rewrite Hc.
  change (negb (1 =? 0)) with true. change (negb (0 =? 0)) with false.
  cbn [negb andb fst]. g_norm. cbn [negb andb fst]. g_norm.
  repeat split.
  cbn [mice_loop]. g_norm. rewrite orb_true_r. reflexivity.
Qed.

End Lifecycle.

Lemma ni_shutdown_closes_handles_witness :
  ni_shutdown demo_platform (ni_shutdown demo_platform demo_registry).1
  = ((ni_shutdown demo_platform demo_registry).1, 0).
Proof.
  apply (ni_shutdown_closes_handles demo_platform demo_registry).
  vm_compute. reflexivity.
Defined.

Lemma mice_reader_started_once_witness :
  ni_enable_mice demo_platform bare_os
    (ni_enable_mice demo_platform demo_os
       (ni_enable_mice demo_platform demo_os demo_registry 1).1 0).1 1
  = ((ni_enable_mice demo_platform demo_os demo_registry 1).1, 0).
Proof.
  apply (mice_reader_started_once demo_platform demo_os demo_os bare_os
           demo_registry Z.of_nat mice_start MiceAgain []).
  - vm_compute. reflexivity.
  - vm_compute. reflexivity.
  - vm_compute. reflexivity.
Defined.

(** ** Replacing the filter *)

Section SetFilter.
Context (P : platform) (os : os_env).
Implicit Types (g : G P).

Lemma with_filter_registry g f u :
  registered P (with_filter_user P (with_filter P g f) u) = registered P g /\
  g_ndevi P (with_filter_user P (with_filter P g f) u) = g_ndevi P g /\
  g_devices P (with_filter_user P (with_filter P g f) u) = g_devices P g /\
  g_initialized P (with_filter_user P (with_filter P g f) u) = g_initialized P g /\
  g_filter P (with_filter_user P (with_filter P g f) u) = f /\
  g_filter_user P (with_filter_user P (with_filter P g f) u) = u.
Proof. destruct g. repeat split. Qed.

(** X28. [ni_set_device_filter] on an initialized engine with a sound
    registry returns 0 with the new filter in force and the registry sound
    and within its bound.  Afterwards every candidate node that opens and
    passes the new filter is registered, and every device that was
    registered and passes the new filter on re-evaluation still is. *)
Theorem set_filter_rescans g (f : option ni_device_filter) (u : Z) :
  g_initialized P g = true -> scan_inv P g ->
  let g0 := with_filter_user P (with_filter P g f) u in
  let g' := (ni_set_device_filter P os g f u).1 in
  (ni_set_device_filter P os g f u).2 = 0 /\
  g_filter P g' = f /\ g_filter_user P g' = u /\
  scan_inv P g' /\ ni_device_count P g' <= MAX_DEVICES /\
  (forall i, 0 <= i < MAX_DEVICES -> admissible P os g0 i = true ->
     has_device_id P g' i = true) /\
  (forall d, d ∈ registered P g -> keeps P os g0 d = true -> d ∈ registered P g').
Proof.
  intros Hi (Hwf & Hnd & Hr) g0 g'.
  destruct (with_filter_registry g f u) as (R1 & R2 & R3 & R4 & R5 & R6).
  fold g0 in R1, R2, R3, R4, R5, R6.
  assert (Hwf0 : registry_wf P g0).
  { unfold registry_wf. rewrite R2, R3. exact Hwf. }
  assert (Hg' : ni_set_device_filter P os g f u
                = (scan_devices P os (filter_reeval P os g0 (Z.to_nat (g_ndevi P g0))), 0)).
  { unfold ni_set_device_filter. fold g0. rewrite R4, Hi. reflexivity. }
  subst g'. rewrite Hg'. cbn [fst snd]. clear Hg'.
  destruct (filter_reeval_loop P os (Z.to_nat (g_ndevi P g0)) g0 Hwf0 (le_n _))
    as (F1 & F2 & F3 & F4 & _ & _).
  { intros j d Hj Hd. apply lookup_lt_Some in Hd.
    rewrite registered_length in Hd by exact Hwf0. lia. }
  revert F1 F2 F3 F4.
  generalize (filter_reeval P os g0 (Z.to_nat (g_ndevi P g0))).
  intros g1 F1 F2 F3 F4.
  assert (Hsub : ids_of P g1 ≡ₚ
                 map d_id (filter (fun d => keeps P os g0 d = true) (registered P g0))).
  { unfold ids_of. now rewrite F1. }
  assert (Hsl : map d_id (filter (fun d => keeps P os g0 d = true) (registered P g0))
                `sublist_of` ids_of P g).
  { unfold ids_of. rewrite R1. apply fmap_sublist, sublist_filter. }
  assert (Hinv1 : scan_inv P g1).
  { split; [exact F2|]. split.
    - rewrite Hsub. eapply sublist_NoDup; [exact Hnd | exact Hsl].
    - rewrite Hsub. apply Forall_forall. intros i Hi'.
      rewrite Forall_forall in Hr. apply Hr.
      eapply elem_of_sublist; [exact Hi' | exact Hsl]. }
  unfold scan_devices.
  destruct (scan_steps_spec P os (seqZ 0 MAX_DEVICES) g1 Hinv1)
    as (S1 & S2 & S3 & S4 & S5).
  { apply Forall_forall. intros i Hi'. apply elem_of_seqZ in Hi'. lia. }
  split; [reflexivity|]. split; [congruence|]. split; [congruence|].
  split; [exact S1|]. split; [apply S1|]. split.
  - intros i Hi' Hadm. apply S5; [apply elem_of_seqZ; lia|].
    rewrite (admissible_same_filter P os g0 g1 i F3 F4). exact Hadm.
  - intros d Hd Hk. eapply elem_of_prefix; [|exact S4].
    rewrite F1. apply list_elem_of_filter. split; [exact Hk|]. now rewrite R1.
Qed.

End SetFilter.

Lemma set_filter_rescans_witness :
  has_device_id demo_platform
    (ni_set_device_filter demo_platform demo_os demo_registry (Some only_event1) 0).1
    1 = true.
Proof.
  apply (set_filter_rescans demo_platform demo_os demo_registry (Some only_event1) 0).
  - vm_compute. reflexivity.
  - apply demo_registry_inv.
  - unfold MAX_DEVICES. lia.
  - vm_compute. reflexivity.
Defined.
